(** * eda_pipeline: the statistical helpers (utils.py) and the pipeline
      orchestrator (eda_pipeline.py), embedded in Rocq.

    Numbers.  The numeric code is embedded twice.

    For the orchestrator, and for the statements that do not depend on
    rounding, the cells of a dataset are rationals ([Q], missing cells are
    [None]) and what the code computes without a square root is computed
    exactly in [Q]; where the code takes square roots (Cohen's d, Pearson
    correlation) the arithmetic is that of [NumPy.float64]: exact real
    arithmetic completed with the IEEE special values, which is how numpy
    answers a division by zero (a warning and [inf] or [nan], never an
    exception).  This is an idealisation: rounding, overflow and the sign
    of zero are not in it.

    For what [cohens_d] and [detect_outliers] return, module [Binary64]
    has the two functions on IEEE binary64 values (the primitive floats),
    with numpy's summation and interpolation and pandas' int64 columns. *)

From Stdlib Require Import List String ZArith QArith Qround Reals Psatz Bool Arith.
From Stdlib Require Import Permutation Sorted Qreals.
From Stdlib Require Floats.
Import ListNotations.

(* ================================================================== *)
(** ** numpy's float64 scalars *)
(* ================================================================== *)

Module NumPy.

Local Open Scope R_scope.

Inductive float64 : Type :=
| Fin (r : R)
| PInf
| NInf
| NaN.


Definition isnan (x : float64) : bool :=
  match x with NaN => true | _ => false end.

(** The sign of a real, as a three-way comparison with zero. *)
Definition Rsgn (r : R) : comparison :=
  if Rlt_dec r 0 then Lt else if Rlt_dec 0 r then Gt else Eq.

Definition fopp (x : float64) : float64 :=
  match x with
  | Fin r => Fin (- r)
  | PInf => NInf
  | NInf => PInf
  | NaN => NaN
  end.

Definition fadd (x y : float64) : float64 :=
  match x, y with
  | NaN, _ | _, NaN => NaN
  | Fin a, Fin b => Fin (a + b)
  | PInf, NInf | NInf, PInf => NaN
  | PInf, _ | _, PInf => PInf
  | NInf, _ | _, NInf => NInf
  end.

Definition fsub (x y : float64) : float64 := fadd x (fopp y).

(** An infinity carrying the sign [s]; [Eq] stands for the invalid
    product [0 * inf]. *)
Definition inf_of_sign (s : comparison) : float64 :=
  match s with Lt => NInf | Gt => PInf | Eq => NaN end.

Definition fmul (x y : float64) : float64 :=
  match x, y with
  | NaN, _ | _, NaN => NaN
  | Fin a, Fin b => Fin (a * b)
  | PInf, Fin b | Fin b, PInf => inf_of_sign (Rsgn b)
  | NInf, Fin b | Fin b, NInf => inf_of_sign (CompOpp (Rsgn b))
  | PInf, PInf | NInf, NInf => PInf
  | PInf, NInf | NInf, PInf => NInf
  end.

(** Division; a zero divisor gives an infinity of the dividend's sign, or
    [NaN] for [0 / 0]. *)
Definition fdiv (x y : float64) : float64 :=
  match x, y with
  | NaN, _ | _, NaN => NaN
  | Fin a, Fin b =>
      if Req_dec_T b 0 then inf_of_sign (Rsgn a) else Fin (a / b)
  | Fin _, (PInf | NInf) => Fin 0
  | PInf, Fin b => if Rlt_dec b 0 then NInf else PInf
  | NInf, Fin b => if Rlt_dec b 0 then PInf else NInf
  | (PInf | NInf), (PInf | NInf) => NaN
  end.

Definition fsqrt (x : float64) : float64 :=
  match x with
  | Fin a => if Rlt_dec a 0 then NaN else Fin (sqrt a)
  | PInf => PInf
  | NInf => NaN
  | NaN => NaN
  end.

(** [x ** 2] *)
Definition fsquare (x : float64) : float64 := fmul x x.

(** A Python [int] used in float arithmetic. *)
Definition of_int (z : Z) : float64 := Fin (IZR z).

(** Python's [len]. *)
Definition len {A : Type} (xs : list A) : Z := Z.of_nat (List.length xs).

Definition fsum (xs : list float64) : float64 :=
  fold_left fadd xs (Fin 0).

(** [np.mean(a)]: the sum over the count; [nan] for an empty sample. *)
Definition mean (a : list R) : float64 :=
  fdiv (fsum (map Fin a)) (of_int (len a)).

(** [np.var(a, ddof)]: the mean squared deviation with divisor
    [max (n - ddof) 0]. *)
Definition var (a : list R) (ddof : Z) : float64 :=
  let arrmean := mean a in
  let x := map (fun v => fsub (Fin v) arrmean) a in
  let x := map (fun d => fmul d d) x in
  fdiv (fsum x) (of_int (Z.max (len a - ddof) 0)).

(** [np.std(a, ddof)] *)
Definition std (a : list R) (ddof : Z) : float64 := fsqrt (var a ddof).

End NumPy.

(* ================================================================== *)
(** ** pandas: series and data frames *)
(* ================================================================== *)

Module Pandas.

Import NumPy.
Local Open Scope Q_scope.

(** The storage type a column declares. *)
Inductive dtype : Type := Int64 | Float64 | Bool | Object | Datetime64.

(** [issubclass(dtype.type, np.number)] *)
Definition is_number (d : dtype) : bool :=
  match d with Int64 | Float64 => true | _ => false end.

Definition is_object (d : dtype) : bool :=
  match d with Object => true | _ => false end.

(** Neither numeric nor object. *)
Definition other_dtype (d : dtype) : bool :=
  negb (is_number d) && negb (is_object d).

(** What [DataFrame.corr(numeric_only=True)] keeps: the numeric blocks,
    which in pandas include the boolean ones. *)
Definition is_numeric_data (d : dtype) : bool :=
  match d with Int64 | Float64 | Bool => true | _ => false end.

Inductive scalar : Type :=
| Num (q : Q)
| Str (s : string)
| Boolean (b : bool)
| Timestamp (t : Z).

(** A cell; [None] is the missing value (NaN). *)
Definition cell : Type := option scalar.

Record Series : Type := { dtype_of : dtype; values : list cell }.

(** Columns in order, each with its label. *)
Definition DataFrame : Type := list (string * Series).

Definition columns (df : DataFrame) : list string := map fst df.

Definition scalar_eqb (a b : scalar) : bool :=
  match a, b with
  | Num x, Num y => Qeq_bool x y
  | Str x, Str y => String.eqb x y
  | Boolean x, Boolean y => Bool.eqb x y
  | Timestamp x, Timestamp y => Z.eqb x y
  | _, _ => false
  end.

(** Elementwise [==]: a missing value equals nothing, itself included. *)
Definition cell_eq (a b : cell) : bool :=
  match a, b with
  | Some x, Some y => scalar_eqb x y
  | _, _ => false
  end.

(** Identity of cells in pandas' hash tables ([unique], [duplicated]):
    all missing values are one key. *)
Definition cell_same (a b : cell) : bool :=
  match a, b with
  | Some x, Some y => scalar_eqb x y
  | None, None => true
  | _, _ => false
  end.

Definition isna (c : cell) : bool :=
  match c with None => true | Some _ => false end.

Definition notna (c : cell) : bool := negb (isna c).

(** [Series.dropna()] on the values. *)
Definition dropna (xs : list cell) : list cell := filter notna xs.

Fixpoint unique_from (seen xs : list cell) : list cell :=
  match xs with
  | [] => []
  | x :: rest =>
      if existsb (cell_same x) seen then unique_from seen rest
      else x :: unique_from (x :: seen) rest
  end.

(** [Series.unique()]: the distinct values in order of first appearance,
    the missing value among them when the series has one. *)
Definition unique (xs : list cell) : list cell := unique_from [] xs.

(** [df[col]] for a label; [None] stands for the [KeyError]. *)
Fixpoint getitem (df : DataFrame) (col : string) : option Series :=
  match df with
  | [] => None
  | (name, s) :: rest => if String.eqb name col then Some s else getitem rest col
  end.

Definition mem (x : string) (l : list string) : bool :=
  existsb (String.eqb x) l.

(** [df.drop(columns=ids, errors="ignore")] *)
Definition drop_columns (ids : list string) (df : DataFrame) : DataFrame :=
  filter (fun c => negb (mem (fst c) ids)) df.

(** [df.select_dtypes(include=...)] for a predicate on storage types. *)
Definition select_dtypes (include : dtype -> bool) (df : DataFrame) : DataFrame :=
  filter (fun c => include (dtype_of (snd c))) df.

(** Number of rows: the length of the columns. *)
Definition nrows (df : DataFrame) : nat :=
  match df with
  | [] => 0%nat
  | (_, s) :: _ => List.length (values s)
  end.

Definition shape (df : DataFrame) : nat * nat := (nrows df, List.length df).

(** The cells of row [i]. *)
Definition row (df : DataFrame) (i : nat) : list cell :=
  map (fun c => nth i (values (snd c)) None) df.

Definition rows (df : DataFrame) : list (list cell) :=
  map (row df) (seq 0 (nrows df)).

Fixpoint row_same (r1 r2 : list cell) : bool :=
  match r1, r2 with
  | [], [] => true
  | a :: r1', b :: r2' => cell_same a b && row_same r1' r2'
  | _, _ => false
  end.

Fixpoint duplicated_from (seen rs : list (list cell)) : list bool :=
  match rs with
  | [] => []
  | r :: rest => existsb (row_same r) seen :: duplicated_from (r :: seen) rest
  end.

(** [df.duplicated()]: a row is marked when an earlier row equals it. *)
Definition duplicated (df : DataFrame) : list bool :=
  duplicated_from [] (rows df).

(** [.sum()] of a boolean mask. *)
Definition count_true (mask : list bool) : nat :=
  List.length (filter (fun b => b) mask).

(** [series.isnull().mean()]: the share of missing cells; none for a
    series without rows. *)
Definition isnull_mean (s : Series) : option Q :=
  match values s with
  | [] => None
  | vs => Some (inject_Z (Z.of_nat (count_true (map isna vs)))
                / inject_Z (Z.of_nat (List.length vs)))
  end.

(** The numeric reading of a cell: numbers as they are, booleans as 0 and
    1, everything else missing. *)
Definition to_float (c : cell) : option Q :=
  match c with
  | Some (Num q) => Some q
  | Some (Boolean true) => Some 1
  | Some (Boolean false) => Some 0
  | _ => None
  end.

Definition to_floats (s : Series) : list (option Q) := map to_float (values s).

(** *** Numeric series: order statistics and elementwise comparison *)

(** The non-missing values of a numeric series. *)
Definition present (xs : list (option Q)) : list Q :=
  flat_map (fun x => match x with Some v => [v] | None => [] end) xs.

Fixpoint insert_sorted (x : Q) (l : list Q) : list Q :=
  match l with
  | [] => [x]
  | y :: l' => if Qle_bool x y then x :: l else y :: insert_sorted x l'
  end.

Definition sort_values (l : list Q) : list Q := fold_right insert_sorted [] l.

(** [Series.quantile(q)] with the default linear interpolation: missing
    values are masked out; on [n] sorted values the virtual index is
    [q * (n - 1)], and the result interpolates between the two order
    statistics around it.  A series without values has no quantile (NaN). *)
Definition quantile (series : list (option Q)) (q : Q) : option Q :=
  let v := sort_values (present series) in
  match v with
  | [] => None
  | _ =>
      let n := Z.of_nat (List.length v) in
      let virtual_index := q * inject_Z (n - 1) in
      let previous := Qfloor virtual_index in
      let next := Z.min (previous + 1) (n - 1) in
      let gamma := virtual_index - inject_Z previous in
      let a := nth (Z.to_nat previous) v 0 in
      let b := nth (Z.to_nat next) v 0 in
      Some (a + (b - a) * gamma)
  end.

(** Arithmetic and comparison with NaN: NaN is absorbing, and compares
    false with everything. *)
Definition nan_lift2 (f : Q -> Q -> Q) (a b : option Q) : option Q :=
  match a, b with
  | Some x, Some y => Some (f x y)
  | _, _ => None
  end.

Definition Qlt_bool (x y : Q) : bool := negb (Qle_bool y x).

Definition nan_lt (a b : option Q) : bool :=
  match a, b with
  | Some x, Some y => Qlt_bool x y
  | _, _ => false
  end.

(** [series < bound] and [series > bound] *)
Definition series_lt (series : list (option Q)) (bound : option Q) : list bool :=
  map (fun x => nan_lt x bound) series.

Definition series_gt (series : list (option Q)) (bound : option Q) : list bool :=
  map (fun x => nan_lt bound x) series.

(** [mask1 | mask2] on masks over the same index. *)
Fixpoint mask_or (m1 m2 : list bool) : list bool :=
  match m1, m2 with
  | a :: m1', b :: m2' => (a || b) :: mask_or m1' m2'
  | _, _ => []
  end.

(** *** Pearson correlation ([DataFrame.corr]) *)

(** The running state of the one-pass (Welford) recurrence over the rows
    where both columns have a value. *)
Record welford : Type :=
  { nobs : Z; meanx : Q; meany : Q; ssqdm_x : Q; ssqdm_y : Q; covxy : Q }.

Definition welford_zero : welford :=
  {| nobs := 0; meanx := 0; meany := 0; ssqdm_x := 0; ssqdm_y := 0; covxy := 0 |}.

Definition welford_step (st : welford) (vx vy : Q) : welford :=
  let n := (nobs st + 1)%Z in
  let dx := vx - meanx st in
  let dy := vy - meany st in
  let mx := meanx st + (1 / inject_Z n) * dx in
  let my := meany st + (1 / inject_Z n) * dy in
  {| nobs := n; meanx := mx; meany := my;
     ssqdm_x := ssqdm_x st + (vx - mx) * dx;
     ssqdm_y := ssqdm_y st + (vy - my) * dy;
     covxy := covxy st + (vx - mx) * dy |}.

Fixpoint welford_run (st : welford) (xs ys : list (option Q)) : welford :=
  match xs, ys with
  | Some vx :: xs', Some vy :: ys' => welford_run (welford_step st vx vy) xs' ys'
  | _ :: xs', _ :: ys' => welford_run st xs' ys'
  | _, _ => st
  end.

(** One entry of the correlation matrix (minimum of one observation):
    the co-moment over the square root of the product of the two sums of
    squared deviations, and NaN when that divisor is zero. *)
Definition pearson (xs ys : list (option Q)) : float64 :=
  let st := welford_run welford_zero xs ys in
  if (nobs st <? 1)%Z then NaN
  else
    let divisor := sqrt (Q2R (ssqdm_x st * ssqdm_y st)) in
    if Req_dec_T divisor 0 then NaN
    else Fin (Q2R (covxy st) / divisor).

(** [df.corr(numeric_only=True)]: for each numeric column, in column
    order, its correlations with the numeric columns, in column order. *)
Definition corr (df : DataFrame) : list (string * list (string * float64)) :=
  let num := select_dtypes is_numeric_data df in
  map (fun cy =>
         (fst cy,
          map (fun cx => (fst cx, pearson (to_floats (snd cx)) (to_floats (snd cy))))
              num))
      num.

(** Lookup of a label in a labelled sequence; [None] is the [KeyError]. *)
Fixpoint lookup {A : Type} (key : string) (l : list (string * A)) : option A :=
  match l with
  | [] => None
  | (k, v) :: rest => if String.eqb k key then Some v else lookup key rest
  end.

(** [series.drop(label)] on a series that has the label. *)
Definition drop_label {A : Type} (key : string) (l : list (string * A))
  : list (string * A) :=
  filter (fun e => negb (String.eqb (fst e) key)) l.

(** [values[mask]]: the entries where the mask holds. *)
Fixpoint boolean_index {A : Type} (xs : list A) (mask : list bool) : list A :=
  match xs, mask with
  | x :: xs', b :: mask' =>
      if b then x :: boolean_index xs' mask' else boolean_index xs' mask'
  | _, _ => []
  end.

End Pandas.

(* ================================================================== *)
(** ** utils.py *)
(* ================================================================== *)

Module Utils.

Import NumPy Pandas.
Local Open Scope Z_scope.

Definition classify_columns (df : DataFrame) : list string * list string :=
  let num_cols := columns (select_dtypes is_number df) in
  let cat_cols := columns (select_dtypes is_object df) in
  (num_cols, cat_cols).

(** [cohens_d] without rounding: the real numbers the float64 values
    stand for, with [inf] and [nan].  What the function returns in float64
    is [Binary64.cohens_d]. *)
Definition cohens_d (group1 group2 : list R) : float64 :=
  let mean1 := mean group1 in
  let mean2 := mean group2 in
  let std1 := std group1 1 in
  let std2 := std group2 1 in
  let n1 := len group1 in
  let n2 := len group2 in
  let pooled_std :=
    fsqrt
      (fdiv (fadd (fmul (of_int (n1 - 1)) (fsquare std1))
                  (fmul (of_int (n2 - 1)) (fsquare std2)))
            (of_int (n1 + n2 - 2))) in
  fdiv (fsub mean1 mean2) pooled_std.

(** [detect_outliers] without rounding, on the rationals the cells
    stand for.  What the function returns on float64 and int64 columns is
    [Binary64.detect_outliers]. *)
Definition detect_outliers (series : list (option Q)) : nat :=
  let q1 := quantile series (1 # 4) in
  let q3 := quantile series (3 # 4) in
  let iqr := nan_lift2 Qminus q3 q1 in
  let lower := nan_lift2 Qminus q1 (nan_lift2 Qmult (Some (3 # 2)%Q) iqr) in
  let upper := nan_lift2 Qplus q3 (nan_lift2 Qmult (Some (3 # 2)%Q) iqr) in
  count_true (mask_or (series_lt series lower) (series_gt series upper)).

End Utils.

(* ================================================================== *)
(** ** eda_pipeline.py *)
(* ================================================================== *)

Module Pipeline.

Import NumPy Pandas.
Local Open Scope string_scope.

(** *** Exceptions, outcomes and the collaborators *)

(** The exceptions of a run, all of them instances of Python's
    [Exception]. *)
Inductive exn : Type :=
| KeyError (key : string)
| AttributeError (attribute : string)
| ValueError (message : string)
| LibraryError (message : string).

Inductive outcome (A : Type) : Type :=
| Returned (a : A)
| Raised (e : exn).

Arguments Returned {A} a.
Arguments Raised {A} e.

(** What the run calls outside the repository, pandas' frame operations
    apart: the file system behind [pd.read_csv], scipy's tests, the
    cross-tabulation and the report generator.  Each of them is passed its
    arguments by value and may return or raise.  Drawing and saving a figure
    or a table is taken to succeed. *)
Record World : Type :=
  { read_csv : string -> outcome DataFrame;
    ttest_ind : list Q -> list Q -> outcome (float64 * float64);
    crosstab : list cell -> list cell -> list (list nat);
    chi2_contingency :
      list (list nat) -> outcome (float64 * float64 * nat * list (list float64));
    sv_analyze : DataFrame -> outcome string;
    show_html : string -> string -> outcome unit }.

(** *** Configuration *)

Record Plots : Type :=
  { distribution : bool; target_analysis_flag : bool; correlation : bool }.

(** The optional [id_columns] key of the configuration file: absent, set to
    [null], or set to a list of labels. *)
Inductive id_setting : Type :=
| Absent
| Null
| Labels (labels : list string).

Record Config : Type :=
  { data_path : string;
    report_path : string;
    id_columns : id_setting;
    target_column : string;
    outlier_detection : bool;
    plots : Plots }.

(** *** Log records and written artifacts *)

Inductive level : Type := INFO | WARNING | ERROR.

(** The messages of the log calls, by the values they format. *)
Inductive message : Type :=
| LoadingDataset
| DatasetShape (shape : nat * nat)
| IdColumnsRemoved
| DuplicateRows (duplicates : nat)
| CohensDRequiresBinaryTarget
| SweetvizFailed (e : exn)
| PipelineCompleted.

(** What a written file holds: the rows of a table, and for an image the
    values the code computes for it (the drawing itself is seaborn's). *)
Inductive artifact : Type :=
| MissingValuesCsv (missing : list (string * Q))
| DistributionPng (col : string) (data : list cell)
| VsTargetPng (col target : string) (p_value effect_size : float64)
| TTestCsv (stats_results : list (string * float64 * float64))
| CorrelationPng (corr : list (string * list (string * float64)))
| TargetCorrelationPng (target : string) (bars : list (string * float64))
| CategoricalPng (col target : string) (p : float64)
| Chi2Csv (results : list (string * float64))
| OutlierCountsCsv (results : list (string * nat))
| SweetvizHtml (report : string).

(** *** The pipeline object and its monad *)

(** The attributes of an [EDAPipeline] together with what the run has
    logged and written so far.  [df] is [None] until the data is loaded;
    [num_cols] and [cat_cols] do not exist before classification. *)
Record state : Type :=
  { df : option DataFrame;
    num_cols : option (list string);
    cat_cols : option (list string);
    log : list (level * message);
    files : list (string * artifact) }.

(** The object [__init__] leaves. *)
Definition init : state :=
  {| df := None; num_cols := None; cat_cols := None; log := []; files := [] |}.

Definition M (A : Type) : Type := state -> outcome A * state.

Definition ret {A : Type} (a : A) : M A := fun s => (Returned a, s).

Definition bind {A B : Type} (m : M A) (f : A -> M B) : M B :=
  fun s =>
    match m s with
    | (Returned a, s') => f a s'
    | (Raised e, s') => (Raised e, s')
    end.

Definition raise {A : Type} (e : exn) : M A := fun s => (Raised e, s).

(** A call to a collaborator. *)
Definition call {A : Type} (o : outcome A) : M A := fun s => (o, s).

Declare Scope pipeline_scope.
Delimit Scope pipeline_scope with pipeline.

Notation "x <- m ;; k" := (bind m (fun x => k))
  (at level 61, m at next level, right associativity) : pipeline_scope.
Notation "m ;; k" := (bind m (fun _ => k))
  (at level 61, right associativity) : pipeline_scope.

Local Open Scope pipeline_scope.

(** [try: body except Exception as e: handler(e)] *)
Definition try_except (body : M unit) (handler : exn -> M unit) : M unit :=
  fun s =>
    match body s with
    | (Returned a, s') => (Returned a, s')
    | (Raised e, s') => handler e s'
    end.

(** [self.df] where a frame is needed. *)
Definition get_df : M DataFrame :=
  fun s =>
    match df s with
    | Some d => (Returned d, s)
    | None => (Raised (AttributeError "df"), s)
    end.

Definition set_df (d : DataFrame) : M unit :=
  fun s =>
    (Returned tt,
     {| df := Some d; num_cols := num_cols s; cat_cols := cat_cols s;
        log := log s; files := files s |}).

Definition get_num_cols : M (list string) :=
  fun s =>
    match num_cols s with
    | Some l => (Returned l, s)
    | None => (Raised (AttributeError "num_cols"), s)
    end.

Definition get_cat_cols : M (list string) :=
  fun s =>
    match cat_cols s with
    | Some l => (Returned l, s)
    | None => (Raised (AttributeError "cat_cols"), s)
    end.

Definition set_cols (num cat : list string) : M unit :=
  fun s =>
    (Returned tt,
     {| df := df s; num_cols := Some num; cat_cols := Some cat;
        log := log s; files := files s |}).

(** Modelled from the spec: the logging collaborator that [get_logger] of
    logger.py returns, which is not among the sources.  It accepts leveled
    messages (info, warning, error); a call records the message and
    returns. *)
Definition logger (lvl : level) (msg : message) : M unit :=
  fun s =>
    (Returned tt,
     {| df := df s; num_cols := num_cols s; cat_cols := cat_cols s;
        log := log s ++ [(lvl, msg)]; files := files s |}).

(** [to_csv], [savefig] and [show_html] leave a file at [path]. *)
Definition write (path : string) (a : artifact) : M unit :=
  fun s =>
    (Returned tt,
     {| df := df s; num_cols := num_cols s; cat_cols := cat_cols s;
        log := log s; files := files s ++ [(path, a)] |}).

(** [d[col]], with its [KeyError]. *)
Definition column (d : DataFrame) (col : string) : M Series :=
  match getitem d col with
  | Some s => ret s
  | None => raise (KeyError col)
  end.

(** [d[cols]] for a list of labels. *)
Fixpoint subframe (d : DataFrame) (cols : list string) : M DataFrame :=
  match cols with
  | [] => ret []
  | c :: rest =>
      s <- column d c ;;
      sub <- subframe d rest ;;
      ret ((c, s) :: sub)
  end.

(** A [for] loop that appends to a local list. *)
Fixpoint for_each {A B : Type} (xs : list A) (acc : list B)
  (body : A -> list B -> M (list B)) : M (list B) :=
  match xs with
  | [] => ret acc
  | x :: rest => acc' <- body x acc ;; for_each rest acc' body
  end.

Section Steps.

Variable world : World.
Variable config : Config.

Definition load_data : M unit :=
  logger INFO LoadingDataset ;;
  d <- call (read_csv world (data_path config)) ;;
  set_df d ;;
  logger INFO (DatasetShape (shape d)).

(** [config.get("id_columns", [])]: the default for an absent key only; a
    [null] in the file is Python's [None]. *)
Definition get_id_columns : option (list string) :=
  match id_columns config with
  | Absent => Some []
  | Null => None
  | Labels l => Some l
  end.

(** [DataFrame.drop] raises on [columns=None], whatever [errors] is. *)
Definition drop_id_columns : M unit :=
  let ids := get_id_columns in
  d <- get_df ;;
  match ids with
  | None =>
      raise (ValueError
               "Need to specify at least one of 'labels', 'index' or 'columns'")
  | Some ids =>
      set_df (drop_columns ids d) ;;
      logger INFO IdColumnsRemoved
  end.

(** [missing[missing > 0]]: NaN compares false. *)
Definition positive_ratios (missing : list (string * option Q))
  : list (string * Q) :=
  flat_map (fun e => match snd e with
                     | Some r => if Qlt_bool 0 r then [(fst e, r)] else []
                     | None => []
                     end) missing.

Definition missing_value_analysis : M unit :=
  d <- get_df ;;
  let missing := map (fun c => (fst c, isnull_mean (snd c))) d in
  let missing := positive_ratios missing in
  write (report_path config ++ "missing_values.csv") (MissingValuesCsv missing).

Definition duplicate_analysis : M unit :=
  d <- get_df ;;
  let duplicates := count_true (duplicated d) in
  logger INFO (DuplicateRows duplicates).

Definition classify_columns : M unit :=
  d <- get_df ;;
  let (num, cat) := Utils.classify_columns d in
  set_cols num cat.

Definition distribution_plots : M unit :=
  if negb (distribution (plots config)) then ret tt
  else
    cols <- get_num_cols ;;
    for_each cols ([] : list unit)
      (fun col acc =>
         d <- get_df ;;
         s <- column d col ;;
         write (report_path config ++ col ++ "_distribution.png")
               (DistributionPng col (values s)) ;;
         ret acc) ;;
    ret tt.

(** [d[d[target] == g][col].dropna()], as numbers. *)
Definition group_values (target_values : list cell) (g : cell) (s : Series)
  : list Q :=
  present (map to_float
             (dropna (boolean_index (values s)
                                    (map (fun c => cell_eq c g) target_values)))).

Definition target_analysis : M unit :=
  if negb (target_analysis_flag (plots config)) then ret tt
  else
    let target := target_column config in
    d <- get_df ;;
    ts <- column d target ;;
    let unique_groups := unique (values ts) in
    (* [len(unique_groups) != 2] is every shape but the two-element one,
       which [g1, g2 = unique_groups] unpacks. *)
    match unique_groups with
    | [g1; g2] =>
        cols <- get_num_cols ;;
        stats_results <-
          for_each cols []
            (fun col stats_results =>
               if String.eqb col target then ret stats_results
               else
                 d <- get_df ;;
                 ts <- column d target ;;
                 s <- column d col ;;
                 let group1 := group_values (values ts) g1 s in
                 let group2 := group_values (values ts) g2 s in
                 t <- call (ttest_ind world group1 group2) ;;
                 let p_value := snd t in
                 let effect_size :=
                   Utils.cohens_d (map Q2R group1) (map Q2R group2) in
                 let stats_results :=
                   (stats_results ++ [(col, p_value, effect_size)])%list in
                 write (report_path config ++ col ++ "_vs_target.png")
                       (VsTargetPng col target p_value effect_size) ;;
                 ret stats_results) ;;
        write (report_path config ++ "ttest_effectsize_results.csv")
              (TTestCsv stats_results)
    | _ => logger WARNING CohensDRequiresBinaryTarget
    end.

Definition correlation_analysis : M unit :=
  if negb (correlation (plots config)) then ret tt
  else
    d <- get_df ;;
    cols <- get_num_cols ;;
    sub <- subframe d cols ;;
    write (report_path config ++ "correlation.png") (CorrelationPng (corr sub)).

Definition feature_target_correlation : M unit :=
  let target := target_column config in
  d <- get_df ;;
  match lookup target (corr d) with
  | None => raise (KeyError target)
  | Some series =>
      let corr := drop_label target series in
      write (report_path config ++ "target_correlation.png")
            (TargetCorrelationPng target corr)
  end.

Definition categorical_statistical_tests : M unit :=
  let target := target_column config in
  cols <- get_cat_cols ;;
  results <-
    for_each cols []
      (fun col results =>
         d <- get_df ;;
         s <- column d col ;;
         ts <- column d target ;;
         let contingency := crosstab world (values s) (values ts) in
         r <- call (chi2_contingency world contingency) ;;
         let p := snd (fst (fst r)) in
         let results := (results ++ [(col, p)])%list in
         write (report_path config ++ col ++ "_categorical.png")
               (CategoricalPng col target p) ;;
         ret results) ;;
  write (report_path config ++ "chi2_results.csv") (Chi2Csv results).

Definition outlier_analysis : M unit :=
  if negb (outlier_detection config) then ret tt
  else
    cols <- get_num_cols ;;
    results <-
      for_each cols []
        (fun col results =>
           d <- get_df ;;
           s <- column d col ;;
           ret (results ++ [(col, Utils.detect_outliers (to_floats s))])%list) ;;
    write (report_path config ++ "outlier_counts.csv") (OutlierCountsCsv results).

Definition generate_sweetviz : M unit :=
  try_except
    (d <- get_df ;;
     report <- call (sv_analyze world d) ;;
     call (show_html world report (report_path config ++ "sweetviz_report.html")) ;;
     write (report_path config ++ "sweetviz_report.html") (SweetvizHtml report))
    (fun e => logger ERROR (SweetvizFailed e)).

Definition run : M unit :=
  load_data ;;
  drop_id_columns ;;
  missing_value_analysis ;;
  duplicate_analysis ;;
  classify_columns ;;
  distribution_plots ;;
  target_analysis ;;
  correlation_analysis ;;
  feature_target_correlation ;;
  categorical_statistical_tests ;;
  outlier_analysis ;;
  generate_sweetviz ;;
  logger INFO PipelineCompleted.

End Steps.

End Pipeline.

(* ================================================================== *)
(** ** Notions the statements about a run are made of *)
(* ================================================================== *)

Module Properties.

Import NumPy Pandas Pipeline.
Local Open Scope string_scope.
Local Open Scope pipeline_scope.

(** *** Intermediate values of the helpers *)

(** What [cohens_d] binds to [pooled_std]. *)
Definition pooled_std (group1 group2 : list R) : float64 :=
  let std1 := std group1 1 in
  let std2 := std group2 1 in
  let n1 := len group1 in
  let n2 := len group2 in
  fsqrt
    (fdiv (fadd (fmul (of_int (n1 - 1)) (fsquare std1))
                (fmul (of_int (n2 - 1)) (fsquare std2)))
          (of_int (n1 + n2 - 2)))%Z.

(** The mask [detect_outliers] sums. *)
Definition outlier_mask (series : list (option Q)) : list bool :=
  let q1 := quantile series (1 # 4) in
  let q3 := quantile series (3 # 4) in
  let iqr := nan_lift2 Qminus q3 q1 in
  let lower := nan_lift2 Qminus q1 (nan_lift2 Qmult (Some (3 # 2)%Q) iqr) in
  let upper := nan_lift2 Qplus q3 (nan_lift2 Qmult (Some (3 # 2)%Q) iqr) in
  mask_or (series_lt series lower) (series_gt series upper).

(** *** [run] as a sequence of steps *)

(** The calls of [run], in order. *)
Definition steps (world : World) (config : Config) : list (M unit) :=
  [ load_data world config;
    drop_id_columns config;
    missing_value_analysis config;
    duplicate_analysis;
    classify_columns;
    distribution_plots config;
    target_analysis world config;
    correlation_analysis config;
    feature_target_correlation config;
    categorical_statistical_tests world config;
    outlier_analysis config;
    generate_sweetviz world config;
    logger INFO PipelineCompleted ].

Fixpoint sequence (l : list (M unit)) : M unit :=
  match l with
  | [] => ret tt
  | m :: l' => m ;; sequence l'
  end.

(** *** Relations between the states before and after a computation *)

(** Every execution of [m], returning or raising, takes a state to one
    related to it by [R]. *)
Definition steady (R : state -> state -> Prop) {A : Type} (m : M A) : Prop :=
  forall s, R s (snd (m s)).

(** The dataset is the same. *)
Definition same_df (s s' : state) : Prop := df s' = df s.

(** No file named [p] is written between [s] and [s']. *)
Definition no_new_file (p : string) (s s' : state) : Prop :=
  In p (map fst (files s')) -> In p (map fst (files s)).

(** Every file written so far is still there. *)
Definition files_kept (s s' : state) : Prop :=
  forall f, In f (files s) -> In f (files s').

(** The state after the warning of the t-test step. *)
Definition warned (s : state) : state :=
  snd (logger WARNING CohensDRequiresBinaryTarget s).

(** *** Paths of the files written *)

Definition sweetviz_path (config : Config) : string :=
  report_path config ++ "sweetviz_report.html".

Definition ttest_path (config : Config) : string :=
  report_path config ++ "ttest_effectsize_results.csv".

Definition target_correlation_path (config : Config) : string :=
  report_path config ++ "target_correlation.png".

Fixpoint last_ascii (s : string) : option Ascii.ascii :=
  match s with
  | EmptyString => None
  | String c EmptyString => Some c
  | String _ rest => last_ascii rest
  end.

(** *** The feature-vs-target chart *)

(** The bars of the feature-vs-target chart: one for each numeric column
    other than the target, in column order, with its correlation with the
    target values [ts]. *)
Definition target_bars (d : DataFrame) (target : string) (ts : Series)
  : list (string * float64) :=
  map (fun cx => (fst cx, pearson (to_floats (snd cx)) (to_floats ts)))
      (filter (fun c => negb (String.eqb (fst c) target))
              (select_dtypes is_numeric_data d)).

(** Ascending order of float64 values; NaN is not comparable. *)
Definition fle (x y : float64) : Prop :=
  match x, y with
  | Fin a, Fin b => (a <= b)%R
  | NInf, (Fin _ | PInf | NInf) => True
  | Fin _, PInf => True
  | PInf, PInf => True
  | _, _ => False
  end.

(** *** Classes of equal cells *)

(** Representatives of pairwise different classes. *)
Definition distinct_classes (reps : list cell) : Prop :=
  ForallOrdPairs (fun r r' => cell_same r r' = false) reps.

End Properties.

(* ================================================================== *)
(** ** Cohen's d as the specification words it *)
(* ================================================================== *)

Module EffectSizeSpec.

Import NumPy.
Local Open Scope R_scope.

Definition Rsum (xs : list R) : R := fold_right Rplus 0 xs.

(** Sample size, as a real. *)
Definition size (xs : list R) : R := INR (List.length xs).

(** Sample mean of a non-empty sample. *)
Definition sample_mean (xs : list R) : R := Rsum xs / size xs.

(** Sum of squared deviations from the sample mean. *)
Definition sum_sq_dev (xs : list R) : R :=
  Rsum (map (fun x => (x - sample_mean xs) * (x - sample_mean xs)) xs).

(** Bessel-corrected sample standard deviation (divisor [n - 1]); the
    quotient is that of [float64], so a single observation has none. *)
Definition sample_std (xs : list R) : float64 :=
  fsqrt (fdiv (Fin (sum_sq_dev xs)) (Fin (size xs - 1))).

(** [sqrt(((n1-1) s1^2 + (n2-1) s2^2) / (n1+n2-2))] *)
Definition spec_pooled_std (xs ys : list R) : float64 :=
  let s1 := sample_std xs in
  let s2 := sample_std ys in
  fsqrt
    (fdiv (fadd (fmul (Fin (size xs - 1)) (fmul s1 s1))
                (fmul (Fin (size ys - 1)) (fmul s2 s2)))
          (Fin (size xs + size ys - 2))).

(** [(mean1 - mean2) / pooled_std] *)
Definition spec_cohens_d (xs ys : list R) : float64 :=
  fdiv (Fin (sample_mean xs - sample_mean ys)) (spec_pooled_std xs ys).

End EffectSizeSpec.

(* ================================================================== *)
(** ** The IQR rule as the specification words it *)
(* ================================================================== *)

Module OutlierSpec.

Local Open Scope Q_scope.

(** [r] is the [q]-quantile of the values [xs] by linear interpolation:
    with the values in ascending order [s] and [q * (n - 1) = k + t],
    [0 <= t < 1], it lies the fraction [t] of the way from the [k]-th to
    the next order statistic (the last one is its own successor). *)
Definition linear_quantile (xs : list Q) (q r : Q) : Prop :=
  exists (s : list Q) (k : nat) (t : Q),
    Permutation s xs /\ Sorted Qle s /\
    (k < List.length s)%nat /\ 0 <= t /\ t < 1 /\
    q * inject_Z (Z.of_nat (List.length xs) - 1) == inject_Z (Z.of_nat k) + t /\
    r == nth k s 0
         + t * (nth (Nat.min (S k) (List.length s - 1)) s 0 - nth k s 0).

(** Strictly outside the closed interval [[lower, upper]]. *)
Definition outside (lower upper x : Q) : Prop := x < lower \/ upper < x.

Definition outsideb (lower upper x : Q) : bool :=
  negb (Qle_bool lower x) || negb (Qle_bool x upper).

(** The fence [[Q1 - 1.5 IQR, Q3 + 1.5 IQR]] with [IQR = Q3 - Q1]. *)
Definition fence (q1 q3 : Q) : Q * Q :=
  let iqr := q3 - q1 in
  (q1 - (3 # 2) * iqr, q3 + (3 # 2) * iqr).

(** How many of the values lie strictly outside the fence. *)
Definition count_outside (q1 q3 : Q) (xs : list Q) : nat :=
  List.length (filter (outsideb (fst (fence q1 q3)) (snd (fence q1 q3))) xs).

End OutlierSpec.

(* ================================================================== *)
(** ** Sample inputs *)
(* ================================================================== *)

Module Samples.

Import Pandas.
Local Open Scope Q_scope.

(** The sequence [1, 2, 3, 4, 5, 100]. *)
Definition sample_with_outlier : list (option Q) :=
  [Some 1; Some 2; Some 3; Some 4; Some 5; Some 100].

(** Both quartiles are 5: the interquartile range is zero. *)
Definition sample_zero_iqr : list (option Q) :=
  [Some 5; Some 5; None; Some 5; Some 7; Some 5].

End Samples.

(* ================================================================== *)
(** ** Sample datasets, configurations and collaborators *)
(* ================================================================== *)

Module Scenarios.

Import NumPy Pandas Pipeline.
Local Open Scope string_scope.

Definition num (z : Z) : cell := Some (Num (inject_Z z)).
Definition str (s : string) : cell := Some (Str s).
Definition boolean (b : bool) : cell := Some (Boolean b).

Definition series (d : dtype) (vs : list cell) : Series :=
  {| dtype_of := d; values := vs |}.

(** Collaborators that never raise: the data file holds [d], the tests
    and the report generator return placeholders. *)
Definition quiet_world (d : DataFrame) : World :=
  {| read_csv := fun _ => Returned d;
     ttest_ind := fun _ _ => Returned (NaN, NaN);
     crosstab := fun _ _ => [];
     chi2_contingency := fun _ => Returned (NaN, NaN, 0%nat, []);
     sv_analyze := fun _ => Returned "<html>";
     show_html := fun _ _ => Returned tt |}.

(** The same, with a report generator that fails. *)
Definition failing_report_world (d : DataFrame) : World :=
  {| read_csv := fun _ => Returned d;
     ttest_ind := fun _ _ => Returned (NaN, NaN);
     crosstab := fun _ _ => [];
     chi2_contingency := fun _ => Returned (NaN, NaN, 0%nat, []);
     sv_analyze := fun _ => Raised (LibraryError "sweetviz");
     show_html := fun _ _ => Returned tt |}.

Definition config_with (target : string) (flags : bool) : Config :=
  {| data_path := "data.csv";
     report_path := "reports/";
     id_columns := Labels ["id"];
     target_column := target;
     outlier_detection := flags;
     plots := {| distribution := flags;
                 target_analysis_flag := flags;
                 correlation := flags |} |}.

(** A numeric target with three values. *)
Definition patients : DataFrame :=
  [ ("id", series Int64 [num 1; num 2; num 3; num 4]);
    ("age", series Int64 [num 30; num 40; num 50; num 60]);
    ("city", series Object [str "a"; str "b"; str "a"; str "b"]);
    ("smoker", series Bool [boolean true; boolean false; boolean true; boolean false]);
    ("stage", series Int64 [num 0; num 1; num 2; num 1]) ].

(** A textual target with three classes. *)
Definition flowers : DataFrame :=
  [ ("sepal", series Float64 [num 1; num 2; num 3]);
    ("species", series Object [str "setosa"; str "versicolor"; str "virginica"]) ].

(** Three features in perfect linear relation with the target [y]. *)
Definition trend : DataFrame :=
  [ ("a", series Int64 [num 1; num 2; num 3]);
    ("b", series Int64 [num 3; num 2; num 1]);
    ("c", series Int64 [num 2; num 4; num 6]);
    ("y", series Int64 [num 1; num 2; num 3]) ].

(** A target that is binary apart from a missing entry. *)
Definition survey : DataFrame :=
  [ ("score", series Float64 [num 1; num 2; num 3; num 4]);
    ("answer", series Float64 [num 0; num 1; None; num 0]) ].

End Scenarios.

(* ================================================================== *)
(** ** Further notions: effects of a step *)
(* ================================================================== *)

Module MoreProperties.

Import NumPy Pandas Pipeline Properties.
Local Open Scope string_scope.

(** The state with the files [fs] written after those it has. *)
Definition add_files (fs : list (string * artifact)) (s : state) : state :=
  {| df := df s; num_cols := num_cols s; cat_cols := cat_cols s;
     log := log s; files := (files s ++ fs)%list |}.

(** The state with the records [l] logged after those it has. *)
Definition add_log (l : list (level * message)) (s : state) : state :=
  {| df := df s; num_cols := num_cols s; cat_cols := cat_cols s;
     log := (log s ++ l)%list; files := files s |}.

(** The paths written so far. *)
Definition paths (s : state) : list string := map fst (files s).

(** The identifier columns the configuration names, none by default. *)
Definition ids_of (config : Config) : list string :=
  match id_columns config with Labels l => l | Absent | Null => [] end.

(** The pipeline holds the dataset [d] and the classification [num],
    [cat]. *)
Definition ready (d : DataFrame) (num cat : list string) (s : state) : Prop :=
  df s = Some d /\ num_cols s = Some num /\ cat_cols s = Some cat.

(** *** Paths of the other files *)

Definition missing_values_path (config : Config) : string :=
  report_path config ++ "missing_values.csv".

Definition distribution_path (config : Config) (col : string) : string :=
  report_path config ++ col ++ "_distribution.png".

Definition vs_target_path (config : Config) (col : string) : string :=
  report_path config ++ col ++ "_vs_target.png".

Definition correlation_path (config : Config) : string :=
  report_path config ++ "correlation.png".

Definition categorical_path (config : Config) (col : string) : string :=
  report_path config ++ col ++ "_categorical.png".

Definition chi2_path (config : Config) : string :=
  report_path config ++ "chi2_results.csv".

Definition outlier_counts_path (config : Config) : string :=
  report_path config ++ "outlier_counts.csv".

(** The features the t-test step tests: the numeric columns other than
    the target. *)
Definition features (target : string) (num : list string) : list string :=
  filter (fun col => negb (String.eqb col target)) num.

(** A pipeline that holds the dataset [d] and its classification, and has
    logged and written nothing. *)
Definition classified (d : DataFrame) : state :=
  {| df := Some d;
     num_cols := Some (fst (Utils.classify_columns d));
     cat_cols := Some (snd (Utils.classify_columns d));
     log := []; files := [] |}.

(** *** What a whole run leaves behind *)

(** Written under the report directory. *)
Definition under (config : Config) (p : string) : Prop :=
  exists name, p = report_path config ++ name.

(** Whatever is written between [s] and [s'] is written under the report
    directory. *)
Definition only_under (config : Config) (s s' : state) : Prop :=
  Forall (under config) (paths s) -> Forall (under config) (paths s').

(** The completion message is not logged between [s] and [s']. *)
Definition not_completed (s s' : state) : Prop :=
  In (INFO, PipelineCompleted) (log s') -> In (INFO, PipelineCompleted) (log s).

(** [unique()] of the target has two entries; the missing value, when the
    target has one, is one of them. *)
Definition binary (ts : Series) : bool :=
  match unique (values ts) with
  | [_; _] => true
  | _ => false
  end.

(** The report file, when the report generator and its export return. *)
Definition sweetviz_files (world : World) (config : Config) (d : DataFrame)
  : list string :=
  match sv_analyze world d with
  | Returned report =>
      match show_html world report (sweetviz_path config) with
      | Returned _ => [sweetviz_path config]
      | Raised _ => []
      end
  | Raised _ => []
  end.

(** The files of a complete run over the dataset [d] classified as [num]
    and [cat], with target values [ts], in the order they are written. *)
Definition report_files (world : World) (config : Config) (d : DataFrame)
  (num cat : list string) (ts : Series) : list string :=
  ([missing_values_path config]
   ++ (if distribution (plots config)
       then map (distribution_path config) num else [])
   ++ (if target_analysis_flag (plots config) && binary ts
       then map (vs_target_path config) (features (target_column config) num)
            ++ [ttest_path config]
       else [])
   ++ (if correlation (plots config) then [correlation_path config] else [])
   ++ [target_correlation_path config]
   ++ map (categorical_path config) cat
   ++ [chi2_path config]
   ++ (if outlier_detection config then [outlier_counts_path config] else [])
   ++ sweetviz_files world config d)%list.

(** Collaborators whose data file cannot be read. *)
Definition unreadable_world : World :=
  {| read_csv := fun _ => Raised (LibraryError "FileNotFoundError");
     ttest_ind := fun _ _ => Returned (NaN, NaN);
     crosstab := fun _ _ => [];
     chi2_contingency := fun _ => Returned (NaN, NaN, 0%nat, []);
     sv_analyze := fun _ => Returned "<html>";
     show_html := fun _ _ => Returned tt |}.

(** A target with one class and a missing entry. *)
Definition half_labelled : DataFrame :=
  [ ("dose", Scenarios.series Float64
               [Scenarios.num 1; Scenarios.num 2; Scenarios.num 3]);
    ("treated", Scenarios.series Float64
                  [Scenarios.num 1; None; Scenarios.num 1]) ].

(** Collaborators whose t-test fails on a first group that starts at 10
    or above. *)
Definition failing_ttest_world : World :=
  {| read_csv := fun _ => Raised (LibraryError "FileNotFoundError");
     ttest_ind := fun group1 _ =>
                    match group1 with
                    | x :: _ => if Qle_bool 10 x
                                then Raised (LibraryError "ttest_ind")
                                else Returned (NaN, NaN)
                    | [] => Returned (NaN, NaN)
                    end;
     crosstab := fun _ _ => [];
     chi2_contingency := fun _ => Returned (NaN, NaN, 0%nat, []);
     sv_analyze := fun _ => Returned "<html>";
     show_html := fun _ _ => Returned tt |}.

End MoreProperties.

(* ================================================================== *)
(** ** IEEE binary64: [utils.py] with the rounding of float64 *)
(* ================================================================== *)

(** The two numeric helpers once more, on IEEE binary64 values, for the
    statements that depend on how float64 rounds, overflows or converts
    integers.  (The modules above compute without rounding.) *)
Module Binary64.

Import PrimFloat.
Local Open Scope float_scope.

(** A Python [int] or an int64 converted to float64: the nearest value,
    ties to even. *)
Definition of_int (z : Z) : float :=
  FloatOps.SF2Prim
    (SpecFloat.binary_normalize FloatOps.prec FloatOps.emax z 0 false).

(** Python's [len]. *)
Definition len {A : Type} (xs : list A) : Z := Z.of_nat (List.length xs).

(** *** [np.add.reduce] on a float64 array *)

(** [r[j] += a[i + j]] for the eight accumulators. *)
Fixpoint add_lanes (r block : list float) : list float :=
  match r, block with
  | x :: r', y :: block' => (x + y) :: add_lanes r' block'
  | _, _ => r
  end.

(** The loop over the full blocks of eight after the first one. *)
Fixpoint accumulate (blocks : nat) (r xs : list float)
  : list float * list float :=
  match blocks with
  | O => (r, xs)
  | S k => accumulate k (add_lanes r (firstn 8 xs)) (skipn 8 xs)
  end.

Definition combine_lanes (r : list float) : float :=
  match r with
  | [r0; r1; r2; r3; r4; r5; r6; r7] =>
      ((r0 + r1) + (r2 + r3)) + ((r4 + r5) + (r6 + r7))
  | _ => fold_left add r neg_zero
  end.

(** numpy's pairwise summation: fewer than 8 values are added from left to
    right; up to 128 values go through eight accumulators, the remainder
    added at the end; a longer array is split near its middle, at a
    multiple of 8.  [fuel] bounds the depth of the splitting; the length
    of the array is enough. *)
Fixpoint pairwise_sum (fuel : nat) (xs : list float) : float :=
  let n := List.length xs in
  if (n <? 8)%nat then fold_left add xs neg_zero
  else if (n <=? 128)%nat then
    let (r, rest) := accumulate (n / 8 - 1) (firstn 8 xs) (skipn 8 xs) in
    fold_left add rest (combine_lanes r)
  else
    match fuel with
    | O => fold_left add xs neg_zero
    | S fuel' =>
        let n2 := (n / 2 - (n / 2) mod 8)%nat in
        pairwise_sum fuel' (firstn n2 xs) + pairwise_sum fuel' (skipn n2 xs)
    end.

(** [np.sum]: the reduction starts from the identity [0.0]. *)
Definition sum (xs : list float) : float :=
  0 + pairwise_sum (List.length xs) xs.

(** [np.mean(a)] *)
Definition mean (a : list float) : float := sum a / of_int (len a).

(** [np.var(a, ddof)] *)
Definition var (a : list float) (ddof : Z) : float :=
  let arrmean := mean a in
  let x := map (fun v => v - arrmean) a in
  let x := map (fun d => d * d) x in
  sum x / of_int (Z.max (len a - ddof) 0).

(** [np.std(a, ddof)] *)
Definition std (a : list float) (ddof : Z) : float := sqrt (var a ddof).

(** [cohens_d] of utils.py; the power [std ** 2] is taken as the
    product. *)
Definition cohens_d (group1 group2 : list float) : float :=
  let mean1 := mean group1 in
  let mean2 := mean group2 in
  let std1 := std group1 1 in
  let std2 := std group2 1 in
  let n1 := len group1 in
  let n2 := len group2 in
  let pooled_std :=
    sqrt ((of_int (n1 - 1) * (std1 * std1) + of_int (n2 - 1) * (std2 * std2))
          / of_int (n1 + n2 - 2)) in
  (mean1 - mean2) / pooled_std.

(** *** [Series.quantile] *)

(** A numeric column: float64 values, NaN the missing value, or int64
    values. *)
Inductive numeric : Type :=
| Float64Series (values : list float)
| Int64Series (values : list Z).

(** The values as the comparisons with a float64 scalar see them. *)
Definition as_floats (series : numeric) : list float :=
  match series with
  | Float64Series xs => xs
  | Int64Series zs => map of_int zs
  end.

Definition notna (x : float) : bool := negb (is_nan x).

(** The values that are not missing. *)
Definition present (series : numeric) : list float :=
  filter notna (as_floats series).

(** Ascending order, by insertion. *)
Fixpoint insert {A : Type} (le : A -> A -> bool) (x : A) (l : list A) : list A :=
  match l with
  | [] => [x]
  | y :: l' => if le x y then x :: l else y :: insert le x l'
  end.

Definition sort {A : Type} (le : A -> A -> bool) (l : list A) : list A :=
  fold_right (insert le) [] l.

(** [np.floor] of a finite value, as an integer. *)
Definition floor (x : float) : Z :=
  match FloatOps.Prim2SF x with
  | SpecFloat.S754_finite s m e =>
      let v := SpecFloat.cond_Zopp s (Z.pos m) in
      if (0 <=? e)%Z then v * 2 ^ e else v / 2 ^ (- e)
  | _ => 0%Z
  end.

(** The two indexes numpy interpolates between and the weight of the
    second, for the quantile [q] of [n] sorted values: the virtual index
    [(n - 1) * q], its floor and the next index, both the last index [-1]
    when the virtual index reaches it. *)
Definition position (n : nat) (q : float) : Z * Z * float :=
  let virtual := of_int (Z.of_nat n - 1) * q in
  let above := of_int (Z.of_nat n - 1) <=? virtual in
  let below := virtual <? 0 in
  let previous := if below then 0%Z else if above then (-1)%Z else floor virtual in
  let next := if below then 0%Z else if above then (-1)%Z
              else (floor virtual + 1)%Z in
  (previous, next, virtual - of_int previous).

(** [arr[i]] for a Python index, a negative one counting from the end.
    The indexes of [position] lie within the array; [default] stands for
    the [IndexError] of any other. *)
Definition item {A : Type} (arr : list A) (i : Z) (default : A) : A :=
  nth (Z.to_nat (if (i <? 0)%Z then Z.of_nat (List.length arr) + i else i))
      arr default.

(** numpy's [_lerp(a, b, t)], with the difference [b - a] as the array's
    dtype computes it. *)
Definition lerp (a b diff t : float) : float :=
  if 0.5 <=? t then b - diff * (1 - t) else a + diff * t.

(** int64 subtraction, which wraps around. *)
Definition wrap64 (z : Z) : Z := ((z + 2 ^ 63) mod 2 ^ 64 - 2 ^ 63)%Z.

(** [series.quantile(q)] with linear interpolation, for [0 <= q <= 1]:
    the missing values are dropped and [np.percentile] is given the rest
    with [q * 100]; [NaN] when nothing is left. *)
Definition quantile (series : numeric) (q : float) : float :=
  let q := (q * 100) / 100 in
  match series with
  | Float64Series xs =>
      let arr := sort leb (filter notna xs) in
      match arr with
      | [] => nan
      | first :: _ =>
          let '(previous, next, gamma) := position (List.length arr) q in
          let a := item arr previous first in
          let b := item arr next first in
          lerp a b (b - a) gamma
      end
  | Int64Series zs =>
      let arr := sort Z.leb zs in
      match arr with
      | [] => nan
      | first :: _ =>
          let '(previous, next, gamma) := position (List.length arr) q in
          let a := item arr previous first in
          let b := item arr next first in
          lerp (of_int a) (of_int b) (of_int (wrap64 (b - a))) gamma
      end
  end.

(** [detect_outliers] of utils.py *)
Definition detect_outliers (series : numeric) : nat :=
  let q1 := quantile series 0.25 in
  let q3 := quantile series 0.75 in
  let iqr := q3 - q1 in
  let lower := q1 - 1.5 * iqr in
  let upper := q3 + 1.5 * iqr in
  Pandas.count_true
    (Pandas.mask_or (map (fun x => x <? lower) (as_floats series))
                    (map (fun x => upper <? x) (as_floats series))).

End Binary64.

(* ================================================================== *)
(** ** Notions for the statements in binary64 *)
(* ================================================================== *)

Module Binary64Properties.

Import PrimFloat Binary64.
Local Open Scope float_scope.

(** *** Cohen's d as the specification words it, in float64 *)





(** *** The IQR rule as the specification words it, in float64 *)

(** Strictly outside the closed interval [[lower, upper]]. *)
Definition strictly_outside (lower upper x : float) : bool :=
  (x <? lower) || (upper <? x).

(** The fence [[Q1 - 1.5 IQR, Q3 + 1.5 IQR]] with [IQR = Q3 - Q1]. *)
Definition iqr_fence (q1 q3 : float) : float * float :=
  let iqr := q3 - q1 in
  (q1 - 1.5 * iqr, q3 + 1.5 * iqr).

(** Ascending order of float64 values. *)
Definition ascending (x y : float) : Prop := (x <=? y) = true.

(** The value linear interpolation gives at the quantile [q] of the
    sorted values [arr]: the one at the virtual index [(n - 1) * q], the
    fraction [gamma] of the way from the order statistic before it to the
    next one. *)
Definition interpolated (arr : list float) (q : float) : float :=
  let '(previous, next, gamma) := position (List.length arr) q in
  let a := item arr previous (hd nan arr) in
  let b := item arr next (hd nan arr) in
  lerp a b (b - a) gamma.

(** The same for sorted int64 values: the difference is taken in int64
    and the rest in float64. *)
Definition interpolated_int (arr : list Z) (q : float) : float :=
  let '(previous, next, gamma) := position (List.length arr) q in
  let a := item arr previous (hd 0%Z arr) in
  let b := item arr next (hd 0%Z arr) in
  lerp (of_int a) (of_int b) (of_int (wrap64 (b - a))) gamma.

(** *** Values up to the sign of zero, values that are not finite *)

(** A binary64 value that is NaN or a zero. *)
Definition zeroish (z : SpecFloat.spec_float) : Prop :=
  z = SpecFloat.S754_nan \/ exists s, z = SpecFloat.S754_zero s.

(** [q] is NaN or compares equal to [v]. *)
Definition near (v q : SpecFloat.spec_float) : Prop :=
  q = SpecFloat.S754_nan \/ SpecFloat.SFcompare q v = Some Eq.

Definition nearf (v q : float) : Prop :=
  near (FloatOps.Prim2SF v) (FloatOps.Prim2SF q).

(** A binary64 value that is NaN or an infinity. *)
Definition unbounded (z : SpecFloat.spec_float) : Prop :=
  z = SpecFloat.S754_nan \/ exists s, z = SpecFloat.S754_infinity s.

End Binary64Properties.

(** Samples for the statements in binary64. *)
Module Samples64.

Import PrimFloat Binary64.
Local Open Scope float_scope.


Definition one_to_hundred : list Z := [1; 2; 3; 4; 5; 100]%Z.

(** Five values and a missing one; both quartiles are 5. *)
Definition zero_iqr : numeric := Float64Series [5; 5; nan; 5; 7; 5].

(** [2^53 + 1] and four times [2^53]: int64 values that float64 does not
    tell apart. *)
Definition beyond_2_53 : list Z :=
  [9007199254740993; 9007199254740992; 9007199254740992;
   9007199254740992; 9007199254740992]%Z.

(** 0.7, 1.8, 1.5 and 3.8 as float64 holds them. *)
Definition on_the_fence : numeric :=
  Float64Series [0x1.6666666666666p-1; 0x1.ccccccccccccdp+0; 1.5;
                 0x1.e666666666666p+1].

End Samples64.

(* ================================================================== *)
(** ** Facts about float64 arithmetic *)
(* ================================================================== *)

Module NumPyFacts.

Import NumPy.
Local Open Scope R_scope.

Ltac rsgn :=
  unfold Rsgn in *;
  repeat match goal with
         | |- context [Rlt_dec ?a ?b] => destruct (Rlt_dec a b)
         | |- context [Req_dec_T ?a ?b] => destruct (Req_dec_T a b)
         end;
  simpl; try reflexivity; try (exfalso; lra); try (f_equal; lra).





Lemma fdiv_0_0 : fdiv (Fin 0) (Fin 0) = NaN.
Proof. simpl. rsgn. Qed.







Lemma mean_empty : mean [] = NaN.
Proof.
  unfold mean, fsum, of_int, len. simpl. rsgn.
Qed.

End NumPyFacts.

Module PandasFacts.

Import Pandas.
Local Open Scope Q_scope.

Lemma Qlt_bool_iff (x y : Q) : Qlt_bool x y = true <-> x < y.
Proof.
  unfold Qlt_bool. rewrite negb_true_iff, <- not_true_iff_false, Qle_bool_iff.
  split; [apply Qnot_le_lt | apply Qlt_not_le].
Qed.

Lemma Qlt_bool_false_iff (x y : Q) : Qlt_bool x y = false <-> y <= x.
Proof.
  unfold Qlt_bool. rewrite negb_false_iff. apply Qle_bool_iff.
Qed.

Lemma insert_sorted_perm (x : Q) (l : list Q) :
  Permutation (insert_sorted x l) (x :: l).
Proof.
  induction l as [|y l IH]; simpl.
  - apply Permutation_refl.
  - destruct (Qle_bool x y).
    + apply Permutation_refl.
    + apply perm_trans with (y :: x :: l).
      * now apply perm_skip.
      * apply perm_swap.
Qed.

Lemma sort_values_perm (l : list Q) : Permutation (sort_values l) l.
Proof.
  induction l as [|x l IH]; simpl.
  - apply perm_nil.
  - apply perm_trans with (x :: sort_values l).
    + apply insert_sorted_perm.
    + now apply perm_skip.
Qed.

Lemma sort_values_length (l : list Q) :
  List.length (sort_values l) = List.length l.
Proof. apply Permutation_length, sort_values_perm. Qed.

Lemma insert_sorted_hd (a x : Q) (l : list Q) :
  a <= x -> HdRel Qle a l -> HdRel Qle a (insert_sorted x l).
Proof.
  intros Hax Hl. destruct l as [|y l]; simpl.
  - now constructor.
  - destruct (Qle_bool x y); constructor; [assumption|].
    now inversion Hl.
Qed.

Lemma insert_sorted_sorted (x : Q) (l : list Q) :
  Sorted Qle l -> Sorted Qle (insert_sorted x l).
Proof.
  induction l as [|y l IH]; intros Hs; simpl.
  - repeat constructor.
  - destruct (Qle_bool x y) eqn:E.
    + constructor; [assumption|]. constructor. now apply Qle_bool_iff.
    + inversion Hs as [|? ? Hs' Hhd]; subst.
      constructor; [now apply IH|].
      apply insert_sorted_hd; [|assumption].
      apply Qlt_le_weak, Qlt_bool_iff. unfold Qlt_bool. now rewrite E.
Qed.

Lemma sort_values_sorted (l : list Q) : Sorted Qle (sort_values l).
Proof.
  induction l as [|x l IH]; simpl.
  - constructor.
  - now apply insert_sorted_sorted.
Qed.

Lemma mask_or_map {A : Type} (f g : A -> bool) (l : list A) :
  mask_or (map f l) (map g l) = map (fun x => f x || g x) l.
Proof. induction l as [|x l IH]; simpl; [reflexivity|now rewrite IH]. Qed.

Lemma quantile_none (series : list (option Q)) (q : Q) :
  quantile series q = None <-> present series = [].
Proof.
  unfold quantile. split.
  - destruct (sort_values (present series)) eqn:E; [|discriminate].
    intros _. apply (f_equal (@List.length Q)) in E.
    rewrite sort_values_length in E. now apply length_zero_iff_nil.
  - intros ->. reflexivity.
Qed.

(** The indices [quantile] reads, for a probability [q] in [[0, 1]] and
    [n] values. *)
Lemma quantile_indices (q : Q) (n : nat) :
  0 <= q <= 1 -> (0 < n)%nat ->
  let pos := q * inject_Z (Z.of_nat n - 1) in
  (0 <= Qfloor pos)%Z /\ (Z.to_nat (Qfloor pos) < n)%nat /\
  Z.to_nat (Z.min (Qfloor pos + 1) (Z.of_nat n - 1))
  = Nat.min (S (Z.to_nat (Qfloor pos))) (n - 1) /\
  0 <= pos - inject_Z (Qfloor pos) /\ pos - inject_Z (Qfloor pos) < 1.
Proof.
  intros [Hq0 Hq1] Hn pos.
  assert (Hm : 0 <= inject_Z (Z.of_nat n - 1)).
  { change 0 with (inject_Z 0). rewrite <- Zle_Qle. lia. }
  assert (Hpos0 : 0 <= pos) by (now apply Qmult_le_0_compat).
  assert (Hpos1 : pos <= inject_Z (Z.of_nat n - 1)).
  { unfold pos. rewrite <- (Qmult_1_l (inject_Z (Z.of_nat n - 1))) at 2.
    now apply Qmult_le_compat_r. }
  assert (Hf0 : (0 <= Qfloor pos)%Z).
  { apply Qfloor_resp_le in Hpos0. exact Hpos0. }
  assert (Hf1 : (Qfloor pos <= Z.of_nat n - 1)%Z).
  { apply Qfloor_resp_le in Hpos1. now rewrite Qfloor_Z in Hpos1. }
  pose proof (Qfloor_le pos) as Hle.
  pose proof (Qlt_floor pos) as Hlt. rewrite inject_Z_plus in Hlt.
  change (inject_Z 1) with 1 in Hlt.
  clearbody pos. generalize dependent (inject_Z (Qfloor pos)). intros f Hle Hlt.
  repeat split; try lia; lra.
Qed.


Lemma quantile_some (series : list (option Q)) (q : Q) :
  present series <> [] ->
  quantile series q =
  let v := sort_values (present series) in
  let n := Z.of_nat (List.length v) in
  let virtual_index := q * inject_Z (n - 1) in
  let previous := Qfloor virtual_index in
  let next := Z.min (previous + 1) (n - 1) in
  let gamma := virtual_index - inject_Z previous in
  Some (nth (Z.to_nat previous) v 0
        + (nth (Z.to_nat next) v 0 - nth (Z.to_nat previous) v 0) * gamma).
Proof.
  intros H. unfold quantile.
  destruct (sort_values (present series)) eqn:E; [|reflexivity].
  exfalso. apply H. apply (f_equal (@List.length Q)) in E.
  rewrite sort_values_length in E. now apply length_zero_iff_nil.
Qed.

(** [Series.quantile] computes the quantile by linear interpolation over
    the non-missing values. *)
Lemma quantile_linear (series : list (option Q)) (q r : Q) :
  0 <= q <= 1 -> quantile series q = Some r ->
  OutlierSpec.linear_quantile (present series) q r.
Proof.
  intros Hq Hr.
  assert (Hne : present series <> []).
  { intros E. apply quantile_none with (q := q) in E. congruence. }
  rewrite (quantile_some _ _ Hne) in Hr. cbv zeta in Hr.
  assert (Hr' : forall a b : Q, Some a = Some b -> a = b) by (intros; congruence).
  apply Hr' in Hr. clear Hr'.
  set (v := sort_values (present series)) in *.
  assert (Hlen : List.length v = List.length (present series))
    by apply sort_values_length.
  assert (Hn : (0 < List.length v)%nat).
  { rewrite Hlen. destruct (present series); [congruence|simpl; lia]. }
  destruct (quantile_indices q (List.length v) Hq Hn) as (H0 & Hk & Hnext & Ht0 & Ht1).
  cbv zeta in *.
  set (pos := q * inject_Z (Z.of_nat (List.length v) - 1)) in *.
  exists v, (Z.to_nat (Qfloor pos)), (pos - inject_Z (Qfloor pos)).
  repeat split; try assumption.
  - apply sort_values_perm.
  - apply sort_values_sorted.
  - rewrite Z2Nat.id by assumption. rewrite <- Hlen. fold pos. ring.
  - rewrite <- Hnext, <- Hr. ring.
Qed.

(** Summing the outlier mask counts the non-missing values outside the
    bounds. *)
Lemma count_mask (series : list (option Q)) (lower upper : Q) :
  count_true (mask_or (series_lt series (Some lower))
                      (series_gt series (Some upper)))
  = List.length (filter (OutlierSpec.outsideb lower upper) (present series)).
Proof.
  unfold series_lt, series_gt, count_true. rewrite mask_or_map.
  induction series as [|[x|] series IH].
  - reflexivity.
  - cbn [map filter present flat_map app nan_lt].
    change (Qlt_bool x lower || Qlt_bool upper x)
      with (OutlierSpec.outsideb lower upper x).
    destruct (OutlierSpec.outsideb lower upper x); cbn [List.length];
      [f_equal|]; exact IH.
  - exact IH.
Qed.

Lemma count_mask_nan (series : list (option Q)) :
  count_true (mask_or (series_lt series None) (series_gt series None)) = 0%nat.
Proof.
  unfold series_lt, series_gt, count_true. rewrite mask_or_map.
  induction series as [|[x|] series IH]; simpl; auto.
Qed.

Lemma outsideb_iff (lower upper x : Q) :
  OutlierSpec.outsideb lower upper x = true <-> OutlierSpec.outside lower upper x.
Proof.
  unfold OutlierSpec.outsideb, OutlierSpec.outside.
  rewrite orb_true_iff.
  change (negb (Qle_bool lower x)) with (Qlt_bool x lower).
  change (negb (Qle_bool x upper)) with (Qlt_bool upper x).
  now rewrite !Qlt_bool_iff.
Qed.

End PandasFacts.

Module OutlierFacts.

Import Pandas PandasFacts Utils Properties Samples.
Local Open Scope Q_scope.

Lemma detect_outliers_some (series : list (option Q)) (q1 q3 : Q) :
  quantile series (1 # 4) = Some q1 -> quantile series (3 # 4) = Some q3 ->
  detect_outliers series = OutlierSpec.count_outside q1 q3 (present series).
Proof.
  intros H1 H3. unfold detect_outliers. rewrite H1, H3.
  cbn [nan_lift2]. apply count_mask.
Qed.

Lemma detect_outliers_empty (series : list (option Q)) :
  present series = [] -> detect_outliers series = 0%nat.
Proof.
  intros H. unfold detect_outliers.
  rewrite (proj2 (quantile_none series (1 # 4)) H).
  rewrite (proj2 (quantile_none series (3 # 4)) H).
  cbn [nan_lift2]. apply count_mask_nan.
Qed.

Lemma In_present (series : list (option Q)) (x : Q) :
  In x (present series) <-> In (Some x) series.
Proof.
  induction series as [|[y|] series IH]; simpl.
  - tauto.
  - rewrite IH. split; intros [H|H]; auto; left; congruence.
  - rewrite IH. split; [auto|]. intros [H|H]; [discriminate|assumption].
Qed.

(** A quantile of values that all equal [c] is [c]. *)
Lemma quantile_constant (series : list (option Q)) (q r c : Q) :
  0 <= q <= 1 ->
  (forall x, In (Some x) series -> x == c) ->
  quantile series q = Some r -> r == c.
Proof.
  intros Hq Hc Hr.
  destruct (quantile_linear series q r Hq Hr)
    as (s & k & t & Hperm & _ & Hk & _ & _ & _ & ->).
  assert (Hs : forall i, (i < List.length s)%nat -> nth i s 0 == c).
  { intros i Hi. apply Hc, In_present, (Permutation_in _ Hperm).
    now apply nth_In. }
  rewrite (Hs k Hk), (Hs (Nat.min (S k) (List.length s - 1))) by lia.
  ring.
Qed.

Lemma filter_none {A : Type} (f : A -> bool) (l : list A) :
  (forall x, In x l -> f x = false) -> filter f l = [].
Proof.
  induction l as [|a l IH]; intros H; simpl; [reflexivity|].
  rewrite (H a) by now left. apply IH. intros x Hx. apply H. now right.
Qed.

Lemma detect_outliers_constant (series : list (option Q)) (c : Q) :
  (forall x, In (Some x) series -> x == c) -> detect_outliers series = 0%nat.
Proof.
  intros Hc.
  destruct (quantile series (1 # 4)) as [q1|] eqn:H1.
  2:{ apply detect_outliers_empty. now apply quantile_none in H1. }
  destruct (quantile series (3 # 4)) as [q3|] eqn:H3.
  2:{ apply detect_outliers_empty. now apply quantile_none in H3. }
  rewrite (detect_outliers_some _ _ _ H1 H3).
  assert (E1 : q1 == c) by (apply (quantile_constant series (1 # 4)); [lra|assumption..]).
  assert (E3 : q3 == c) by (apply (quantile_constant series (3 # 4)); [lra|assumption..]).
  unfold OutlierSpec.count_outside. rewrite filter_none; [reflexivity|].
  intros x Hx. apply In_present, Hc in Hx.
  apply not_true_iff_false. rewrite outsideb_iff.
  unfold OutlierSpec.outside, OutlierSpec.fence. simpl fst. simpl snd. lra.
Qed.

Lemma detect_outliers_zero_iqr (series : list (option Q)) (q1 q3 : Q) :
  quantile series (1 # 4) = Some q1 -> quantile series (3 # 4) = Some q3 ->
  q3 - q1 == 0 ->
  detect_outliers series
  = List.length (filter (fun x => negb (Qeq_bool x q1)) (present series)).
Proof.
  intros H1 H3 Hiqr. rewrite (detect_outliers_some _ _ _ H1 H3).
  unfold OutlierSpec.count_outside. f_equal. apply filter_ext. intros x.
  apply eq_true_iff_eq.
  rewrite outsideb_iff, negb_true_iff, <- not_true_iff_false, Qeq_bool_iff.
  unfold OutlierSpec.outside, OutlierSpec.fence. simpl fst. simpl snd.
  split.
  - intros [H|H] E; lra.
  - intros H. destruct (Q_dec x q1) as [[Hlt|Hgt]|Heq].
    + left. lra.
    + right. lra.
    + contradiction.
Qed.



End OutlierFacts.

Module UtilsFacts.

Import NumPy NumPyFacts.
Local Open Scope R_scope.




Lemma std_empty : std [] 1 = NaN.
Proof.
  unfold std, var, fsum, of_int, len. simpl fold_left.
  change (Z.max (Z.of_nat (List.length (@nil R)) - 1) 0) with 0%Z.
  now rewrite fdiv_0_0.
Qed.



Lemma cohens_d_unfold (group1 group2 : list R) :
  Utils.cohens_d group1 group2
  = fdiv (fsub (mean group1) (mean group2)) (Properties.pooled_std group1 group2).
Proof. reflexivity. Qed.


Lemma cohens_d_empty_l (group2 : list R) : Utils.cohens_d [] group2 = NaN.
Proof. rewrite cohens_d_unfold. now rewrite mean_empty. Qed.

Lemma cohens_d_empty_r (group1 : list R) : Utils.cohens_d group1 [] = NaN.
Proof.
  rewrite cohens_d_unfold, mean_empty.
  now destruct (mean group1).
Qed.










End UtilsFacts.


Module ClassifyFacts.

Import Pandas Utils.

Lemma in_columns_select (include : dtype -> bool) (df : DataFrame) (name : string) :
  In name (columns (select_dtypes include df)) <->
  exists s, In (name, s) df /\ include (dtype_of s) = true.
Proof.
  unfold columns, select_dtypes. rewrite in_map_iff. split.
  - intros [[n s] [E H]]. simpl in E. subst n.
    apply filter_In in H. simpl in H. now exists s.
  - intros [s [H Hi]]. exists (name, s). split; [reflexivity|].
    apply filter_In. now split.
Qed.

Lemma nodup_columns_select (include : dtype -> bool) (df : DataFrame) :
  NoDup (columns df) -> NoDup (columns (select_dtypes include df)).
Proof.
  unfold columns, select_dtypes.
  induction df as [|[n s] df IH]; intros H; simpl.
  - constructor.
  - inversion H as [|? ? Hn Hd]; subst.
    destruct (include (dtype_of s)); simpl; [|now apply IH].
    constructor; [|now apply IH].
    intros Hin. apply Hn. apply in_map_iff in Hin.
    destruct Hin as [c [E Hc]]. apply filter_In in Hc.
    apply in_map_iff. exists c. tauto.
Qed.

(** With distinct labels a label names one column. *)
Lemma column_unique (df : DataFrame) (name : string) (s s' : Series) :
  NoDup (columns df) -> In (name, s) df -> In (name, s') df -> s = s'.
Proof.
  unfold columns. induction df as [|[n x] df IH]; intros H H1 H2.
  - contradiction.
  - inversion H as [|? ? Hn Hd]; subst. simpl in Hn.
    destruct H1 as [E1|H1], H2 as [E2|H2].
    + congruence.
    + exfalso. apply Hn. injection E1 as -> ->.
      apply in_map_iff. now exists (name, s').
    + exfalso. apply Hn. injection E2 as -> ->.
      apply in_map_iff. now exists (name, s).
    + now apply IH.
Qed.

(** The numeric columns, the object columns and the columns of any other
    dtype are together the columns of the dataset, each of them once. *)
Lemma select_dtypes_partition (df : DataFrame) :
  Permutation (select_dtypes is_number df
               ++ select_dtypes is_object df
               ++ select_dtypes other_dtype df)
              df.
Proof.
  unfold select_dtypes. induction df as [|[n s] df IH]; simpl.
  - apply perm_nil.
  - unfold other_dtype at 1. destruct (dtype_of s); simpl.
    + now apply perm_skip.
    + now apply perm_skip.
    + apply Permutation_sym.
      rewrite app_assoc. apply Permutation_cons_app.
      rewrite <- app_assoc. now apply Permutation_sym.
    + apply Permutation_sym. apply Permutation_cons_app.
      now apply Permutation_sym.
    + apply Permutation_sym.
      rewrite app_assoc. apply Permutation_cons_app.
      rewrite <- app_assoc. now apply Permutation_sym.
Qed.

(** C3.  [classify_columns] returns the labels of the numeric columns and
    the labels of the object columns, and these two selections together with
    the columns of any other dtype (boolean, datetime) are the columns of the
    dataset, each once.  On a dataset whose column labels are distinct both
    lists are duplicate-free: a column of numeric dtype is in the numeric
    list and not in the categorical one, a column of object dtype is in the
    categorical list and not in the numeric one, a column of any other dtype
    is in neither, no label is in both lists, and the lists hold labels of
    the dataset only. *)
Theorem classify_columns_partition (df : DataFrame) :
  let (num_cols, cat_cols) := classify_columns df in
  (num_cols = columns (select_dtypes is_number df) /\
   cat_cols = columns (select_dtypes is_object df) /\
   Permutation (select_dtypes is_number df
                ++ select_dtypes is_object df
                ++ select_dtypes other_dtype df)
               df) /\
  (NoDup (columns df) ->
   (forall name s, In (name, s) df ->
      (is_number (dtype_of s) = true ->
         In name num_cols /\ ~ In name cat_cols) /\
      (is_object (dtype_of s) = true ->
         In name cat_cols /\ ~ In name num_cols) /\
      (other_dtype (dtype_of s) = true ->
         ~ In name num_cols /\ ~ In name cat_cols)) /\
   NoDup num_cols /\ NoDup cat_cols /\
   (forall name, ~ (In name num_cols /\ In name cat_cols)) /\
   (forall name, In name num_cols \/ In name cat_cols -> In name (columns df))).
Proof.
  unfold classify_columns. split.
  { repeat split. apply select_dtypes_partition. }
  intros Hnd.
  assert (Hnum : forall name s, In (name, s) df ->
            (In name (columns (select_dtypes is_number df))
             <-> is_number (dtype_of s) = true)).
  { intros name s Hin. rewrite in_columns_select. split.
    - intros [s' [Hin' Hs']]. now rewrite (column_unique df name s s' Hnd Hin Hin').
    - intros Hs. now exists s. }
  assert (Hcat : forall name s, In (name, s) df ->
            (In name (columns (select_dtypes is_object df))
             <-> is_object (dtype_of s) = true)).
  { intros name s Hin. rewrite in_columns_select. split.
    - intros [s' [Hin' Hs']]. now rewrite (column_unique df name s s' Hnd Hin Hin').
    - intros Hs. now exists s. }
  split; [|split; [|split; [|split]]].
  - intros name s Hin.
    rewrite (Hnum name s Hin), (Hcat name s Hin). unfold other_dtype.
    destruct (dtype_of s); simpl; repeat split; intros; try discriminate;
      try reflexivity; congruence.
  - now apply nodup_columns_select.
  - now apply nodup_columns_select.
  - intros name [H1 H2].
    apply in_columns_select in H1. destruct H1 as [s [Hin Hs]].
    apply (Hcat name s Hin) in H2. destruct (dtype_of s); discriminate.
  - intros name [H|H]; apply in_columns_select in H;
      destruct H as [s [Hin _]]; apply in_map_iff; now exists (name, s).
Qed.

Lemma classify_columns_partition_witness :
  Utils.classify_columns Scenarios.patients
  = (["id"; "age"; "stage"]%string, ["city"]%string) /\
  ~ In "smoker"%string (fst (Utils.classify_columns Scenarios.patients)) /\
  ~ In "smoker"%string (snd (Utils.classify_columns Scenarios.patients)).
Proof.
  split; [reflexivity|].
  pose proof (classify_columns_partition Scenarios.patients) as H.
  destruct (classify_columns Scenarios.patients) as [num cat].
  destruct H as [_ H]. destruct H as [Hcols _].
  - vm_compute. repeat constructor; simpl; intuition discriminate.
  - apply (Hcols "smoker"%string
             (Scenarios.series Bool
                [Scenarios.boolean true; Scenarios.boolean false;
                 Scenarios.boolean true; Scenarios.boolean false])).
    + simpl. tauto.
    + reflexivity.
Defined.

End ClassifyFacts.

Module UniqueFacts.

Import NumPy Pandas Pipeline Properties.

Lemma scalar_eqb_refl (a : scalar) : scalar_eqb a a = true.
Proof.
  destruct a; simpl.
  - apply Qeq_bool_refl.
  - apply String.eqb_refl.
  - apply Bool.eqb_reflx.
  - apply Z.eqb_refl.
Qed.

Lemma scalar_eqb_sym (a b : scalar) : scalar_eqb a b = scalar_eqb b a.
Proof.
  destruct a, b; simpl; try reflexivity.
  - apply Qeq_bool_comm.
  - apply String.eqb_sym.
  - now destruct b0, b.
  - apply Z.eqb_sym.
Qed.

Lemma scalar_eqb_trans (a b c : scalar) :
  scalar_eqb a b = true -> scalar_eqb b c = true -> scalar_eqb a c = true.
Proof.
  destruct a, b, c; simpl; try discriminate.
  - apply Qeq_bool_trans.
  - rewrite !String.eqb_eq. congruence.
  - rewrite !Bool.eqb_true_iff. congruence.
  - rewrite !Z.eqb_eq. congruence.
Qed.

Lemma cell_same_refl (a : cell) : cell_same a a = true.
Proof. destruct a; simpl; [apply scalar_eqb_refl|reflexivity]. Qed.

Lemma cell_same_sym (a b : cell) : cell_same a b = cell_same b a.
Proof. destruct a, b; simpl; try reflexivity. apply scalar_eqb_sym. Qed.

Lemma cell_same_trans (a b c : cell) :
  cell_same a b = true -> cell_same b c = true -> cell_same a c = true.
Proof.
  destruct a, b, c; simpl; try discriminate; try reflexivity.
  apply scalar_eqb_trans.
Qed.

(** Cells of one class are found in the same lists. *)
Lemma cell_same_congr (a b c : cell) :
  cell_same a b = true -> cell_same a c = cell_same b c.
Proof.
  intros H. destruct (cell_same b c) eqn:E.
  - now apply cell_same_trans with b.
  - destruct (cell_same a c) eqn:E'; [|reflexivity].
    rewrite <- E. symmetry. apply cell_same_trans with a; [|assumption].
    now rewrite cell_same_sym.
Qed.

Lemma existsb_same_congr (a b : cell) (l : list cell) :
  cell_same a b = true -> existsb (cell_same a) l = existsb (cell_same b) l.
Proof.
  intros H. induction l as [|c l IH]; simpl; [reflexivity|].
  now rewrite IH, (cell_same_congr a b c H).
Qed.


(** Two predicates that differ on the one class of [x] select lists whose
    lengths differ by one. *)
Lemma filter_one_more (x : cell) (f g : cell -> bool) (reps : list cell) :
  distinct_classes reps ->
  existsb (cell_same x) reps = true ->
  (forall r, In r reps -> cell_same x r = true -> f r = true /\ g r = false) ->
  (forall r, In r reps -> cell_same x r = false -> f r = g r) ->
  List.length (filter f reps) = S (List.length (filter g reps)).
Proof.
  intros Hd. induction Hd as [|r reps Hr Hd IH]; intros Hex Hsame Hother.
  - discriminate.
  - simpl in Hex. simpl. destruct (cell_same x r) eqn:E.
    + destruct (Hsame r (or_introl eq_refl) E) as [-> ->]. simpl. f_equal.
      f_equal. apply filter_ext_in. intros r' Hr'.
      apply Hother; [now right|].
      rewrite (cell_same_congr x r r' E).
      rewrite Forall_forall in Hr. now apply Hr.
    + simpl in Hex. rewrite (Hother r (or_introl eq_refl) E).
      assert (IH' : List.length (filter f reps) = S (List.length (filter g reps))).
      { apply IH; [assumption| |].
        - intros r' Hr'. apply Hsame. now right.
        - intros r' Hr'. apply Hother. now right. }
      destruct (g r); simpl; now rewrite IH'.
Qed.

(** [unique] keeps one value of each class. *)
Lemma unique_from_length (reps : list cell) :
  distinct_classes reps ->
  forall xs seen,
    (forall x, In x xs -> existsb (cell_same x) reps = true) ->
    List.length (unique_from seen xs)
    = List.length
        (filter (fun r => existsb (cell_same r) xs
                          && negb (existsb (cell_same r) seen)) reps).
Proof.
  intros Hd xs. induction xs as [|x xs IH]; intros seen Hin.
  - simpl. clear Hd Hin. induction reps as [|r reps IHr]; [reflexivity|].
    simpl. exact IHr.
  - cbn [unique_from].
    assert (Hxs : forall y, In y xs -> existsb (cell_same y) reps = true)
      by (intros y Hy; apply Hin; now right).
    destruct (existsb (cell_same x) seen) eqn:Eseen.
    + rewrite (IH seen Hxs). f_equal. apply filter_ext. intros r.
      cbn [existsb]. destruct (cell_same r x) eqn:E; [|reflexivity].
      rewrite (existsb_same_congr r x seen E), Eseen. simpl.
      now rewrite andb_false_r.
    + cbn [List.length]. rewrite (IH (x :: seen) Hxs). symmetry.
      apply (filter_one_more x).
      * assumption.
      * apply Hin. now left.
      * intros r _ E. rewrite cell_same_sym in E. cbn [existsb].
        rewrite E. simpl.
        rewrite (existsb_same_congr r x seen E), Eseen.
        split; [reflexivity|]. now rewrite andb_false_r.
      * intros r _ E. rewrite cell_same_sym in E. cbn [existsb].
        now rewrite E.
Qed.

(** A series with a missing entry whose other entries take exactly the
    two different values [a] and [b] has three unique values. *)
Lemma unique_binary_with_missing (xs : list cell) (a b : scalar) :
  In None xs -> In (Some a) xs -> In (Some b) xs ->
  scalar_eqb a b = false ->
  (forall v, In (Some v) xs -> scalar_eqb v a = true \/ scalar_eqb v b = true) ->
  List.length (unique xs) = 3%nat.
Proof.
  intros Hn Ha Hb Hab Hall. unfold unique.
  rewrite (unique_from_length [None; Some a; Some b]).
  - assert (E : forall r, In r xs -> existsb (cell_same r) xs = true).
    { intros r Hr. apply existsb_exists. exists r. split; [assumption|].
      apply cell_same_refl. }
    cbn [filter existsb negb]. rewrite !andb_true_r.
    now rewrite (E _ Hn), (E _ Ha), (E _ Hb).
  - repeat constructor; assumption.
  - intros [v|] Hx; cbn [existsb cell_same].
    + destruct (Hall v Hx) as [-> | ->]; simpl; now rewrite ?orb_true_r.
    + reflexivity.
Qed.

End UniqueFacts.

Module PipelineFacts.

Import NumPy Pandas Pipeline Properties.
Local Open Scope string_scope.
Local Open Scope pipeline_scope.

(** *** Laws of the monad, pointwise *)

Lemma bind_assoc {A B C : Type} (m : M A) (f : A -> M B) (g : B -> M C) (s : state) :
  bind (bind m f) g s = bind m (fun a => bind (f a) g) s.
Proof. unfold bind. destruct (m s) as [[a|e] s']; [|reflexivity]. reflexivity. Qed.

Lemma bind_returned {A B : Type} (m : M A) (f : A -> M B) (s s' : state) (a : A) :
  m s = (Returned a, s') -> bind m f s = f a s'.
Proof. intros H. unfold bind. now rewrite H. Qed.

Lemma bind_raised {A B : Type} (m : M A) (f : A -> M B) (s s' : state) (e : exn) :
  m s = (Raised e, s') -> bind m f s = (Raised e, s').
Proof. intros H. unfold bind. now rewrite H. Qed.

(** *** Relations every step of a computation respects *)

Section Steady.

Variable R : state -> state -> Prop.
Hypothesis R_refl : forall s, R s s.
Hypothesis R_trans : forall s1 s2 s3, R s1 s2 -> R s2 s3 -> R s1 s3.


Lemma steady_ret {A : Type} (a : A) : steady R (ret a).
Proof. intros s. apply R_refl. Qed.

Lemma steady_raise {A : Type} (e : exn) : steady R (@raise A e).
Proof. intros s. apply R_refl. Qed.

Lemma steady_call {A : Type} (o : outcome A) : steady R (call o).
Proof. intros s. apply R_refl. Qed.

Lemma steady_bind {A B : Type} (m : M A) (f : A -> M B) :
  steady R m -> (forall a, steady R (f a)) -> steady R (bind m f).
Proof.
  intros Hm Hf s. unfold bind. specialize (Hm s).
  destruct (m s) as [[a|e] s']; simpl in *.
  - apply R_trans with s'; [assumption|apply Hf].
  - assumption.
Qed.

Lemma steady_try_except (body : M unit) (handler : exn -> M unit) :
  steady R body -> (forall e, steady R (handler e)) ->
  steady R (try_except body handler).
Proof.
  intros Hb Hh s. unfold try_except. specialize (Hb s).
  destruct (body s) as [[a|e] s']; simpl in *.
  - assumption.
  - apply R_trans with s'; [assumption|apply Hh].
Qed.

Lemma steady_get_df : steady R get_df.
Proof. intros s. unfold get_df. destruct (df s); apply R_refl. Qed.

Lemma steady_get_num_cols : steady R get_num_cols.
Proof. intros s. unfold get_num_cols. destruct (num_cols s); apply R_refl. Qed.

Lemma steady_get_cat_cols : steady R get_cat_cols.
Proof. intros s. unfold get_cat_cols. destruct (cat_cols s); apply R_refl. Qed.

Lemma steady_column (d : DataFrame) (col : string) : steady R (column d col).
Proof.
  unfold column. destruct (getitem d col); [apply steady_ret|apply steady_raise].
Qed.

Lemma steady_subframe (d : DataFrame) (cols : list string) :
  steady R (subframe d cols).
Proof.
  induction cols as [|c cols IH]; simpl.
  - apply steady_ret.
  - apply steady_bind; [apply steady_column|]. intros s.
    apply steady_bind; [exact IH|]. intros sub. apply steady_ret.
Qed.

Lemma steady_for_each {A B : Type} (xs : list A) (acc : list B)
  (body : A -> list B -> M (list B)) :
  (forall x acc, steady R (body x acc)) -> steady R (for_each xs acc body).
Proof.
  intros Hb. revert acc. induction xs as [|x xs IH]; intros acc; simpl.
  - apply steady_ret.
  - apply steady_bind; [apply Hb|]. intros acc'. apply IH.
Qed.

End Steady.

(** Decomposes a computation built from the combinators above, leaving
    the state-changing primitives to [leaf]. *)
Ltac steady_with leaf :=
  repeat first
    [ apply steady_ret; assumption
    | apply steady_raise; assumption
    | apply steady_call; assumption
    | apply steady_get_df; assumption
    | apply steady_get_num_cols; assumption
    | apply steady_get_cat_cols; assumption
    | apply steady_column; assumption
    | apply steady_subframe; assumption
    | apply steady_bind; [solve [assumption] .. | | intros ?]
    | apply steady_try_except; [solve [assumption] .. | | intros ?]
    | apply steady_for_each; [solve [assumption] .. | intros ? ?]
    | match goal with
      | |- steady _ (if ?b then _ else _) => destruct b
      | |- steady _ (match ?x with _ => _ end) => destruct x
      | |- steady _ (let (_, _) := ?x in _) => destruct x
      end
    | leaf ].


(** *** The dataset is written by the first two steps only *)


Lemma same_df_refl (s : state) : same_df s s.
Proof. reflexivity. Qed.

Lemma same_df_trans (s1 s2 s3 : state) :
  same_df s1 s2 -> same_df s2 s3 -> same_df s1 s3.
Proof. unfold same_df. congruence. Qed.

Ltac same_df_leaf :=
  idtac;
  match goal with
  | |- steady same_df (logger _ _) => intros ?; reflexivity
  | |- steady same_df (write _ _) => intros ?; reflexivity
  | |- steady same_df (set_cols _ _) => intros ?; reflexivity
  end.

Ltac same_df_step :=
  pose proof same_df_refl; pose proof same_df_trans;
  steady_with same_df_leaf.

Lemma missing_value_analysis_same_df (config : Config) :
  steady same_df (missing_value_analysis config).
Proof. unfold missing_value_analysis. same_df_step. Qed.

Lemma duplicate_analysis_same_df : steady same_df duplicate_analysis.
Proof. unfold duplicate_analysis. same_df_step. Qed.

Lemma classify_columns_same_df : steady same_df classify_columns.
Proof. unfold classify_columns. same_df_step. Qed.

Lemma distribution_plots_same_df (config : Config) :
  steady same_df (distribution_plots config).
Proof. unfold distribution_plots. same_df_step. Qed.

Lemma target_analysis_same_df (world : World) (config : Config) :
  steady same_df (target_analysis world config).
Proof. unfold target_analysis. same_df_step. Qed.

Lemma correlation_analysis_same_df (config : Config) :
  steady same_df (correlation_analysis config).
Proof. unfold correlation_analysis. same_df_step. Qed.

Lemma feature_target_correlation_same_df (config : Config) :
  steady same_df (feature_target_correlation config).
Proof. unfold feature_target_correlation. same_df_step. Qed.

Lemma categorical_statistical_tests_same_df (world : World) (config : Config) :
  steady same_df (categorical_statistical_tests world config).
Proof. unfold categorical_statistical_tests. same_df_step. Qed.

Lemma outlier_analysis_same_df (config : Config) :
  steady same_df (outlier_analysis config).
Proof. unfold outlier_analysis. same_df_step. Qed.

Lemma generate_sweetviz_same_df (world : World) (config : Config) :
  steady same_df (generate_sweetviz world config).
Proof. unfold generate_sweetviz. same_df_step. Qed.

End PipelineFacts.

Module RunFacts.

Import NumPy Pandas Pipeline PipelineFacts Properties.
Local Open Scope string_scope.
Local Open Scope pipeline_scope.

(** *** Splitting a run *)



Lemma bind_ext {A B : Type} (m : M A) (f g : A -> M B) (s : state) :
  (forall a s', f a s' = g a s') -> bind m f s = bind m g s.
Proof. intros H. unfold bind. destruct (m s) as [[a|e] s']; [apply H|reflexivity]. Qed.

Lemma run_sequence (world : World) (config : Config) (s : state) :
  run world config s = sequence (steps world config) s.
Proof.
  unfold run, steps, sequence.
  repeat (apply bind_ext; intros ? ?).
  reflexivity.
Qed.

Lemma sequence_app (l1 l2 : list (M unit)) (s : state) :
  sequence (l1 ++ l2) s = bind (sequence l1) (fun _ => sequence l2) s.
Proof.
  revert s. induction l1 as [|m l1 IH]; intros s; simpl.
  - reflexivity.
  - rewrite bind_assoc. apply bind_ext. intros _ s'. apply IH.
Qed.

(** A run whose first [k] steps return goes on with the others. *)
Lemma run_continues (world : World) (config : Config) (k : nat) (s0 s : state) :
  sequence (firstn k (steps world config)) s0 = (Returned tt, s) ->
  run world config s0 = sequence (skipn k (steps world config)) s.
Proof.
  intros H. rewrite run_sequence.
  rewrite <- (firstn_skipn k (steps world config)) at 1.
  rewrite sequence_app. now rewrite (bind_returned _ _ s0 s tt H).
Qed.

(** A run stops at the first step that raises. *)
Lemma run_aborts (world : World) (config : Config) (k : nat) (s0 s : state) (e : exn) :
  sequence (firstn k (steps world config)) s0 = (Raised e, s) ->
  run world config s0 = (Raised e, s).
Proof.
  intros H. rewrite run_sequence.
  rewrite <- (firstn_skipn k (steps world config)) at 1.
  rewrite sequence_app. now rewrite (bind_raised _ _ s0 s e H).
Qed.

Lemma steady_sequence (R : state -> state -> Prop) (l : list (M unit)) :
  (forall s, R s s) -> (forall s1 s2 s3, R s1 s2 -> R s2 s3 -> R s1 s3) ->
  Forall (steady R) l -> steady R (sequence l).
Proof.
  intros Hr Ht Hl. induction Hl as [|m l Hm Hl IH]; simpl.
  - now apply steady_ret.
  - apply steady_bind; [assumption..|]. intros _. exact IH.
Qed.

Lemma sequence_returned_then (l1 l2 : list (M unit)) (s0 s : state) :
  sequence l1 s0 = (Returned tt, s) ->
  sequence (l1 ++ l2)%list s0 = sequence l2 s.
Proof. intros H. rewrite sequence_app. now rewrite (bind_returned _ _ s0 s tt H). Qed.

Lemma sequence_single (m : M unit) (s : state) : sequence [m] s = m s.
Proof.
  simpl. unfold bind, ret. destruct (m s) as [[[]|e] s']; reflexivity.
Qed.

(** The state a returning sequence ends in. *)
Lemma sequence_outcome (l : list (M unit)) (s : state) :
  fst (sequence l s) = Returned tt ->
  sequence l s = (Returned tt, snd (sequence l s)).
Proof. intros H. destruct (sequence l s) as [o s']. simpl in *. now subst. Qed.

(** *** File names *)

Lemma append_inj_l (p a b : string) : p ++ a = p ++ b -> a = b.
Proof. induction p as [|c p IH]; simpl; intros H; [assumption|]. apply IH. congruence. Qed.


Lemma last_ascii_append (a b : string) :
  b <> EmptyString -> last_ascii (a ++ b) = last_ascii b.
Proof.
  intros Hb. induction a as [|c a IH]; simpl; [reflexivity|].
  rewrite <- IH. destruct (a ++ b) eqn:E; [|reflexivity].
  destruct a; simpl in E; [congruence|discriminate].
Qed.

End RunFacts.

Module StepFacts.

Import NumPy Pandas Pipeline PipelineFacts RunFacts Properties.
Local Open Scope string_scope.
Local Open Scope pipeline_scope.

(** *** The report step *)


Lemma generate_sweetviz_analyze_fails (world : World) (config : Config)
  (s : state) (d : DataFrame) (e : exn) :
  df s = Some d -> sv_analyze world d = Raised e ->
  generate_sweetviz world config s
  = (Returned tt, snd (logger ERROR (SweetvizFailed e) s)).
Proof.
  intros Hd He. unfold generate_sweetviz, try_except, bind, get_df, call.
  rewrite Hd, He. reflexivity.
Qed.

Lemma generate_sweetviz_show_fails (world : World) (config : Config)
  (s : state) (d : DataFrame) (report : string) (e : exn) :
  df s = Some d -> sv_analyze world d = Returned report ->
  show_html world report (sweetviz_path config) = Raised e ->
  generate_sweetviz world config s
  = (Returned tt, snd (logger ERROR (SweetvizFailed e) s)).
Proof.
  intros Hd Hr He. unfold generate_sweetviz, try_except, bind, get_df, call.
  fold (sweetviz_path config). rewrite Hd, Hr, He. reflexivity.
Qed.

Lemma generate_sweetviz_succeeds (world : World) (config : Config)
  (s : state) (d : DataFrame) (report : string) :
  df s = Some d -> sv_analyze world d = Returned report ->
  show_html world report (sweetviz_path config) = Returned tt ->
  generate_sweetviz world config s
  = (Returned tt, snd (write (sweetviz_path config) (SweetvizHtml report) s)).
Proof.
  intros Hd Hr He. unfold generate_sweetviz, try_except, bind, get_df, call.
  fold (sweetviz_path config). rewrite Hd, Hr, He. reflexivity.
Qed.

Lemma generate_sweetviz_returns (world : World) (config : Config) (s : state) :
  fst (generate_sweetviz world config s) = Returned tt.
Proof.
  unfold generate_sweetviz, try_except, bind, get_df, call.
  destruct (df s) as [d|]; [|reflexivity].
  destruct (sv_analyze world d) as [report|e]; [|reflexivity].
  destruct (show_html world report _) as [[]|e]; reflexivity.
Qed.

(** Once the first eleven steps have returned, the run returns, and its
    last log record is the completion message. *)
Lemma run_completes_after_step_11 (world : World) (config : Config) (s0 s : state) :
  sequence (firstn 11 (steps world config)) s0 = (Returned tt, s) ->
  fst (run world config s0) = Returned tt /\
  last (log (snd (run world config s0))) (INFO, LoadingDataset)
  = (INFO, PipelineCompleted).
Proof.
  intros H. rewrite (run_continues world config 11 s0 s H).
  cbn [skipn steps sequence]. unfold bind.
  pose proof (generate_sweetviz_returns world config s) as Hg.
  destruct (generate_sweetviz world config s) as [[[]|e] s']; simpl in Hg;
    [|discriminate].
  cbn. split; [reflexivity|]. apply last_last.
Qed.


(** *** Files a computation may add *)


Lemma no_new_file_refl (p : string) (s : state) : no_new_file p s s.
Proof. intros H. exact H. Qed.

Lemma no_new_file_trans (p : string) (s1 s2 s3 : state) :
  no_new_file p s1 s2 -> no_new_file p s2 s3 -> no_new_file p s1 s3.
Proof. unfold no_new_file. auto. Qed.

Lemma write_other_file (p path : string) (a : artifact) :
  path <> p -> steady (no_new_file p) (write path a).
Proof.
  intros Hp s. unfold no_new_file, write. simpl.
  rewrite map_app, in_app_iff. simpl. intros [H|[H|[]]]; [assumption|].
  contradiction.
Qed.






(** *** The t-test step on a target that is not binary *)


Lemma target_analysis_skip (world : World) (config : Config)
  (s : state) (d : DataFrame) (ts : Series) :
  target_analysis_flag (plots config) = true ->
  df s = Some d -> getitem d (target_column config) = Some ts ->
  List.length (unique (values ts)) <> 2%nat ->
  target_analysis world config s = (Returned tt, warned s).
Proof.
  intros Hflag Hd Hts Hn. unfold target_analysis. rewrite Hflag.
  cbn [negb]. cbv zeta.
  rewrite (bind_returned get_df _ s s d) by (unfold get_df; now rewrite Hd).
  rewrite (bind_returned (column d (target_column config)) _ s s ts)
    by (unfold column; now rewrite Hts).
  destruct (unique (values ts)) as [|g1 [|g2 [|g3 l]]]; try reflexivity.
  exfalso. now apply Hn.
Qed.

End StepFacts.

Module TargetAnalysisFacts.

Import NumPy Pandas Pipeline PipelineFacts RunFacts StepFacts Scenarios Properties.
Local Open Scope string_scope.
Local Open Scope pipeline_scope.

(** C10.  The unique values of the target include the missing value: a
    target with a missing entry whose other entries take exactly two
    different values has three unique values, so the t-test step (flag set)
    logs its warning and returns without writing any file. *)
Theorem missing_target_value_counts (world : World) (config : Config)
  (s : state) (d : DataFrame) (ts : Series) (a b : scalar) :
  target_analysis_flag (plots config) = true ->
  df s = Some d ->
  getitem d (target_column config) = Some ts ->
  In None (values ts) ->
  In (Some a) (values ts) -> In (Some b) (values ts) ->
  scalar_eqb a b = false ->
  (forall v, In (Some v) (values ts) ->
             scalar_eqb v a = true \/ scalar_eqb v b = true) ->
  List.length (unique (values ts)) = 3%nat /\
  target_analysis world config s = (Returned tt, warned s) /\
  files (warned s) = files s.
Proof.
  intros Hflag Hd Hts Hn Ha Hb Hab Hall.
  pose proof (UniqueFacts.unique_binary_with_missing _ a b Hn Ha Hb Hab Hall) as H3.
  split; [exact H3|]. split; [|reflexivity].
  apply (target_analysis_skip world config s d ts Hflag Hd Hts).
  rewrite H3. discriminate.
Qed.

Lemma missing_target_value_counts_witness :
  List.length (unique [num 0; num 1; None; num 0]) = 3%nat /\
  fst (target_analysis (quiet_world survey) (config_with "answer" true)
         {| df := Some survey; num_cols := Some ["score"; "answer"];
            cat_cols := Some []; log := []; files := [] |})
  = Returned tt.
Proof.
  edestruct (missing_target_value_counts
               (quiet_world survey) (config_with "answer" true)
               {| df := Some survey; num_cols := Some ["score"; "answer"];
                  cat_cols := Some []; log := []; files := [] |}
               survey (series Float64 [num 0; num 1; None; num 0])
               (Num 0) (Num 1))
    as (H3 & Hskip & _).
  - reflexivity.
  - reflexivity.
  - reflexivity.
  - simpl. tauto.
  - simpl. tauto.
  - simpl. tauto.
  - reflexivity.
  - intros v Hv. simpl in Hv.
    destruct Hv as [Hv|[Hv|[Hv|[Hv|[]]]]]; try discriminate Hv;
      injection Hv as <-; vm_compute; tauto.
  - split; [exact H3|]. now rewrite Hskip.
Defined.

End TargetAnalysisFacts.

Module ReportFacts.

Import NumPy Pandas Pipeline PipelineFacts RunFacts StepFacts Scenarios Properties.
Local Open Scope string_scope.
Local Open Scope pipeline_scope.

(** C8.  [generate_sweetviz] never raises: a failure of the report
    generator, in the analysis or in writing the page, is caught and logged
    as an error.  Hence a run whose first eleven steps have returned returns,
    with the completion message logged last, whatever the report generator
    does. *)
Theorem report_failure_never_aborts (world : World) (config : Config) :
  (forall s, fst (generate_sweetviz world config s) = Returned tt) /\
  (forall s d e,
      df s = Some d ->
      (sv_analyze world d = Raised e \/
       exists report, sv_analyze world d = Returned report /\
                      show_html world report (sweetviz_path config) = Raised e) ->
      generate_sweetviz world config s
      = (Returned tt, snd (logger ERROR (SweetvizFailed e) s))) /\
  (forall s0 s,
      sequence (firstn 11 (steps world config)) s0 = (Returned tt, s) ->
      fst (run world config s0) = Returned tt /\
      last (log (snd (run world config s0))) (INFO, LoadingDataset)
      = (INFO, PipelineCompleted)).
Proof.
  split; [|split].
  - apply generate_sweetviz_returns.
  - intros s d e Hd [He|[report [Hr He]]].
    + now apply generate_sweetviz_analyze_fails with d.
    + now apply generate_sweetviz_show_fails with d report.
  - apply run_completes_after_step_11.
Qed.

Lemma report_failure_never_aborts_witness :
  fst (run (failing_report_world patients) (config_with "stage" true) init)
  = Returned tt /\
  In (ERROR, SweetvizFailed (LibraryError "sweetviz"))
     (log (snd (run (failing_report_world patients)
                    (config_with "stage" true) init))).
Proof.
  split.
  - apply (proj2 (proj2 (report_failure_never_aborts
                           (failing_report_world patients)
                           (config_with "stage" true)))
             init
             (snd (sequence (firstn 11 (steps (failing_report_world patients)
                                              (config_with "stage" true)))
                            init))).
    apply sequence_outcome. reflexivity.
  - lazy. tauto.
Defined.

(** C9.  [drop_id_columns] replaces the dataset by itself without the
    identifier columns (it leaves it as loaded when the step raises on a
    null [id_columns]); each later step of [run] leaves the dataset as it
    found it, whether it returns or raises, so at the end of a run the
    dataset is the one the drop step left. *)
Theorem dataset_changed_only_by_drop (world : World) (config : Config) :
  (forall s d,
      df s = Some d ->
      df (snd (drop_id_columns config s))
      = Some (match id_columns config with
              | Labels l => drop_columns l d
              | Absent => drop_columns [] d
              | Null => d
              end)) /\
  Forall (steady same_df)
         [ missing_value_analysis config;
           duplicate_analysis;
           classify_columns;
           distribution_plots config;
           target_analysis world config;
           correlation_analysis config;
           feature_target_correlation config;
           categorical_statistical_tests world config;
           outlier_analysis config;
           generate_sweetviz world config;
           logger INFO PipelineCompleted ] /\
  (forall s0 s2,
      sequence (firstn 2 (steps world config)) s0 = (Returned tt, s2) ->
      df (snd (run world config s0)) = df s2).
Proof.
  assert (Hsteps :
            Forall (steady same_df)
                   [ missing_value_analysis config;
                     duplicate_analysis;
                     classify_columns;
                     distribution_plots config;
                     target_analysis world config;
                     correlation_analysis config;
                     feature_target_correlation config;
                     categorical_statistical_tests world config;
                     outlier_analysis config;
                     generate_sweetviz world config;
                     logger INFO PipelineCompleted ]).
  { repeat apply Forall_cons; try apply Forall_nil.
    - apply missing_value_analysis_same_df.
    - apply duplicate_analysis_same_df.
    - apply classify_columns_same_df.
    - apply distribution_plots_same_df.
    - apply target_analysis_same_df.
    - apply correlation_analysis_same_df.
    - apply feature_target_correlation_same_df.
    - apply categorical_statistical_tests_same_df.
    - apply outlier_analysis_same_df.
    - apply generate_sweetviz_same_df.
    - intros s. reflexivity. }
  split; [|split].
  - intros s d Hd. unfold drop_id_columns, get_id_columns, bind, get_df.
    rewrite Hd. now destruct (id_columns config).
  - exact Hsteps.
  - intros s0 s2 H2. rewrite (run_continues world config 2 s0 s2 H2).
    exact (steady_sequence same_df _ same_df_refl same_df_trans Hsteps s2).
Qed.

Lemma dataset_changed_only_by_drop_witness :
  df (snd (run (quiet_world patients) (config_with "stage" true) init))
  = Some (drop_columns ["id"] patients).
Proof.
  rewrite (proj2 (proj2 (dataset_changed_only_by_drop
                           (quiet_world patients) (config_with "stage" true)))
             init
             (snd (sequence (firstn 2 (steps (quiet_world patients)
                                             (config_with "stage" true)))
                            init))).
  - reflexivity.
  - apply sequence_outcome. reflexivity.
Defined.

End ReportFacts.

Module CorrelationFacts.

Import NumPy Pandas Pipeline PipelineFacts RunFacts StepFacts Scenarios Properties.
Local Open Scope string_scope.
Local Open Scope pipeline_scope.




Lemma lookup_labelled {A : Type} (G : Series -> A) (d : DataFrame)
  (target : string) (ts : Series) :
  getitem d target = Some ts -> is_numeric_data (dtype_of ts) = true ->
  lookup target (map (fun cy => (fst cy, G (snd cy)))
                     (select_dtypes is_numeric_data d))
  = Some (G ts).
Proof.
  unfold select_dtypes. induction d as [|[n s] d IH]; intros Hget Hnum.
  - discriminate.
  - cbn [getitem] in Hget. cbn [filter fst snd].
    destruct (String.eqb n target) eqn:E.
    + injection Hget as ->. rewrite Hnum. cbn [map lookup fst snd].
      now rewrite E.
    + destruct (is_numeric_data (dtype_of s)).
      * cbn [map lookup fst snd]. rewrite E. now apply IH.
      * now apply IH.
Qed.

Lemma drop_label_map {A B : Type} (f : string * A -> B) (key : string)
  (l : list (string * A)) :
  drop_label key (map (fun c => (fst c, f c)) l)
  = map (fun c => (fst c, f c))
        (filter (fun c => negb (String.eqb (fst c) key)) l).
Proof.
  unfold drop_label. induction l as [|c l IH]; simpl; [reflexivity|].
  destruct (negb (String.eqb (fst c) key)); simpl; now rewrite IH.
Qed.

(** What the step does on a numeric target. *)
Lemma feature_target_correlation_writes (config : Config) (s : state)
  (d : DataFrame) (ts : Series) :
  df s = Some d ->
  getitem d (target_column config) = Some ts ->
  is_numeric_data (dtype_of ts) = true ->
  feature_target_correlation config s
  = (Returned tt,
     snd (write (target_correlation_path config)
                (TargetCorrelationPng (target_column config)
                   (target_bars d (target_column config) ts)) s)).
Proof.
  intros Hd Hts Hnum. unfold feature_target_correlation.
  rewrite (bind_returned get_df _ s s d) by (unfold get_df; now rewrite Hd).
  unfold corr.
  rewrite (lookup_labelled
             (fun sy => map (fun cx => (fst cx, pearson (to_floats (snd cx))
                                                        (to_floats sy)))
                            (select_dtypes is_numeric_data d))
             d _ ts Hts Hnum).
  rewrite (drop_label_map (fun cx => pearson (to_floats (snd cx)) (to_floats ts))).
  reflexivity.
Qed.

Lemma lookup_labelled_none {A : Type} (g : string * Series -> A)
  (d : DataFrame) (target : string) :
  (forall sr, In (target, sr) d -> is_numeric_data (dtype_of sr) = false) ->
  lookup target (map (fun cy => (fst cy, g cy))
                     (select_dtypes is_numeric_data d)) = None.
Proof.
  unfold select_dtypes.
  induction d as [|[n sr] d IH]; intros H; [reflexivity|].
  cbn [filter snd].
  destruct (is_numeric_data (dtype_of sr)) eqn:E.
  - cbn [map lookup fst]. destruct (String.eqb n target) eqn:En.
    + apply String.eqb_eq in En. subst n.
      rewrite (H sr (or_introl eq_refl)) in E. discriminate.
    + apply IH. intros sr' Hin. apply H. now right.
  - apply IH. intros sr' Hin. apply H. now right.
Qed.

Lemma lookup_corr_none (d : DataFrame) (target : string) :
  (forall sr, In (target, sr) d -> is_numeric_data (dtype_of sr) = false) ->
  lookup target (corr d) = None.
Proof.
  intros H. unfold corr. cbv zeta.
  exact (lookup_labelled_none _ d target H).
Qed.

(** C5 (amended).  The feature-vs-target correlation step consults no
    flag: configurations with the same target and report directory give the
    same step.  A run whose first eight steps have returned executes it
    next, whatever the flags.  On a target that is a numeric column it
    writes [target_correlation.png] with one bar for each other numeric
    column (boolean columns included), in column order, and returns.  On a
    dataset with no column of numeric data labelled with the target it
    raises [KeyError] for the target and writes nothing. *)
Theorem feature_target_correlation_unconditional (world : World) (config : Config) :
  (forall config',
      target_column config' = target_column config ->
      report_path config' = report_path config ->
      forall s, feature_target_correlation config' s
                = feature_target_correlation config s) /\
  (forall s0 s,
      sequence (firstn 8 (steps world config)) s0 = (Returned tt, s) ->
      run world config s0
      = (feature_target_correlation config ;;
         sequence (skipn 9 (steps world config))) s) /\
  (forall s d ts,
      df s = Some d ->
      getitem d (target_column config) = Some ts ->
      is_numeric_data (dtype_of ts) = true ->
      feature_target_correlation config s
      = (Returned tt,
         snd (write (target_correlation_path config)
                    (TargetCorrelationPng (target_column config)
                       (target_bars d (target_column config) ts)) s))) /\
  (forall s d,
      df s = Some d ->
      (forall sr, In (target_column config, sr) d ->
                  is_numeric_data (dtype_of sr) = false) ->
      feature_target_correlation config s
      = (Raised (KeyError (target_column config)), s)).
Proof.
  split; [|split; [|split]].
  - intros config' Ht Hp s. unfold feature_target_correlation.
    now rewrite Ht, Hp.
  - intros s0 s H8. now rewrite (run_continues world config 8 s0 s H8).
  - intros s d ts. apply feature_target_correlation_writes.
  - intros s d Hd Hno. unfold feature_target_correlation. cbv zeta.
    rewrite (bind_returned get_df _ s s d) by (unfold get_df; now rewrite Hd).
    now rewrite (lookup_corr_none d _ Hno).
Qed.


Lemma feature_target_correlation_unconditional_witness :
  fst (feature_target_correlation (config_with "stage" false)
         {| df := Some patients; num_cols := None; cat_cols := None;
            log := []; files := [] |})
  = Returned tt.
Proof.
  rewrite (proj1 (proj2 (proj2 (feature_target_correlation_unconditional
                                  (quiet_world patients)
                                  (config_with "stage" false))))
             _ patients (series Int64 [num 0; num 1; num 2; num 1]));
    reflexivity.
Defined.

(** *** Files are only added *)


Lemma files_kept_refl (s : state) : files_kept s s.
Proof. intros f H. exact H. Qed.

Lemma files_kept_trans (s1 s2 s3 : state) :
  files_kept s1 s2 -> files_kept s2 s3 -> files_kept s1 s3.
Proof. unfold files_kept. auto. Qed.

Ltac files_kept_leaf :=
  idtac;
  match goal with
  | |- steady files_kept (logger _ _) => intros ? ? Hin; exact Hin
  | |- steady files_kept (set_df _) => intros ? ? Hin; exact Hin
  | |- steady files_kept (set_cols _ _) => intros ? ? Hin; exact Hin
  | |- steady files_kept (write _ _) =>
      intros ? ? Hin; apply in_or_app; left; exact Hin
  end.

Ltac files_kept_step :=
  pose proof files_kept_refl; pose proof files_kept_trans;
  steady_with files_kept_leaf.

Lemma steps_keep_files (world : World) (config : Config) :
  Forall (steady files_kept) (steps world config).
Proof.
  unfold steps. repeat apply Forall_cons; try apply Forall_nil.
  - unfold load_data. files_kept_step.
  - unfold drop_id_columns. files_kept_step.
  - unfold missing_value_analysis. files_kept_step.
  - unfold duplicate_analysis. files_kept_step.
  - unfold classify_columns. files_kept_step.
  - unfold distribution_plots. files_kept_step.
  - unfold target_analysis. files_kept_step.
  - unfold correlation_analysis. files_kept_step.
  - unfold feature_target_correlation. files_kept_step.
  - unfold categorical_statistical_tests. files_kept_step.
  - unfold outlier_analysis. files_kept_step.
  - unfold generate_sweetviz. files_kept_step.
  - files_kept_step.
Qed.

(** *** Correlations of the sample columns *)

Lemma Q2R_inject_Z (z : Z) : Q2R (inject_Z z) = IZR z.
Proof. unfold Q2R, inject_Z. simpl. lra. Qed.

(** The correlation when the product of the two sums of squares is the
    square of a positive integer. *)
Lemma pearson_exact (xs ys : list (option Q)) (k : Z) :
  (nobs (welford_run welford_zero xs ys) <? 1)%Z = false ->
  (ssqdm_x (welford_run welford_zero xs ys)
   * ssqdm_y (welford_run welford_zero xs ys) == inject_Z (k * k))%Q ->
  (0 < k)%Z ->
  pearson xs ys = Fin (Q2R (covxy (welford_run welford_zero xs ys)) / IZR k).
Proof.
  intros Hn Hsq Hk. unfold pearson. cbv zeta. rewrite Hn.
  apply Qeq_eqR in Hsq. rewrite Hsq, Q2R_inject_Z, mult_IZR.
  assert (Hpos : (0 < IZR k)%R) by now apply IZR_lt.
  rewrite sqrt_square by lra.
  destruct (Req_dec_T (IZR k) 0) as [E|_]; [lra|reflexivity].
Qed.

Lemma trend_bars :
  target_bars trend "y" (series Int64 [num 1; num 2; num 3])
  = [("a", Fin 1); ("b", Fin (-1)); ("c", Fin 1)].
Proof.
  unfold target_bars. cbn [trend select_dtypes filter is_numeric_data
    dtype_of series snd fst String.eqb Ascii.eqb Bool.eqb negb map].
  rewrite (pearson_exact _ _ 2), (pearson_exact _ _ 2), (pearson_exact _ _ 4);
    try reflexivity.
  repeat f_equal; f_equal; vm_compute Q2R; lra.
Qed.


(** Two runs with every flag off.  On three features whose correlations
    with the target are 1, -1 and 1 the chart is written with its bars in
    column order, which is neither ascending nor descending.  On a textual
    target the step raises [KeyError] and no chart is written. *)
Lemma target_correlation_bars_unsorted :
  (exists bars,
      In (target_correlation_path (config_with "y" false),
          TargetCorrelationPng "y" bars)
         (files (snd (run (quiet_world trend) (config_with "y" false) init))) /\
      bars = [("a", Fin 1); ("b", Fin (-1)); ("c", Fin 1)] /\
      ~ Sorted fle (map snd bars) /\
      ~ Sorted (fun x y => fle y x) (map snd bars)) /\
  fst (run (quiet_world flowers) (config_with "species" false) init)
  = Raised (KeyError "species") /\
  ~ In (target_correlation_path (config_with "species" false))
       (map fst (files (snd (run (quiet_world flowers)
                                 (config_with "species" false) init)))).
Proof.
  split; [|split].
  - exists [("a", Fin 1); ("b", Fin (-1)); ("c", Fin 1)].
    split; [|split; [reflexivity|split]].
    + set (world := quiet_world trend). set (config := config_with "y" false).
      set (s8 := snd (sequence (firstn 8 (steps world config)) init)).
      assert (H8 : sequence (firstn 8 (steps world config)) init
                   = (Returned tt, s8))
        by (apply sequence_outcome; reflexivity).
      rewrite (run_continues world config 8 init s8 H8).
      cbn [skipn steps sequence].
      rewrite (bind_returned _ _ _ _ tt
                 (feature_target_correlation_writes config s8 trend
                    (series Int64 [num 1; num 2; num 3])
                    eq_refl eq_refl eq_refl)).
      apply (steady_sequence files_kept
               (skipn 9 (steps world config)) files_kept_refl files_kept_trans).
      * apply Forall_forall. intros m Hm.
        pose proof (steps_keep_files world config) as Hall.
        rewrite Forall_forall in Hall. apply Hall.
        rewrite <- (firstn_skipn 9 (steps world config)).
        apply in_or_app. now right.
      * cbn [write snd files]. apply in_or_app. right. left.
        change (target_column config) with "y". now rewrite trend_bars.
    + cbn [map snd]. intros H.
      inversion H as [|? ? _ Hhd]; subst. inversion Hhd as [|? ? Hle]; subst.
      simpl in Hle. lra.
    + cbn [map snd]. intros H.
      inversion H as [|? ? Hs _]; subst. inversion Hs as [|? ? _ Hhd]; subst.
      inversion Hhd as [|? ? Hle]; subst. simpl in Hle. lra.
  - reflexivity.
  - lazy. intros H. repeat destruct H as [H|H]; try discriminate H. exact H.
Qed.

End CorrelationFacts.

Module CohensDFacts.

Import NumPy NumPyFacts UtilsFacts EffectSizeSpec Properties.
Local Open Scope R_scope.






End CohensDFacts.

Module OutlierMore.

Import Pandas PandasFacts Utils Properties MoreProperties OutlierFacts.
Local Open Scope Q_scope.






End OutlierMore.

Module EffectFacts.

Import NumPy Pandas Pipeline Properties MoreProperties PipelineFacts RunFacts.
Local Open Scope string_scope.
Local Open Scope pipeline_scope.

Lemma write_adds (path : string) (a : artifact) (s : state) :
  write path a s = (Returned tt, add_files [(path, a)] s).
Proof. reflexivity. Qed.

Lemma logger_adds (lvl : level) (msg : message) (s : state) :
  logger lvl msg s = (Returned tt, add_log [(lvl, msg)] s).
Proof. reflexivity. Qed.

Lemma add_files_app (fs1 fs2 : list (string * artifact)) (s : state) :
  add_files fs2 (add_files fs1 s) = add_files (fs1 ++ fs2) s.
Proof. unfold add_files. simpl. now rewrite app_assoc. Qed.

Lemma add_files_nil (s : state) : add_files [] s = s.
Proof. destruct s. unfold add_files. simpl. now rewrite app_nil_r. Qed.

Lemma get_df_ready (d : DataFrame) (s : state) :
  df s = Some d -> get_df s = (Returned d, s).
Proof. intros H. unfold get_df. now rewrite H. Qed.

Lemma get_num_cols_ready (l : list string) (s : state) :
  num_cols s = Some l -> get_num_cols s = (Returned l, s).
Proof. intros H. unfold get_num_cols. now rewrite H. Qed.

Lemma get_cat_cols_ready (l : list string) (s : state) :
  cat_cols s = Some l -> get_cat_cols s = (Returned l, s).
Proof. intros H. unfold get_cat_cols. now rewrite H. Qed.

Lemma ready_add_files (d : DataFrame) (num cat : list string)
  (fs : list (string * artifact)) (s : state) :
  ready d num cat s -> ready d num cat (add_files fs s).
Proof. intros H. exact H. Qed.

Lemma ready_add_log (d : DataFrame) (num cat : list string)
  (l : list (level * message)) (s : state) :
  ready d num cat s -> ready d num cat (add_log l s).
Proof. intros H. exact H. Qed.

(** A label of the frame can be looked up. *)
Lemma getitem_in_columns (d : DataFrame) (col : string) :
  In col (columns d) -> exists sr, getitem d col = Some sr.
Proof.
  unfold columns. induction d as [|[n sr] d IH]; simpl; intros H.
  - contradiction.
  - destruct (String.eqb n col) eqn:E; [now exists sr|].
    destruct H as [H|H]; [|now apply IH].
    subst n. now rewrite String.eqb_refl in E.
Qed.

Lemma getitem_none (d : DataFrame) (col : string) :
  getitem d col = None <-> ~ In col (columns d).
Proof.
  unfold columns. induction d as [|[n sr] d IH]; simpl.
  - tauto.
  - destruct (String.eqb n col) eqn:E.
    + apply String.eqb_eq in E. split; [discriminate|]. intros H. exfalso. auto.
    + apply String.eqb_neq in E. rewrite IH. tauto.
Qed.

Lemma column_returns (d : DataFrame) (col : string) (sr : Series) (s : state) :
  getitem d col = Some sr -> column d col s = (Returned sr, s).
Proof. intros H. unfold column. now rewrite H. Qed.

Lemma column_raises (d : DataFrame) (col : string) (s : state) :
  getitem d col = None -> column d col s = (Raised (KeyError col), s).
Proof. intros H. unfold column. now rewrite H. Qed.

(** A loop whose every iteration returns, adding results and files that
    depend on the element only, returns with all of them in order. *)
Lemma for_each_adds {A B : Type} (xs : list A)
  (body : A -> list B -> M (list B))
  (r : A -> list B) (w : A -> list (string * artifact)) (s : state) :
  (forall x acc fs,
      In x xs ->
      body x acc (add_files fs s)
      = (Returned (acc ++ r x)%list, add_files (fs ++ w x) s)) ->
  forall acc fs,
    for_each xs acc body (add_files fs s)
    = (Returned (acc ++ flat_map r xs)%list,
       add_files (fs ++ flat_map w xs) s).
Proof.
  induction xs as [|x xs IH]; intros Hbody acc fs.
  - simpl. unfold ret. now rewrite !app_nil_r.
  - cbn [for_each flat_map].
    rewrite (bind_returned _ _ _ _ _ (Hbody x acc fs (or_introl eq_refl))).
    rewrite IH by (intros; apply Hbody; now right).
    now rewrite <- !app_assoc.
Qed.

Lemma subframe_returns (d : DataFrame) (cols : list string) :
  (forall col, In col cols -> In col (columns d)) ->
  exists sub, forall s, subframe d cols s = (Returned sub, s).
Proof.
  induction cols as [|c cols IH]; intros H.
  - exists []. reflexivity.
  - destruct (getitem_in_columns d c (H c (or_introl eq_refl))) as [sr Hsr].
    destruct IH as [sub Hsub]; [intros; apply H; now right|].
    exists ((c, sr) :: sub). intros s. cbn [subframe].
    rewrite (bind_returned _ _ _ _ _ (column_returns d c sr s Hsr)).
    now rewrite (bind_returned _ _ _ _ _ (Hsub s)).
Qed.

End EffectFacts.

Module PreparationFacts.

Import NumPy Pandas Pipeline Properties MoreProperties.
Import PipelineFacts RunFacts EffectFacts PandasFacts.
Local Open Scope string_scope.
Local Open Scope pipeline_scope.

(** *** Loading *)

(** X7.  A data file that cannot be read is fatal: the run raises what
    [read_csv] raised, having logged its first message only and written
    nothing. *)
Theorem load_failure_aborts (world : World) (config : Config) (e : exn) :
  read_csv world (data_path config) = Raised e ->
  run world config init = (Raised e, add_log [(INFO, LoadingDataset)] init).
Proof.
  intros H.
  apply (run_aborts world config 1).
  cbn [firstn steps]. rewrite sequence_single.
  unfold load_data.
  rewrite (bind_returned _ _ _ _ tt (logger_adds INFO LoadingDataset init)).
  apply bind_raised. unfold call. now rewrite H.
Qed.

Lemma load_failure_aborts_witness :
  fst (run MoreProperties.unreadable_world (Scenarios.config_with "stage" true) init)
  = Raised (LibraryError "FileNotFoundError") /\
  files (snd (run MoreProperties.unreadable_world
                  (Scenarios.config_with "stage" true) init)) = [].
Proof.
  rewrite (load_failure_aborts MoreProperties.unreadable_world
             (Scenarios.config_with "stage" true)
             (LibraryError "FileNotFoundError") eq_refl).
  split; reflexivity.
Defined.

(** *** Dropping the identifier columns *)

Lemma mem_In (x : string) (l : list string) : mem x l = true <-> In x l.
Proof.
  unfold mem. rewrite existsb_exists. split.
  - intros [y [Hy E]]. apply String.eqb_eq in E. now subst.
  - intros H. exists x. split; [assumption|apply String.eqb_refl].
Qed.

Lemma columns_drop_columns (ids : list string) (d : DataFrame) :
  columns (drop_columns ids d)
  = filter (fun c => negb (mem c ids)) (columns d).
Proof.
  unfold columns, drop_columns.
  induction d as [|[n sr] d IH]; simpl; [reflexivity|].
  destruct (negb (mem n ids)); simpl; now rewrite IH.
Qed.

Lemma getitem_drop_columns (ids : list string) (d : DataFrame) (c : string) :
  ~ In c ids -> getitem (drop_columns ids d) c = getitem d c.
Proof.
  intros Hc. unfold drop_columns.
  induction d as [|[n sr] d IH]; simpl; [reflexivity|].
  destruct (mem n ids) eqn:E; simpl.
  - destruct (String.eqb n c) eqn:En; [|exact IH].
    apply String.eqb_eq in En. subst n. apply mem_In in E. contradiction.
  - now rewrite IH.
Qed.

Lemma drop_columns_absent (ids : list string) (d : DataFrame) :
  (forall c, In c ids -> ~ In c (columns d)) -> drop_columns ids d = d.
Proof.
  unfold drop_columns, columns. induction d as [|[n sr] d IH]; intros H; simpl.
  - reflexivity.
  - destruct (mem n ids) eqn:E.
    + apply mem_In in E. exfalso. apply (H n E). now left.
    + simpl. f_equal. apply IH. intros c Hc Hin. apply (H c Hc). now right.
Qed.

Lemma get_id_columns_labels (config : Config) :
  id_columns config <> Null -> get_id_columns config = Some (ids_of config).
Proof.
  unfold get_id_columns, ids_of.
  destruct (id_columns config); [reflexivity|congruence|reflexivity].
Qed.

(** The step on the labels [config.get] returns. *)
Lemma drop_id_columns_returns (config : Config) (s : state) (d : DataFrame) :
  id_columns config <> Null -> df s = Some d ->
  drop_id_columns config s
  = (Returned tt,
     add_log [(INFO, IdColumnsRemoved)]
       {| df := Some (drop_columns (ids_of config) d);
          num_cols := num_cols s; cat_cols := cat_cols s;
          log := log s; files := files s |}).
Proof.
  intros Hn Hd. unfold drop_id_columns, get_id_columns, ids_of. cbv zeta.
  rewrite (bind_returned _ _ _ _ _ (get_df_ready d s Hd)).
  destruct (id_columns config); [reflexivity|congruence|reflexivity].
Qed.

Lemma drop_id_columns_null (config : Config) (s : state) (d : DataFrame) :
  id_columns config = Null -> df s = Some d ->
  drop_id_columns config s
  = (Raised (ValueError
               "Need to specify at least one of 'labels', 'index' or 'columns'"),
     s).
Proof.
  intros Hn Hd. unfold drop_id_columns, get_id_columns. cbv zeta.
  rewrite (bind_returned _ _ _ _ _ (get_df_ready d s Hd)).
  now rewrite Hn.
Qed.

(** X8.  With [id_columns] absent or a list of labels, the drop step never
    fails on a loaded dataset, whether the configured identifier columns
    are there or not: it writes no file and leaves the columns whose label
    is not an identifier, in their order and with their data; identifiers
    that are absent change nothing.  A null [id_columns] is not the
    default: the step raises [ValueError] and leaves the pipeline as it
    was, nothing dropped and nothing logged. *)
Theorem drop_id_columns_tolerant (config : Config) (s : state) (d : DataFrame) :
  df s = Some d ->
  (id_columns config <> Null ->
   exists s',
     drop_id_columns config s = (Returned tt, s') /\
     df s' = Some (drop_columns (ids_of config) d) /\
     files s' = files s /\
     columns (drop_columns (ids_of config) d)
     = filter (fun c => negb (mem c (ids_of config))) (columns d) /\
     (forall c, In c (ids_of config) ->
                getitem (drop_columns (ids_of config) d) c = None) /\
     (forall c, ~ In c (ids_of config) ->
                getitem (drop_columns (ids_of config) d) c = getitem d c) /\
     ((forall c, In c (ids_of config) -> ~ In c (columns d)) ->
      drop_columns (ids_of config) d = d)) /\
  (id_columns config = Null ->
   exists msg, drop_id_columns config s = (Raised (ValueError msg), s)).
Proof.
  intros Hd. split.
  - intros Hn. eexists. split; [exact (drop_id_columns_returns config s d Hn Hd)|].
    split; [reflexivity|]. split; [reflexivity|].
    split; [apply columns_drop_columns|]. split; [|split].
    + intros c Hc. apply getitem_none. rewrite columns_drop_columns.
      intros Hin. apply filter_In in Hin. destruct Hin as [_ Hin].
      apply mem_In in Hc. now rewrite Hc in Hin.
    + intros c. apply getitem_drop_columns.
    + apply drop_columns_absent.
  - intros Hn. eexists. exact (drop_id_columns_null config s d Hn Hd).
Qed.

Lemma drop_id_columns_tolerant_witness :
  fst (drop_id_columns
         {| data_path := "data.csv"; report_path := "reports/";
            id_columns := Labels ["id"; "row_number"]; target_column := "stage";
            outlier_detection := true;
            plots := {| distribution := true; target_analysis_flag := true;
                        correlation := true |} |}
         {| df := Some Scenarios.patients; num_cols := None; cat_cols := None;
            log := []; files := [] |})
  = Returned tt /\
  exists msg,
    drop_id_columns
      {| data_path := "data.csv"; report_path := "reports/";
         id_columns := Null; target_column := "stage";
         outlier_detection := true;
         plots := {| distribution := true; target_analysis_flag := true;
                     correlation := true |} |}
      {| df := Some Scenarios.patients; num_cols := None; cat_cols := None;
         log := []; files := [] |}
    = (Raised (ValueError msg),
       {| df := Some Scenarios.patients; num_cols := None; cat_cols := None;
          log := []; files := [] |}).
Proof.
  split.
  - destruct (proj1 (drop_id_columns_tolerant
                       {| data_path := "data.csv"; report_path := "reports/";
                          id_columns := Labels ["id"; "row_number"];
                          target_column := "stage"; outlier_detection := true;
                          plots := {| distribution := true;
                                      target_analysis_flag := true;
                                      correlation := true |} |}
                       {| df := Some Scenarios.patients; num_cols := None;
                          cat_cols := None; log := []; files := [] |}
                       Scenarios.patients eq_refl))
      as [s' [H _]]; [discriminate|].
    now rewrite H.
  - apply (proj2 (drop_id_columns_tolerant
                    {| data_path := "data.csv"; report_path := "reports/";
                       id_columns := Null;
                       target_column := "stage"; outlier_detection := true;
                       plots := {| distribution := true;
                                   target_analysis_flag := true;
                                   correlation := true |} |}
                    {| df := Some Scenarios.patients; num_cols := None;
                       cat_cols := None; log := []; files := [] |}
                    Scenarios.patients eq_refl)).
    reflexivity.
Defined.


(** *** Missing values *)

Lemma count_true_le (mask : list bool) : (count_true mask <= List.length mask)%nat.
Proof. unfold count_true. apply filter_length_le. Qed.

Lemma count_isna_pos (vs : list cell) :
  (0 < count_true (map isna vs))%nat <-> In None vs.
Proof.
  unfold count_true. induction vs as [|[v|] vs IH]; simpl.
  - split; [lia|tauto].
  - rewrite IH. split; [auto|]. intros [H|H]; [discriminate|assumption].
  - split; [auto|lia].
Qed.

(** The share of missing cells of a column with rows lies between 0 and
    1, and is positive exactly when a cell is missing. *)
Lemma isnull_mean_range (sr : Series) (r : Q) :
  isnull_mean sr = Some r ->
  (0 <= r)%Q /\ (r <= 1)%Q /\ ((0 < r)%Q <-> In None (values sr)).
Proof.
  unfold isnull_mean. destruct (values sr) as [|v vs] eqn:E; [discriminate|].
  intros H. injection H as <-.
  set (k := count_true (map isna (v :: vs))).
  set (n := List.length (v :: vs)).
  assert (Hk : (k <= n)%nat).
  { unfold k, n. rewrite <- (length_map isna). apply count_true_le. }
  assert (Hn : (0 < n)%nat) by (unfold n; simpl; lia).
  assert (Hn' : (0 < inject_Z (Z.of_nat n))%Q).
  { change 0%Q with (inject_Z 0). rewrite <- Zlt_Qlt. lia. }
  assert (Hk' : (0 <= inject_Z (Z.of_nat k))%Q).
  { change 0%Q with (inject_Z 0). rewrite <- Zle_Qle. lia. }
  assert (Hkn : (inject_Z (Z.of_nat k) <= inject_Z (Z.of_nat n))%Q).
  { rewrite <- Zle_Qle. lia. }
  split; [|split].
  - apply Qle_shift_div_l; [assumption|]. now rewrite Qmult_0_l.
  - apply Qle_shift_div_r; [assumption|]. now rewrite Qmult_1_l.
  - rewrite <- (count_isna_pos (v :: vs)). fold k. split; intros H.
    + change (0 < inject_Z (Z.of_nat k) / inject_Z (Z.of_nat n))%Q in H.
      destruct (Nat.eq_dec k 0) as [E0|E0]; [|lia]. exfalso.
      rewrite E0 in H. change (inject_Z (Z.of_nat 0)) with 0%Q in H.
      unfold Qdiv in H. rewrite Qmult_0_l in H. now apply (Qlt_irrefl 0).
    + change (0 < inject_Z (Z.of_nat k) / inject_Z (Z.of_nat n))%Q.
      apply Qlt_shift_div_l; [assumption|].
      rewrite Qmult_0_l. change 0%Q with (inject_Z 0). rewrite <- Zlt_Qlt. lia.
Qed.

Lemma in_positive_ratios (missing : list (string * option Q)) (name : string) (r : Q) :
  In (name, r) (positive_ratios missing)
  <-> In (name, Some r) missing /\ (0 < r)%Q.
Proof.
  unfold positive_ratios. rewrite in_flat_map. split.
  - intros [[n [q|]] [Hin H]]; simpl in H; [|contradiction].
    destruct (Qlt_bool 0 q) eqn:E; [|contradiction].
    destruct H as [H|[]]. injection H as -> ->.
    split; [assumption|]. now apply Qlt_bool_iff.
  - intros [Hin Hr]. exists (name, Some r). split; [assumption|]. simpl.
    apply Qlt_bool_iff in Hr. rewrite Hr. now left.
Qed.

(** X9.  The missing-value step writes one table, [missing_values.csv]: it
    lists a column exactly when the column has a missing cell, with a ratio
    above 0 and at most 1. *)
Theorem missing_value_analysis_rows (config : Config) (s : state) (d : DataFrame) :
  df s = Some d ->
  exists rows,
    missing_value_analysis config s
    = (Returned tt,
       add_files [(report_path config ++ "missing_values.csv",
                   MissingValuesCsv rows)] s) /\
    (forall name,
        In name (map fst rows)
        <-> exists sr, In (name, sr) d /\ In None (values sr)) /\
    (forall name r, In (name, r) rows -> (0 < r)%Q /\ (r <= 1)%Q).
Proof.
  intros Hd. eexists. split.
  { unfold missing_value_analysis.
    rewrite (bind_returned _ _ _ _ _ (get_df_ready d s Hd)). cbv zeta.
    apply write_adds. }
  split.
  - intros name. rewrite in_map_iff. split.
    + intros [[n r] [E Hin]]. simpl in E. subst n.
      apply in_positive_ratios in Hin. destruct Hin as [Hin Hr].
      apply in_map_iff in Hin. destruct Hin as [[n sr] [E Hin]].
      simpl in E. injection E as -> E.
      exists sr. split; [assumption|].
      now apply (isnull_mean_range sr r E).
    + intros [sr [Hin Hna]].
      destruct (isnull_mean sr) as [r|] eqn:E.
      * exists (name, r). split; [reflexivity|].
        apply in_positive_ratios. split.
        -- apply in_map_iff. exists (name, sr). simpl. now rewrite E.
        -- now apply (isnull_mean_range sr r E).
      * unfold isnull_mean in E. destruct (values sr); [contradiction|discriminate].
  - intros name r Hin. apply in_positive_ratios in Hin. destruct Hin as [Hin Hr].
    split; [assumption|].
    apply in_map_iff in Hin. destruct Hin as [[n sr] [E Hin]].
    simpl in E. injection E as -> E.
    now apply (isnull_mean_range sr r E).
Qed.

Lemma missing_value_analysis_rows_witness :
  exists rows,
    files (snd (missing_value_analysis (Scenarios.config_with "answer" true)
                  {| df := Some Scenarios.survey; num_cols := None;
                     cat_cols := None; log := []; files := [] |}))
    = [("reports/missing_values.csv", MissingValuesCsv rows)] /\
    map fst rows = ["answer"].
Proof.
  destruct (missing_value_analysis_rows (Scenarios.config_with "answer" true)
              {| df := Some Scenarios.survey; num_cols := None;
                 cat_cols := None; log := []; files := [] |}
              Scenarios.survey eq_refl) as [rows [H _]].
  eexists. split; [reflexivity|]. reflexivity.
Defined.

(** *** Duplicate rows *)

Lemma duplicated_from_length (seen rs : list (list cell)) :
  List.length (duplicated_from seen rs) = List.length rs.
Proof.
  revert seen. induction rs as [|r rs IH]; intros seen; simpl;
    [reflexivity|now rewrite IH].
Qed.

Lemma rows_length (d : DataFrame) : List.length (rows d) = nrows d.
Proof. unfold rows. now rewrite length_map, length_seq. Qed.

(** X10.  The duplicate step logs the number of rows that repeat an earlier
    row and writes nothing; the first row is never counted, so the number
    is below the number of rows. *)
Theorem duplicate_analysis_count (s : state) (d : DataFrame) :
  df s = Some d ->
  exists k,
    duplicate_analysis s = (Returned tt, add_log [(INFO, DuplicateRows k)] s) /\
    (k <= Nat.pred (nrows d))%nat.
Proof.
  intros Hd. exists (count_true (duplicated d)). split.
  - unfold duplicate_analysis.
    rewrite (bind_returned _ _ _ _ _ (get_df_ready d s Hd)). reflexivity.
  - unfold duplicated. rewrite <- rows_length.
    destruct (rows d) as [|r rs]; [apply Nat.le_refl|].
    cbn [duplicated_from existsb List.length Nat.pred].
    unfold count_true. cbn [filter].
    rewrite <- (duplicated_from_length [r] rs). apply filter_length_le.
Qed.

Lemma duplicate_analysis_count_witness :
  exists k,
    log (snd (duplicate_analysis
                {| df := Some Scenarios.patients; num_cols := None;
                   cat_cols := None; log := []; files := [] |}))
    = [(INFO, DuplicateRows k)] /\ (k <= 3)%nat.
Proof.
  destruct (duplicate_analysis_count
              {| df := Some Scenarios.patients; num_cols := None;
                 cat_cols := None; log := []; files := [] |}
              Scenarios.patients eq_refl) as [k [H Hk]].
  exists k. rewrite H. split; [reflexivity|exact Hk].
Defined.

End PreparationFacts.

Module ClassificationFacts.

Import NumPy Pandas Pipeline Properties MoreProperties.
Import PipelineFacts RunFacts EffectFacts PandasFacts PreparationFacts ClassifyFacts.
Local Open Scope string_scope.
Local Open Scope pipeline_scope.

Lemma columns_select_drop (include : dtype -> bool) (ids : list string)
  (d : DataFrame) :
  columns (select_dtypes include (drop_columns ids d))
  = filter (fun c => negb (mem c ids)) (columns (select_dtypes include d)).
Proof.
  unfold columns, select_dtypes, drop_columns.
  induction d as [|[n sr] d IH]; simpl; [reflexivity|].
  destruct (mem n ids) eqn:E; destruct (include (dtype_of sr)) eqn:Ei; simpl;
    rewrite ?E, ?Ei; simpl; now rewrite IH.
Qed.

Lemma in_columns_select_in (include : dtype -> bool) (d : DataFrame) (col : string) :
  In col (columns (select_dtypes include d)) -> In col (columns d).
Proof.
  intros H. apply in_columns_select in H. destruct H as [sr [H _]].
  unfold columns. apply in_map_iff. now exists (col, sr).
Qed.

(** X11.  Once the data file is read, and unless [id_columns] is null, the
    first five steps cannot fail.  They leave the dataset without the
    identifier columns, and a classification that is the classification of
    the file's columns less the identifiers: every classified label is a
    column of the dataset the later steps read.  Only [missing_values.csv]
    has been written. *)
Theorem first_five_steps (world : World) (config : Config) (d0 : DataFrame) :
  read_csv world (data_path config) = Returned d0 ->
  id_columns config <> Null ->
  exists s5,
    sequence (firstn 5 (steps world config)) init = (Returned tt, s5) /\
    ready (drop_columns (ids_of config) d0)
          (filter (fun c => negb (mem c (ids_of config)))
                  (fst (Utils.classify_columns d0)))
          (filter (fun c => negb (mem c (ids_of config)))
                  (snd (Utils.classify_columns d0)))
          s5 /\
    paths s5 = [report_path config ++ "missing_values.csv"] /\
    (forall col,
        In col (fst (Utils.classify_columns (drop_columns (ids_of config) d0))) \/
        In col (snd (Utils.classify_columns (drop_columns (ids_of config) d0))) ->
        In col (columns (drop_columns (ids_of config) d0)) /\
        ~ In col (ids_of config)).
Proof.
  intros H Hn. eexists. split.
  { cbn [firstn steps sequence].
    unfold load_data, drop_id_columns, missing_value_analysis,
      duplicate_analysis, classify_columns, Utils.classify_columns.
    rewrite (get_id_columns_labels config Hn).
    unfold bind, call, logger, set_df, get_df, set_cols, write, ret.
    rewrite H. cbn [df]. reflexivity. }
  split; [|split].
  - unfold ready, Utils.classify_columns. cbn [df num_cols cat_cols fst snd].
    now rewrite !columns_select_drop.
  - reflexivity.
  - intros col Hcol. unfold Utils.classify_columns in Hcol. cbn [fst snd] in Hcol.
    split.
    + destruct Hcol as [Hc|Hc]; now apply in_columns_select_in in Hc.
    + intros Hid. apply mem_In in Hid.
      destruct Hcol as [Hc|Hc]; rewrite columns_select_drop in Hc;
        apply filter_In in Hc; destruct Hc as [_ Hc]; now rewrite Hid in Hc.
Qed.

Lemma first_five_steps_witness :
  exists s5,
    sequence (firstn 5 (steps (Scenarios.quiet_world Scenarios.patients)
                              (Scenarios.config_with "stage" true))) init
    = (Returned tt, s5) /\
    num_cols s5 = Some ["age"; "stage"] /\ cat_cols s5 = Some ["city"].
Proof.
  destruct (first_five_steps (Scenarios.quiet_world Scenarios.patients)
              (Scenarios.config_with "stage" true) Scenarios.patients eq_refl)
    as [s5 [H [[_ [Hn Hc]] _]]]; [discriminate|].
  exists s5. split; [exact H|]. split; [exact Hn|exact Hc].
Defined.

End ClassificationFacts.

Module AnalysisFacts.

Import NumPy Pandas Pipeline Properties MoreProperties.
Import PipelineFacts RunFacts EffectFacts PandasFacts.
Local Open Scope string_scope.
Local Open Scope pipeline_scope.

(** What a loop over labels of the frame adds: one entry per label. *)
Lemma flat_map_per_column {A B : Type} (d : DataFrame) (cols : list string)
  (g : string -> Series -> A) (h : A -> B) (k : string -> B) :
  (forall col, In col cols -> In col (columns d)) ->
  (forall col sr, h (g col sr) = k col) ->
  map h (flat_map (fun col => match getitem d col with
                              | Some sr => [g col sr]
                              | None => []
                              end) cols)
  = map k cols.
Proof.
  intros Hin Hk. induction cols as [|c cols IH]; [reflexivity|].
  cbn [flat_map]. destruct (getitem_in_columns d c (Hin c (or_introl eq_refl)))
    as [sr Hsr].
  rewrite Hsr. cbn [app map]. rewrite Hk. f_equal.
  apply IH. intros col Hc. apply Hin. now right.
Qed.

Lemma flat_map_skip {A : Type} (target : string) (g : string -> list A)
  (cols : list string) :
  flat_map (fun col => if String.eqb col target then [] else g col) cols
  = flat_map g (filter (fun col => negb (String.eqb col target)) cols).
Proof.
  induction cols as [|c cols IH]; [reflexivity|].
  cbn [flat_map filter]. destruct (String.eqb c target); simpl; now rewrite IH.
Qed.

(** *** Distribution plots *)

Lemma distribution_plots_returns (config : Config) (s : state)
  (d : DataFrame) (num cat : list string) :
  ready d num cat s ->
  (forall col, In col num -> In col (columns d)) ->
  distribution (plots config) = true ->
  exists fs,
    distribution_plots config s = (Returned tt, add_files fs s) /\
    map fst fs = map (distribution_path config) num.
Proof.
  intros (Hd & Hn & _) Hin Hflag.
  set (w := fun col => match getitem d col with
                       | Some sr => [(distribution_path config col,
                                      DistributionPng col (values sr))]
                       | None => []
                       end).
  exists (flat_map w num). split.
  - unfold distribution_plots. rewrite Hflag. cbn [negb].
    rewrite (bind_returned _ _ _ _ _ (get_num_cols_ready num s Hn)).
    match goal with
    | |- context [for_each num [] ?b] =>
        assert (Hloop : for_each num [] b (add_files [] s)
                        = (Returned ([] ++ flat_map (fun _ => []) num)%list,
                           add_files ([] ++ flat_map w num) s))
    end.
    { apply for_each_adds. intros col acc fs Hc.
      destruct (getitem_in_columns d col (Hin col Hc)) as [sr Hsr].
      rewrite (bind_returned _ _ _ _ _ (get_df_ready d (add_files fs s) Hd)).
      rewrite (bind_returned _ _ _ _ _ (column_returns d col sr _ Hsr)).
      rewrite (bind_returned _ _ _ _ _ (write_adds _ _ _)).
      unfold w. rewrite Hsr, add_files_app, app_nil_r. reflexivity. }
    rewrite add_files_nil in Hloop.
    rewrite (bind_returned _ _ _ _ _ Hloop).
    reflexivity.
  - unfold w. now apply (flat_map_per_column d num).
Qed.


(** *** The t-test step on a binary target *)

Lemma target_analysis_binary (world : World) (config : Config) (s : state)
  (d : DataFrame) (num cat : list string) (ts : Series) (g1 g2 : cell)
  (t : list Q -> list Q -> float64 * float64) :
  ready d num cat s ->
  (forall col, In col num -> In col (columns d)) ->
  target_analysis_flag (plots config) = true ->
  getitem d (target_column config) = Some ts ->
  unique (values ts) = [g1; g2] ->
  (forall a b, ttest_ind world a b = Returned (t a b)) ->
  exists rows fs,
    target_analysis world config s
    = (Returned tt, add_files (fs ++ [(ttest_path config, TTestCsv rows)]) s) /\
    map fst fs
    = map (vs_target_path config) (features (target_column config) num) /\
    map (fun row => fst (fst row)) rows = features (target_column config) num /\
    Forall (fun row =>
              exists sr,
                getitem d (fst (fst row)) = Some sr /\
                snd (fst row)
                = snd (t (group_values (values ts) g1 sr)
                         (group_values (values ts) g2 sr)) /\
                snd row
                = Utils.cohens_d
                    (map Q2R (group_values (values ts) g1 sr))
                    (map Q2R (group_values (values ts) g2 sr)))
           rows.
Proof.
  intros (Hd & Hn & _) Hin Hflag Hts Hu Ht.
  set (target := target_column config) in *.
  set (row := fun (col : string) (sr : Series) =>
                (col,
                 snd (t (group_values (values ts) g1 sr)
                        (group_values (values ts) g2 sr)),
                 Utils.cohens_d (map Q2R (group_values (values ts) g1 sr))
                                (map Q2R (group_values (values ts) g2 sr)))).
  set (r := fun col : string => match getitem d col with
                       | Some sr => [row col sr]
                       | None => []
                       end).
  set (w := fun col => match getitem d col with
                       | Some sr =>
                           [(vs_target_path config col,
                             VsTargetPng col target (snd (fst (row col sr)))
                                         (snd (row col sr)))]
                       | None => []
                       end).
  assert (Hf : forall col, In col (features target num) -> In col (columns d)).
  { intros col Hc. apply filter_In in Hc. now apply Hin. }
  exists (flat_map r (features target num)), (flat_map w (features target num)).
  split; [|split; [|split]].
  - unfold target_analysis. rewrite Hflag. cbn [negb]. cbv zeta. fold target.
    rewrite (bind_returned _ _ _ _ _ (get_df_ready d s Hd)).
    rewrite (bind_returned _ _ _ _ _ (column_returns d target ts s Hts)).
    rewrite Hu.
    rewrite (bind_returned _ _ _ _ _ (get_num_cols_ready num s Hn)).
    match goal with
    | |- context [for_each num [] ?b] =>
        assert (Hloop :
                  for_each num [] b (add_files [] s)
                  = (Returned
                       ([] ++ flat_map (fun col => if String.eqb col target
                                                   then [] else r col) num)%list,
                     add_files
                       ([] ++ flat_map (fun col => if String.eqb col target
                                                   then [] else w col) num) s))
    end.
    { apply for_each_adds. intros col acc fs Hc.
      destruct (String.eqb col target) eqn:E.
      - unfold ret. now rewrite !app_nil_r.
      - destruct (getitem_in_columns d col (Hin col Hc)) as [sr Hsr].
        rewrite (bind_returned _ _ _ _ _ (get_df_ready d (add_files fs s) Hd)).
        rewrite (bind_returned _ _ _ _ _ (column_returns d target ts _ Hts)).
        rewrite (bind_returned _ _ _ _ _ (column_returns d col sr _ Hsr)).
        unfold call at 1.
        rewrite (bind_returned _ _ _ (add_files fs s)
                   (t (group_values (values ts) g1 sr)
                      (group_values (values ts) g2 sr)))
          by (now rewrite Ht).
        cbv zeta.
        rewrite (bind_returned _ _ _ _ _ (write_adds _ _ _)).
        unfold r, w. rewrite Hsr, add_files_app. reflexivity. }
    rewrite add_files_nil in Hloop.
    rewrite (bind_returned _ _ _ _ _ Hloop).
    rewrite write_adds, add_files_app. cbn [app].
    now rewrite !flat_map_skip.
  - unfold w. now apply (flat_map_per_column d (features target num)).
  - unfold r.
    rewrite (flat_map_per_column d (features target num) row
               (fun x => fst (fst x)) (fun c => c));
      [apply map_id|assumption|reflexivity].
  - apply Forall_forall. intros x Hx. apply in_flat_map in Hx.
    destruct Hx as [col [_ Hx]]. unfold r in Hx.
    destruct (getitem d col) as [sr|] eqn:E; [|contradiction].
    destruct Hx as [<-|[]]. exists sr. split; [exact E|split; reflexivity].
Qed.

(** X13.  A configured target that is not a column of the dataset: the t-test
    step, when its flag is set, raises [KeyError] before it tests or writes
    anything; with the flag off the target is not looked up at all. *)
Theorem target_analysis_missing_target (world : World) (config : Config)
  (s : state) (d : DataFrame) :
  df s = Some d ->
  ~ In (target_column config) (columns d) ->
  target_analysis world config s
  = if target_analysis_flag (plots config)
    then (Raised (KeyError (target_column config)), s)
    else (Returned tt, s).
Proof.
  intros Hd Hno. apply getitem_none in Hno.
  unfold target_analysis. destruct (target_analysis_flag (plots config));
    [|reflexivity].
  cbn [negb]. cbv zeta.
  rewrite (bind_returned _ _ _ _ _ (get_df_ready d s Hd)).
  now rewrite (bind_raised _ _ _ _ _ (column_raises d _ s Hno)).
Qed.

Lemma target_analysis_missing_target_witness :
  target_analysis (Scenarios.quiet_world Scenarios.patients)
    (Scenarios.config_with "outcome" true) (classified Scenarios.patients)
  = (Raised (KeyError "outcome"), classified Scenarios.patients).
Proof.
  rewrite (target_analysis_missing_target
             (Scenarios.quiet_world Scenarios.patients)
             (Scenarios.config_with "outcome" true)
             (classified Scenarios.patients) Scenarios.patients eq_refl).
  - reflexivity.
  - simpl. intuition discriminate.
Defined.


(** *** Correlations *)

Lemma correlation_analysis_returns (config : Config) (s : state)
  (d : DataFrame) (num cat : list string) :
  ready d num cat s ->
  (forall col, In col num -> In col (columns d)) ->
  correlation (plots config) = true ->
  exists c,
    correlation_analysis config s
    = (Returned tt, add_files [(correlation_path config, CorrelationPng c)] s).
Proof.
  intros (Hd & Hn & _) Hin Hflag.
  destruct (subframe_returns d num Hin) as [sub Hsub].
  exists (corr sub). unfold correlation_analysis. rewrite Hflag. cbn [negb].
  rewrite (bind_returned _ _ _ _ _ (get_df_ready d s Hd)).
  rewrite (bind_returned _ _ _ _ _ (get_num_cols_ready num s Hn)).
  rewrite (bind_returned _ _ _ _ _ (Hsub s)). apply write_adds.
Qed.

(** X15.  The feature-vs-target step needs a numeric column labelled with the
    target: when the dataset has none (the target is absent, textual or a
    date) the step raises [KeyError] and writes nothing. *)
Theorem feature_target_correlation_keyerror (config : Config) (s : state)
  (d : DataFrame) :
  df s = Some d ->
  (forall sr, In (target_column config, sr) d ->
              is_numeric_data (dtype_of sr) = false) ->
  feature_target_correlation config s
  = (Raised (KeyError (target_column config)), s).
Proof.
  intros Hd Hno. unfold feature_target_correlation. cbv zeta.
  rewrite (bind_returned _ _ _ _ _ (get_df_ready d s Hd)).
  now rewrite (CorrelationFacts.lookup_corr_none d _ Hno).
Qed.

Lemma feature_target_correlation_keyerror_witness :
  feature_target_correlation (Scenarios.config_with "city" false)
    (classified Scenarios.patients)
  = (Raised (KeyError "city"), classified Scenarios.patients).
Proof.
  apply (feature_target_correlation_keyerror
           (Scenarios.config_with "city" false)
           (classified Scenarios.patients) Scenarios.patients eq_refl).
  intros sr H. simpl in H.
  repeat (destruct H as [H|H];
          [first [discriminate H | injection H as <-; reflexivity]|]).
  contradiction.
Defined.

(** *** Chi-square tests *)

Lemma categorical_returns (world : World) (config : Config) (s : state)
  (d : DataFrame) (num cat : list string) (ts : Series)
  (c : list (list nat) -> float64 * float64 * nat * list (list float64)) :
  ready d num cat s ->
  (forall col, In col cat -> In col (columns d)) ->
  getitem d (target_column config) = Some ts ->
  (forall table, chi2_contingency world table = Returned (c table)) ->
  exists rows fs,
    categorical_statistical_tests world config s
    = (Returned tt, add_files (fs ++ [(chi2_path config, Chi2Csv rows)]) s) /\
    map fst fs = map (categorical_path config) cat /\
    map fst rows = cat /\
    Forall (fun row =>
              exists sr,
                getitem d (fst row) = Some sr /\
                snd row
                = snd (fst (fst (c (crosstab world (values sr) (values ts))))))
           rows.
Proof.
  intros (Hd & _ & Hc) Hin Hts Hchi.
  set (target := target_column config) in *.
  set (p := fun sr : Series =>
              snd (fst (fst (c (crosstab world (values sr) (values ts)))))).
  set (r := fun col : string => match getitem d col with
                                | Some sr => [(col, p sr)]
                                | None => []
                                end).
  set (w := fun col : string =>
              match getitem d col with
              | Some sr => [(categorical_path config col,
                             CategoricalPng col target (p sr))]
              | None => []
              end).
  exists (flat_map r cat), (flat_map w cat). split; [|split; [|split]].
  - unfold categorical_statistical_tests. cbv zeta. fold target.
    rewrite (bind_returned _ _ _ _ _ (get_cat_cols_ready cat s Hc)).
    match goal with
    | |- context [for_each cat [] ?b] =>
        assert (Hloop : for_each cat [] b (add_files [] s)
                        = (Returned ([] ++ flat_map r cat)%list,
                           add_files ([] ++ flat_map w cat) s))
    end.
    { apply for_each_adds. intros col acc fs Hcol.
      destruct (getitem_in_columns d col (Hin col Hcol)) as [sr Hsr].
      rewrite (bind_returned _ _ _ _ _ (get_df_ready d (add_files fs s) Hd)).
      rewrite (bind_returned _ _ _ _ _ (column_returns d col sr _ Hsr)).
      rewrite (bind_returned _ _ _ _ _ (column_returns d target ts _ Hts)).
      cbv zeta. unfold call at 1.
      rewrite (bind_returned _ _ _ (add_files fs s)
                 (c (crosstab world (values sr) (values ts))))
        by (now rewrite Hchi).
      rewrite (bind_returned _ _ _ _ _ (write_adds _ _ _)).
      unfold r, w. rewrite Hsr, add_files_app. reflexivity. }
    rewrite add_files_nil in Hloop.
    rewrite (bind_returned _ _ _ _ _ Hloop).
    rewrite write_adds, add_files_app. reflexivity.
  - unfold w. now apply (flat_map_per_column d cat).
  - unfold r.
    rewrite (flat_map_per_column d cat (fun col sr => (col, p sr))
               fst (fun c => c));
      [apply map_id|assumption|reflexivity].
  - apply Forall_forall. intros x Hx. apply in_flat_map in Hx.
    destruct Hx as [col [_ Hx]]. unfold r in Hx.
    destruct (getitem d col) as [sr|] eqn:E; [|contradiction].
    destruct Hx as [<-|[]]. exists sr. split; [exact E|reflexivity].
Qed.

(** *** Outlier counts *)

Lemma detect_outliers_bound (series : list (option Q)) :
  (Utils.detect_outliers series <= List.length series)%nat.
Proof.
  assert (Hp : (List.length (present series) <= List.length series)%nat).
  { induction series as [|[x|] series IH]; simpl; lia. }
  destruct (quantile series (1 # 4)) as [q1|] eqn:H1.
  - destruct (quantile series (3 # 4)) as [q3|] eqn:H3.
    + rewrite (OutlierFacts.detect_outliers_some series q1 q3 H1 H3).
      unfold OutlierSpec.count_outside.
      etransitivity; [apply filter_length_le|exact Hp].
    + apply quantile_none in H3.
      rewrite (OutlierFacts.detect_outliers_empty series H3). lia.
  - apply quantile_none in H1.
    rewrite (OutlierFacts.detect_outliers_empty series H1). lia.
Qed.

Lemma outlier_analysis_returns (config : Config) (s : state)
  (d : DataFrame) (num cat : list string) :
  ready d num cat s ->
  (forall col, In col num -> In col (columns d)) ->
  outlier_detection config = true ->
  exists rows,
    outlier_analysis config s
    = (Returned tt,
       add_files [(outlier_counts_path config, OutlierCountsCsv rows)] s) /\
    map fst rows = num /\
    Forall (fun row =>
              exists sr,
                getitem d (fst row) = Some sr /\
                snd row = Utils.detect_outliers (to_floats sr) /\
                (snd row <= List.length (values sr))%nat)
           rows.
Proof.
  intros (Hd & Hn & _) Hin Hflag.
  set (r := fun col : string =>
              match getitem d col with
              | Some sr => [(col, Utils.detect_outliers (to_floats sr))]
              | None => []
              end).
  exists (flat_map r num). split; [|split].
  - unfold outlier_analysis. rewrite Hflag. cbn [negb].
    rewrite (bind_returned _ _ _ _ _ (get_num_cols_ready num s Hn)).
    match goal with
    | |- context [for_each num [] ?b] =>
        assert (Hloop : for_each num [] b (add_files [] s)
                        = (Returned ([] ++ flat_map r num)%list,
                           add_files ([] ++ flat_map (fun _ => []) num) s))
    end.
    { apply for_each_adds. intros col acc fs Hcol.
      destruct (getitem_in_columns d col (Hin col Hcol)) as [sr Hsr].
      rewrite (bind_returned _ _ _ _ _ (get_df_ready d (add_files fs s) Hd)).
      rewrite (bind_returned _ _ _ _ _ (column_returns d col sr _ Hsr)).
      unfold r, ret. rewrite Hsr, app_nil_r. reflexivity. }
    assert (Hnil : flat_map (fun _ : string => @nil (string * artifact)) num = [])
      by (clear; induction num; simpl; auto).
    rewrite Hnil in Hloop. cbn [app] in Hloop.
    rewrite !add_files_nil in Hloop.
    rewrite (bind_returned _ _ _ _ _ Hloop). apply write_adds.
  - unfold r.
    rewrite (flat_map_per_column d num
               (fun col sr => (col, Utils.detect_outliers (to_floats sr)))
               fst (fun c => c));
      [apply map_id|assumption|reflexivity].
  - apply Forall_forall. intros x Hx. apply in_flat_map in Hx.
    destruct Hx as [col [_ Hx]]. unfold r in Hx.
    destruct (getitem d col) as [sr|] eqn:E; [|contradiction].
    destruct Hx as [<-|[]]. exists sr. split; [exact E|]. split; [reflexivity|].
    cbn [snd]. unfold to_floats.
    rewrite <- (length_map to_float (values sr)). apply detect_outliers_bound.
Qed.

End AnalysisFacts.

Module StepEffectFacts.

Import NumPy Pandas Pipeline Properties MoreProperties.
Import PipelineFacts RunFacts StepFacts EffectFacts PandasFacts AnalysisFacts.
Local Open Scope string_scope.
Local Open Scope pipeline_scope.

Lemma paths_add_files (fs : list (string * artifact)) (s : state) :
  paths (add_files fs s) = (paths s ++ map fst fs)%list.
Proof. unfold paths, add_files. simpl. apply map_app. Qed.

Lemma paths_add_log (l : list (level * message)) (s : state) :
  paths (add_log l s) = paths s.
Proof. reflexivity. Qed.

(** *** What each analysis step leaves behind *)

Lemma distribution_plots_effect (config : Config) (s : state)
  (d : DataFrame) (num cat : list string) :
  ready d num cat s ->
  (forall col, In col num -> In col (columns d)) ->
  exists s',
    distribution_plots config s = (Returned tt, s') /\
    ready d num cat s' /\ log s' = log s /\
    paths s'
    = (paths s ++ if distribution (plots config)
                  then map (distribution_path config) num else [])%list.
Proof.
  intros Hr Hin. destruct (distribution (plots config)) eqn:E.
  - destruct (distribution_plots_returns config s d num cat Hr Hin E)
      as [fs [H Hfs]].
    exists (add_files fs s). rewrite H, paths_add_files, Hfs.
    repeat split; apply Hr.
  - exists s. unfold distribution_plots. rewrite E, app_nil_r.
    repeat split; apply Hr.
Qed.

(** X12.  The histogram step returns on a classified dataset: with its flag set
    it writes one [_distribution.png] per numeric column, in column order,
    and nothing else; with the flag off it writes nothing.  It logs
    nothing and leaves dataset and classification as they are. *)
Theorem distribution_plots_files (config : Config) (s : state)
  (d : DataFrame) (num cat : list string) :
  ready d num cat s ->
  (forall col, In col num -> In col (columns d)) ->
  exists s',
    distribution_plots config s = (Returned tt, s') /\
    ready d num cat s' /\ log s' = log s /\
    paths s'
    = (paths s ++ if distribution (plots config)
                  then map (distribution_path config) num else [])%list.
Proof.
  intros Hr Hin. destruct (distribution (plots config)) eqn:E.
  - destruct (distribution_plots_returns config s d num cat Hr Hin E)
      as [fs [H Hfs]].
    exists (add_files fs s). split; [exact H|].
    split; [now apply ready_add_files|]. split; [reflexivity|].
    now rewrite paths_add_files, Hfs.
  - exists s. split; [unfold distribution_plots; now rewrite E|].
    split; [assumption|]. split; [reflexivity|]. now rewrite app_nil_r.
Qed.

Lemma distribution_plots_files_witness :
  exists s',
    distribution_plots (Scenarios.config_with "stage" true)
      (classified Scenarios.patients) = (Returned tt, s') /\
    paths s' = ["reports/id_distribution.png"; "reports/age_distribution.png";
                "reports/stage_distribution.png"].
Proof.
  destruct (distribution_plots_files (Scenarios.config_with "stage" true)
              (classified Scenarios.patients) Scenarios.patients
              ["id"; "age"; "stage"] ["city"])
    as [s' [H [_ [_ Hp]]]].
  - repeat split.
  - intros col H. simpl in H |- *. tauto.
  - exists s'. split; [exact H|exact Hp].
Defined.

Lemma target_analysis_effect (world : World) (config : Config) (s : state)
  (d : DataFrame) (num cat : list string) (ts : Series)
  (t : list Q -> list Q -> float64 * float64) :
  ready d num cat s ->
  (forall col, In col num -> In col (columns d)) ->
  getitem d (target_column config) = Some ts ->
  (forall a b, ttest_ind world a b = Returned (t a b)) ->
  exists s',
    target_analysis world config s = (Returned tt, s') /\
    ready d num cat s' /\
    paths s'
    = (paths s ++ if target_analysis_flag (plots config) && binary ts
                  then map (vs_target_path config)
                           (features (target_column config) num)
                       ++ [ttest_path config]
                  else [])%list.
Proof.
  intros Hr Hin Hts Ht. destruct (target_analysis_flag (plots config)) eqn:E.
  - cbn [andb]. unfold binary.
    destruct (unique (values ts)) as [|g1 [|g2 [|g3 l]]] eqn:Hu.
    all: try (exists (warned s);
              rewrite (target_analysis_skip world config s d ts E (proj1 Hr) Hts)
                by (rewrite Hu; simpl; lia);
              rewrite app_nil_r; repeat split; apply Hr).
    destruct (target_analysis_binary world config s d num cat ts g1 g2 t
                Hr Hin E Hts Hu Ht) as [rows [fs [H [Hfs _]]]].
    eexists. split; [exact H|]. split; [apply Hr|].
    now rewrite paths_add_files, map_app, Hfs.
  - exists s. unfold target_analysis. rewrite E, app_nil_r.
    repeat split; apply Hr.
Qed.




Lemma correlation_analysis_effect (config : Config) (s : state)
  (d : DataFrame) (num cat : list string) :
  ready d num cat s ->
  (forall col, In col num -> In col (columns d)) ->
  exists s',
    correlation_analysis config s = (Returned tt, s') /\
    ready d num cat s' /\ log s' = log s /\
    paths s'
    = (paths s ++ if correlation (plots config)
                  then [correlation_path config] else [])%list.
Proof.
  intros Hr Hin. destruct (correlation (plots config)) eqn:E.
  - destruct (correlation_analysis_returns config s d num cat Hr Hin E)
      as [c H].
    eexists. split; [exact H|]. split; [apply Hr|]. split; [reflexivity|].
    now rewrite paths_add_files.
  - exists s. unfold correlation_analysis. rewrite E, app_nil_r.
    repeat split; apply Hr.
Qed.

Lemma feature_target_correlation_effect (config : Config) (s : state)
  (d : DataFrame) (num cat : list string) (ts : Series) :
  ready d num cat s ->
  getitem d (target_column config) = Some ts ->
  is_numeric_data (dtype_of ts) = true ->
  exists s',
    feature_target_correlation config s = (Returned tt, s') /\
    ready d num cat s' /\
    paths s' = (paths s ++ [target_correlation_path config])%list.
Proof.
  intros Hr Hts Hnum.
  rewrite (CorrelationFacts.feature_target_correlation_writes
             config s d ts (proj1 Hr) Hts Hnum).
  eexists. split; [reflexivity|]. rewrite write_adds. cbn [snd].
  split; [apply Hr|]. now rewrite paths_add_files.
Qed.

Lemma categorical_effect (world : World) (config : Config) (s : state)
  (d : DataFrame) (num cat : list string) (ts : Series)
  (c : list (list nat) -> float64 * float64 * nat * list (list float64)) :
  ready d num cat s ->
  (forall col, In col cat -> In col (columns d)) ->
  getitem d (target_column config) = Some ts ->
  (forall table, chi2_contingency world table = Returned (c table)) ->
  exists s',
    categorical_statistical_tests world config s = (Returned tt, s') /\
    ready d num cat s' /\
    paths s'
    = (paths s ++ map (categorical_path config) cat ++ [chi2_path config])%list.
Proof.
  intros Hr Hin Hts Hc.
  destruct (categorical_returns world config s d num cat ts c Hr Hin Hts Hc)
    as [rows [fs [H [Hfs _]]]].
  eexists. split; [exact H|]. split; [apply Hr|].
  now rewrite paths_add_files, map_app, Hfs.
Qed.

(** X16.  With a chi-square test that returns and the target among the columns,
    the chi-square step returns after writing one [_categorical.png] per
    categorical column and then [chi2_results.csv], whose rows are the
    categorical columns in column order, each with the p-value the test
    gave for its contingency table against the target. *)
Theorem chi2_results_table (world : World) (config : Config) (s : state)
  (d : DataFrame) (num cat : list string) (ts : Series)
  (c : list (list nat) -> float64 * float64 * nat * list (list float64)) :
  ready d num cat s ->
  (forall col, In col cat -> In col (columns d)) ->
  getitem d (target_column config) = Some ts ->
  (forall table, chi2_contingency world table = Returned (c table)) ->
  exists rows s',
    categorical_statistical_tests world config s = (Returned tt, s') /\
    paths s'
    = (paths s ++ map (categorical_path config) cat ++ [chi2_path config])%list /\
    last (files s') (chi2_path config, Chi2Csv [])
    = (chi2_path config, Chi2Csv rows) /\
    map fst rows = cat /\
    Forall (fun row =>
              exists sr,
                getitem d (fst row) = Some sr /\
                snd row
                = snd (fst (fst (c (crosstab world (values sr) (values ts))))))
           rows.
Proof.
  intros Hr Hin Hts Hc.
  destruct (categorical_returns world config s d num cat ts c Hr Hin Hts Hc)
    as [rows [fs [H [Hfs [Hrows Hall]]]]].
  exists rows. eexists. split; [exact H|].
  split; [now rewrite paths_add_files, map_app, Hfs|].
  split; [|split; assumption].
  unfold add_files. cbn [files]. rewrite app_assoc. apply last_last.
Qed.

Lemma chi2_results_table_witness :
  exists (rows : list (string * float64)) s',
    categorical_statistical_tests (Scenarios.quiet_world Scenarios.patients)
      (Scenarios.config_with "stage" true) (classified Scenarios.patients)
    = (Returned tt, s') /\
    paths s' = ["reports/city_categorical.png"; "reports/chi2_results.csv"] /\
    map fst rows = ["city"].
Proof.
  destruct (chi2_results_table (Scenarios.quiet_world Scenarios.patients)
              (Scenarios.config_with "stage" true)
              (classified Scenarios.patients) Scenarios.patients
              ["id"; "age"; "stage"] ["city"]
              (Scenarios.series Int64
                 [Scenarios.num 0; Scenarios.num 1; Scenarios.num 2;
                  Scenarios.num 1])
              (fun _ => (NaN, NaN, 0%nat, [])))
    as [rows [s' [H [Hp [_ [Hn _]]]]]].
  - repeat split.
  - intros col H. simpl in H |- *. tauto.
  - reflexivity.
  - reflexivity.
  - exists rows, s'. split; [exact H|]. split; [exact Hp|exact Hn].
Defined.

Lemma outlier_analysis_effect (config : Config) (s : state)
  (d : DataFrame) (num cat : list string) :
  ready d num cat s ->
  (forall col, In col num -> In col (columns d)) ->
  exists s',
    outlier_analysis config s = (Returned tt, s') /\
    ready d num cat s' /\
    paths s'
    = (paths s ++ if outlier_detection config
                  then [outlier_counts_path config] else [])%list.
Proof.
  intros Hr Hin. destruct (outlier_detection config) eqn:E.
  - destruct (outlier_analysis_returns config s d num cat Hr Hin E)
      as [rows [H _]].
    eexists. split; [exact H|]. split; [apply Hr|].
    now rewrite paths_add_files.
  - exists s. unfold outlier_analysis. rewrite E, app_nil_r.
    repeat split; apply Hr.
Qed.



Lemma generate_sweetviz_effect (world : World) (config : Config) (s : state)
  (d : DataFrame) (num cat : list string) :
  ready d num cat s ->
  exists s',
    generate_sweetviz world config s = (Returned tt, s') /\
    ready d num cat s' /\
    paths s' = (paths s ++ sweetviz_files world config d)%list.
Proof.
  intros Hr. unfold sweetviz_files.
  destruct (sv_analyze world d) as [report|e] eqn:Ea.
  - destruct (show_html world report (sweetviz_path config)) as [[]|e] eqn:Es.
    + rewrite (generate_sweetviz_succeeds world config s d report
                 (proj1 Hr) Ea Es).
      eexists. split; [reflexivity|]. rewrite write_adds. cbn [snd].
      split; [apply Hr|]. now rewrite paths_add_files.
    + rewrite (generate_sweetviz_show_fails world config s d report e
                 (proj1 Hr) Ea Es).
      eexists. split; [reflexivity|]. rewrite logger_adds. cbn [snd].
      split; [apply Hr|]. now rewrite paths_add_log, app_nil_r.
  - rewrite (generate_sweetviz_analyze_fails world config s d e (proj1 Hr) Ea).
    eexists. split; [reflexivity|]. rewrite logger_adds. cbn [snd].
    split; [apply Hr|]. now rewrite paths_add_log, app_nil_r.
Qed.

End StepEffectFacts.

Module WholeRunFacts.

Import NumPy Pandas Pipeline Properties MoreProperties.
Import PipelineFacts RunFacts StepFacts EffectFacts PandasFacts.
Import ClassifyFacts ClassificationFacts AnalysisFacts StepEffectFacts.
Local Open Scope string_scope.
Local Open Scope pipeline_scope.

(** *** A run whose collaborators return *)

Lemma preparation_ready (world : World) (config : Config) (d0 : DataFrame) :
  read_csv world (data_path config) = Returned d0 ->
  id_columns config <> Null ->
  exists s5,
    sequence (firstn 5 (steps world config)) init = (Returned tt, s5) /\
    ready (drop_columns (ids_of config) d0)
          (fst (Utils.classify_columns (drop_columns (ids_of config) d0)))
          (snd (Utils.classify_columns (drop_columns (ids_of config) d0)))
          s5 /\
    paths s5 = [missing_values_path config].
Proof.
  intros H Hn. eexists. split.
  { cbn [firstn steps sequence].
    unfold load_data, drop_id_columns, missing_value_analysis,
      duplicate_analysis, classify_columns, Utils.classify_columns.
    rewrite (PreparationFacts.get_id_columns_labels config Hn).
    unfold bind, call, logger, set_df, get_df, set_cols, write, ret.
    rewrite H. cbn [df]. reflexivity. }
  split; [repeat split|reflexivity].
Qed.

(** X21.  A run on a readable file, with [id_columns] not null, whose
    target, once the identifier columns are dropped, is a column of numeric
    data, with tests that return (and, for the heat map, at least one
    number column to draw): the run returns, its last log record is the
    completion message, the dataset it holds is the file's without the
    identifier columns, and the files it has written are, in order, those
    of [report_files]. *)
Theorem run_report (world : World) (config : Config) (d0 : DataFrame)
  (ts : Series) (t : list Q -> list Q -> float64 * float64)
  (c : list (list nat) -> float64 * float64 * nat * list (list float64)) :
  read_csv world (data_path config) = Returned d0 ->
  id_columns config <> Null ->
  getitem (drop_columns (ids_of config) d0) (target_column config) = Some ts ->
  is_numeric_data (dtype_of ts) = true ->
  (correlation (plots config) = true ->
   fst (Utils.classify_columns (drop_columns (ids_of config) d0)) <> []) ->
  (forall a b, ttest_ind world a b = Returned (t a b)) ->
  (forall table, chi2_contingency world table = Returned (c table)) ->
  exists s,
    run world config init = (Returned tt, s) /\
    df s = Some (drop_columns (ids_of config) d0) /\
    last (log s) (INFO, LoadingDataset) = (INFO, PipelineCompleted) /\
    paths s
    = report_files world config (drop_columns (ids_of config) d0)
        (fst (Utils.classify_columns (drop_columns (ids_of config) d0)))
        (snd (Utils.classify_columns (drop_columns (ids_of config) d0)))
        ts.
Proof.
  intros Hread Hnull Hts Hnum _ Ht Hc.
  set (d := drop_columns (ids_of config) d0) in *.
  destruct (preparation_ready world config d0 Hread Hnull)
    as [s5 [H5 [Hr5 Hp5]]].
  fold d in Hr5.
  set (num := fst (Utils.classify_columns d)) in *.
  set (cat := snd (Utils.classify_columns d)) in *.
  assert (Hin_num : forall col, In col num -> In col (columns d)).
  { intros col. apply in_columns_select_in. }
  assert (Hin_cat : forall col, In col cat -> In col (columns d)).
  { intros col. apply in_columns_select_in. }
  destruct (distribution_plots_effect config s5 d num cat Hr5 Hin_num)
    as [s6 [H6 [Hr6 [_ Hp6]]]].
  destruct (target_analysis_effect world config s6 d num cat ts t
              Hr6 Hin_num Hts Ht) as [s7 [H7 [Hr7 Hp7]]].
  destruct (correlation_analysis_effect config s7 d num cat Hr7 Hin_num)
    as [s8 [H8 [Hr8 [_ Hp8]]]].
  destruct (feature_target_correlation_effect config s8 d num cat ts
              Hr8 Hts Hnum) as [s9 [H9 [Hr9 Hp9]]].
  destruct (categorical_effect world config s9 d num cat ts c
              Hr9 Hin_cat Hts Hc) as [s10 [H10 [Hr10 Hp10]]].
  destruct (outlier_analysis_effect config s10 d num cat Hr10 Hin_num)
    as [s11 [H11 [Hr11 Hp11]]].
  destruct (generate_sweetviz_effect world config s11 d num cat Hr11)
    as [s12 [H12 [Hr12 Hp12]]].
  exists (add_log [(INFO, PipelineCompleted)] s12).
  split; [|split; [|split]].
  - rewrite (run_continues world config 5 init s5 H5).
    cbn [skipn steps sequence].
    rewrite (bind_returned _ _ _ _ _ H6), (bind_returned _ _ _ _ _ H7),
      (bind_returned _ _ _ _ _ H8), (bind_returned _ _ _ _ _ H9),
      (bind_returned _ _ _ _ _ H10), (bind_returned _ _ _ _ _ H11),
      (bind_returned _ _ _ _ _ H12).
    reflexivity.
  - apply Hr12.
  - cbn [add_log log]. apply last_last.
  - rewrite paths_add_log, Hp12, Hp11, Hp10, Hp9, Hp8, Hp7, Hp6, Hp5.
    unfold report_files. now rewrite <- !app_assoc.
Qed.

Lemma run_report_witness :
  exists s,
    run (Scenarios.quiet_world Scenarios.patients)
        (Scenarios.config_with "smoker" true) init = (Returned tt, s) /\
    paths s
    = ["reports/missing_values.csv";
       "reports/age_distribution.png"; "reports/stage_distribution.png";
       "reports/age_vs_target.png"; "reports/stage_vs_target.png";
       "reports/ttest_effectsize_results.csv";
       "reports/correlation.png"; "reports/target_correlation.png";
       "reports/city_categorical.png"; "reports/chi2_results.csv";
       "reports/outlier_counts.csv"; "reports/sweetviz_report.html"].
Proof.
  destruct (run_report (Scenarios.quiet_world Scenarios.patients)
              (Scenarios.config_with "smoker" true) Scenarios.patients
              (Scenarios.series Bool
                 [Scenarios.boolean true; Scenarios.boolean false;
                  Scenarios.boolean true; Scenarios.boolean false])
              (fun _ _ => (NaN, NaN)) (fun _ => (NaN, NaN, 0%nat, [])))
    as [s [H [_ [_ Hp]]]].
  - reflexivity.
  - discriminate.
  - reflexivity.
  - reflexivity.
  - intros _. discriminate.
  - reflexivity.
  - reflexivity.
  - exists s. split; [exact H|exact Hp].
Defined.


(** *** A run whose target is not a column *)

(** X22.  A target that is not a column of the dataset once the identifier
    columns are dropped (one listed among them, for instance) is fatal: the
    run raises [KeyError] for it, at the t-test step when that step's flag
    is set and at the feature-vs-target step otherwise, after the files
    written up to there.  (With a null [id_columns] the run has stopped
    before, at the drop step.) *)
Theorem run_missing_target (world : World) (config : Config) (d0 : DataFrame) :
  read_csv world (data_path config) = Returned d0 ->
  id_columns config <> Null ->
  ~ In (target_column config) (columns (drop_columns (ids_of config) d0)) ->
  exists s,
    run world config init = (Raised (KeyError (target_column config)), s) /\
    ~ In (INFO, PipelineCompleted) (log s) /\
    paths s
    = ([missing_values_path config]
       ++ (if distribution (plots config)
           then map (distribution_path config)
                    (fst (Utils.classify_columns
                            (drop_columns (ids_of config) d0)))
           else [])
       ++ (if target_analysis_flag (plots config) then []
           else if correlation (plots config)
                then [correlation_path config] else []))%list.
Proof.
  intros Hread Hnull Hno.
  set (d := drop_columns (ids_of config) d0) in *.
  destruct (preparation_ready world config d0 Hread Hnull)
    as [s5 [H5 [Hr5 Hp5]]].
  fold d in Hr5.
  set (num := fst (Utils.classify_columns d)) in *.
  set (cat := snd (Utils.classify_columns d)) in *.
  assert (Hlog5 : ~ In (INFO, PipelineCompleted) (log s5)).
  { revert H5. cbn [firstn steps sequence].
    unfold load_data, drop_id_columns, missing_value_analysis,
      duplicate_analysis, classify_columns, Utils.classify_columns.
    rewrite (PreparationFacts.get_id_columns_labels config Hnull).
    unfold bind, call, logger, set_df, get_df, set_cols, write, ret.
    rewrite Hread. cbn [df]. intros H5. injection H5 as <-. simpl.
    intuition discriminate. }
  assert (Hin_num : forall col, In col num -> In col (columns d)).
  { intros col. apply in_columns_select_in. }
  destruct (distribution_plots_effect config s5 d num cat Hr5 Hin_num)
    as [s6 [H6 [Hr6 [Hlog6 Hp6]]]].
  assert (Hget : getitem d (target_column config) = None)
    by now apply getitem_none.
  destruct (target_analysis_flag (plots config)) eqn:E.
  - exists s6. split; [|split].
    + apply (run_aborts world config 7).
      change (firstn 7 (steps world config))
        with (firstn 5 (steps world config)
              ++ [distribution_plots config; target_analysis world config])%list.
      rewrite (sequence_returned_then _ _ _ _ H5). cbn [sequence].
      rewrite (bind_returned _ _ _ _ _ H6).
      apply bind_raised. unfold target_analysis. rewrite E. cbn [negb]. cbv zeta.
      rewrite (bind_returned _ _ _ _ _ (get_df_ready d s6 (proj1 Hr6))).
      now rewrite (bind_raised _ _ _ _ _ (column_raises d _ s6 Hget)).
    + now rewrite Hlog6.
    + now rewrite Hp6, Hp5, app_nil_r.
  - destruct (correlation_analysis_effect config s6 d num cat Hr6 Hin_num)
      as [s8 [H8 [Hr8 [Hlog8 Hp8]]]].
    exists s8. split; [|split].
    + apply (run_aborts world config 9).
      change (firstn 9 (steps world config))
        with (firstn 5 (steps world config)
              ++ [distribution_plots config; target_analysis world config;
                  correlation_analysis config;
                  feature_target_correlation config])%list.
      rewrite (sequence_returned_then _ _ _ _ H5). cbn [sequence].
      rewrite (bind_returned _ _ _ _ _ H6).
      assert (H7 : target_analysis world config s6 = (Returned tt, s6))
        by (unfold target_analysis; now rewrite E).
      rewrite (bind_returned _ _ _ _ _ H7), (bind_returned _ _ _ _ _ H8).
      apply bind_raised. unfold feature_target_correlation. cbv zeta.
      rewrite (bind_returned _ _ _ _ _ (get_df_ready d s8 (proj1 Hr8))).
      rewrite CorrelationFacts.lookup_corr_none; [reflexivity|].
      intros sr Hsr. exfalso. apply Hno. unfold columns.
      apply in_map_iff. now exists (target_column config, sr).
    + now rewrite Hlog8, Hlog6.
    + now rewrite Hp8, Hp6, Hp5, <- !app_assoc.
Qed.


Lemma run_missing_target_witness :
  exists s,
    run (Scenarios.quiet_world Scenarios.patients)
        (Scenarios.config_with "id" true) init
    = (Raised (KeyError "id"), s) /\
    paths s = ["reports/missing_values.csv"; "reports/age_distribution.png";
               "reports/stage_distribution.png"].
Proof.
  destruct (run_missing_target (Scenarios.quiet_world Scenarios.patients)
              (Scenarios.config_with "id" true) Scenarios.patients eq_refl)
    as [s [H [_ Hp]]].
  - discriminate.
  - simpl. intuition discriminate.
  - exists s. split; [exact H|exact Hp].
Defined.

(** X17.  The chi-square step looks the target up once per categorical column:
    when the target is not a column, the step raises [KeyError] for it at
    the first categorical column, before any file; with no categorical
    column it returns, and [chi2_results.csv] has no row. *)
Theorem categorical_missing_target (world : World) (config : Config)
  (s : state) (d : DataFrame) (cat : list string) :
  df s = Some d -> cat_cols s = Some cat ->
  (forall col, In col cat -> In col (columns d)) ->
  ~ In (target_column config) (columns d) ->
  categorical_statistical_tests world config s
  = match cat with
    | [] => (Returned tt, add_files [(chi2_path config, Chi2Csv [])] s)
    | _ :: _ => (Raised (KeyError (target_column config)), s)
    end.
Proof.
  intros Hd Hc Hin Hno. apply getitem_none in Hno.
  unfold categorical_statistical_tests. cbv zeta.
  rewrite (bind_returned _ _ _ _ _ (get_cat_cols_ready cat s Hc)).
  destruct cat as [|col cat]; [reflexivity|].
  destruct (getitem_in_columns d col (Hin col (or_introl eq_refl))) as [sr Hsr].
  apply bind_raised. cbn [for_each]. apply bind_raised.
  rewrite (bind_returned _ _ _ _ _ (get_df_ready d s Hd)).
  rewrite (bind_returned _ _ _ _ _ (column_returns d col sr s Hsr)).
  now rewrite (bind_raised _ _ _ _ _ (column_raises d _ s Hno)).
Qed.

Lemma categorical_missing_target_witness :
  categorical_statistical_tests (Scenarios.quiet_world Scenarios.patients)
    (Scenarios.config_with "outcome" true) (classified Scenarios.patients)
  = (Raised (KeyError "outcome"), classified Scenarios.patients).
Proof.
  rewrite (categorical_missing_target
             (Scenarios.quiet_world Scenarios.patients)
             (Scenarios.config_with "outcome" true)
             (classified Scenarios.patients) Scenarios.patients ["city"]
             eq_refl eq_refl).
  - reflexivity.
  - intros col H. simpl in H |- *. tauto.
  - simpl. intuition discriminate.
Defined.

(** *** What no run does *)

Lemma only_under_refl (config : Config) (s : state) : only_under config s s.
Proof. intros H. exact H. Qed.

Lemma only_under_trans (config : Config) (s1 s2 s3 : state) :
  only_under config s1 s2 -> only_under config s2 s3 -> only_under config s1 s3.
Proof. unfold only_under. auto. Qed.

Lemma write_under (config : Config) (name : string) (a : artifact) :
  steady (only_under config) (write (report_path config ++ name) a).
Proof.
  intros s H. unfold write, paths. cbn [snd files]. rewrite map_app.
  apply Forall_app. split; [exact H|].
  constructor; [now exists name|constructor].
Qed.

Ltac under_leaf :=
  idtac;
  match goal with
  | |- steady (only_under _) (logger _ _) => intros ? Hin; exact Hin
  | |- steady (only_under _) (set_df _) => intros ? Hin; exact Hin
  | |- steady (only_under _) (set_cols _ _) => intros ? Hin; exact Hin
  | |- steady (only_under _) (write _ _) => apply write_under
  end.

Ltac under_step :=
  match goal with
  | |- steady (only_under ?c) _ =>
      pose proof (only_under_refl c); pose proof (only_under_trans c)
  end;
  steady_with under_leaf.

(** X23.  Whatever the collaborators do and however the run ends, every file a
    run has written has a path that starts with the configured report
    directory. *)
Theorem files_under_report_path (world : World) (config : Config) :
  Forall (under config) (paths (snd (run world config init))).
Proof.
  assert (H : steady (only_under config) (run world config)).
  { unfold run, load_data, drop_id_columns, missing_value_analysis,
      duplicate_analysis, classify_columns, distribution_plots,
      target_analysis, correlation_analysis, feature_target_correlation,
      categorical_statistical_tests, outlier_analysis, generate_sweetviz.
    under_step. }
  apply (H init). constructor.
Qed.

Lemma not_completed_refl (s : state) : not_completed s s.
Proof. intros H. exact H. Qed.

Lemma not_completed_trans (s1 s2 s3 : state) :
  not_completed s1 s2 -> not_completed s2 s3 -> not_completed s1 s3.
Proof. unfold not_completed. auto. Qed.

Lemma logger_other (lvl : level) (msg : message) :
  (lvl, msg) <> (INFO, PipelineCompleted) ->
  steady not_completed (logger lvl msg).
Proof.
  intros Hne s Hin. unfold logger in Hin. cbn [snd log] in Hin.
  apply in_app_or in Hin. destruct Hin as [Hin|[Hin|[]]]; [exact Hin|].
  now contradiction Hne.
Qed.

Ltac not_completed_leaf :=
  idtac;
  match goal with
  | |- steady not_completed (logger _ _) => apply logger_other; discriminate
  | |- steady not_completed (set_df _) => intros ? Hin; exact Hin
  | |- steady not_completed (set_cols _ _) => intros ? Hin; exact Hin
  | |- steady not_completed (write _ _) => intros ? Hin; exact Hin
  end.

Ltac not_completed_step :=
  pose proof not_completed_refl; pose proof not_completed_trans;
  steady_with not_completed_leaf.

Lemma steps_not_completed (world : World) (config : Config) :
  Forall (steady not_completed) (firstn 12 (steps world config)).
Proof.
  cbn [firstn steps].
  repeat apply Forall_cons; try apply Forall_nil.
  - unfold load_data. not_completed_step.
  - unfold drop_id_columns. not_completed_step.
  - unfold missing_value_analysis. not_completed_step.
  - unfold duplicate_analysis. not_completed_step.
  - unfold classify_columns. not_completed_step.
  - unfold distribution_plots. not_completed_step.
  - unfold target_analysis. not_completed_step.
  - unfold correlation_analysis. not_completed_step.
  - unfold feature_target_correlation. not_completed_step.
  - unfold categorical_statistical_tests. not_completed_step.
  - unfold outlier_analysis. not_completed_step.
  - unfold generate_sweetviz. not_completed_step.
Qed.

(** X24.  The completion message is in the log of a run exactly when the run
    has returned: a run that raises never logs it, and no step before the
    last one does. *)
Theorem completion_logged_iff_returned (world : World) (config : Config) :
  In (INFO, PipelineCompleted) (log (snd (run world config init)))
  <-> fst (run world config init) = Returned tt.
Proof.
  rewrite run_sequence.
  change (steps world config)
    with (firstn 12 (steps world config)
          ++ [logger INFO PipelineCompleted])%list.
  rewrite sequence_app.
  pose proof (steady_sequence not_completed _
                not_completed_refl not_completed_trans
                (steps_not_completed world config) init) as Hs.
  unfold bind.
  destruct (sequence (firstn 12 (steps world config)) init) as [[[]|e] s12].
  - rewrite sequence_single. cbn [fst snd logger log].
    split; [reflexivity|]. intros _. apply in_or_app. right. now left.
  - cbn [fst snd] in *. split; [|discriminate].
    intros Hin. destruct (Hs Hin).
Qed.


(** *** Files of the optional analyses *)

Lemma length_append (a b : string) :
  String.length (a ++ b) = (String.length a + String.length b)%nat.
Proof. induction a as [|c a IH]; simpl; [reflexivity|]. now rewrite IH. Qed.

Ltac too_long H :=
  apply (f_equal String.length) in H; simpl in H;
  rewrite ?length_append in H; simpl in H; lia.

(** Two file names of the pipeline differ: by a character, by their last
    character, or by their lengths. *)
Ltac distinct_names :=
  unfold ttest_path, chi2_path, outlier_counts_path, correlation_path;
  intros Hpath; apply append_inj_l in Hpath;
  first
    [ discriminate Hpath
    | apply (f_equal last_ascii) in Hpath;
      rewrite last_ascii_append in Hpath by discriminate;
      discriminate Hpath
    | too_long Hpath
    | match type of Hpath with
      | (?col ++ _) = _ =>
          destruct col as [|? [|? ?]]; simpl in Hpath;
          first [discriminate Hpath | too_long Hpath]
      end ].

Ltac no_file_leaf :=
  idtac;
  match goal with
  | |- steady (no_new_file _) (logger _ _) => intros ? ?; assumption
  | |- steady (no_new_file _) (set_df _) => intros ? ?; assumption
  | |- steady (no_new_file _) (set_cols _ _) => intros ? ?; assumption
  | |- steady (no_new_file _) (write _ _) =>
      apply write_other_file; distinct_names
  end.

Ltac no_file_step :=
  match goal with
  | |- steady (no_new_file ?p) _ =>
      pose proof (no_new_file_refl p); pose proof (no_new_file_trans p)
  end;
  steady_with no_file_leaf.

Ltac unfold_steps :=
  unfold run, load_data, drop_id_columns, missing_value_analysis,
    duplicate_analysis, classify_columns, distribution_plots,
    target_analysis, correlation_analysis, feature_target_correlation,
    categorical_statistical_tests, outlier_analysis, generate_sweetviz.

(** X25.  An analysis that the configuration switches off leaves no file in any
    run: no [outlier_counts.csv] without outlier detection, no
    [correlation.png] without the correlation flag, no
    [ttest_effectsize_results.csv] without the target-analysis flag. *)
Theorem disabled_outputs_absent (world : World) (config : Config) :
  (outlier_detection config = false ->
   ~ In (outlier_counts_path config) (paths (snd (run world config init)))) /\
  (correlation (plots config) = false ->
   ~ In (correlation_path config) (paths (snd (run world config init)))) /\
  (target_analysis_flag (plots config) = false ->
   ~ In (ttest_path config) (paths (snd (run world config init)))).
Proof.
  split; [|split]; intros Hflag Hin.
  - assert (H : steady (no_new_file (outlier_counts_path config))
                       (run world config)).
    { unfold_steps. rewrite Hflag. cbn [negb]. no_file_step. }
    exact (H init Hin).
  - assert (H : steady (no_new_file (correlation_path config))
                       (run world config)).
    { unfold_steps. rewrite Hflag. cbn [negb]. no_file_step. }
    exact (H init Hin).
  - assert (H : steady (no_new_file (ttest_path config))
                       (run world config)).
    { unfold_steps. rewrite Hflag. cbn [negb]. no_file_step. }
    exact (H init Hin).
Qed.

Lemma disabled_outputs_absent_witness :
  ~ In "reports/outlier_counts.csv"
       (paths (snd (run (Scenarios.quiet_world Scenarios.patients)
                        (Scenarios.config_with "stage" false) init))) /\
  ~ In "reports/correlation.png"
       (paths (snd (run (Scenarios.quiet_world Scenarios.patients)
                        (Scenarios.config_with "stage" false) init))) /\
  ~ In "reports/ttest_effectsize_results.csv"
       (paths (snd (run (Scenarios.quiet_world Scenarios.patients)
                        (Scenarios.config_with "stage" false) init))).
Proof.
  destruct (disabled_outputs_absent (Scenarios.quiet_world Scenarios.patients)
              (Scenarios.config_with "stage" false)) as [H1 [H2 H3]].
  split; [exact (H1 eq_refl)|]. split; [exact (H2 eq_refl)|exact (H3 eq_refl)].
Defined.

(** *** The result tables are written last *)

Lemma raised_before_write {A : Type} (m : M A) (p : string)
  (a : A -> artifact) (s : state) (e : exn) :
  fst (bind m (fun x => write p (a x)) s) = Raised e ->
  bind m (fun x => write p (a x)) s = (Raised e, snd (m s)).
Proof.
  unfold bind. destruct (m s) as [[x|e'] s']; cbn [fst snd].
  - discriminate.
  - now intros ->.
Qed.

Lemma get_df_same (s : state) : snd (get_df s) = s.
Proof. unfold get_df. now destruct (df s). Qed.

Lemma get_num_cols_same (s : state) : snd (get_num_cols s) = s.
Proof. unfold get_num_cols. now destruct (num_cols s). Qed.

Lemma get_cat_cols_same (s : state) : snd (get_cat_cols s) = s.
Proof. unfold get_cat_cols. now destruct (cat_cols s). Qed.

Lemma column_same (d : DataFrame) (col : string) (s : state) :
  snd (column d col s) = s.
Proof. unfold column. now destruct (getitem d col). Qed.

(** Runs a reader that leaves the state as it is: either it returns and
    the computation goes on, or it raises and nothing has been written. *)
Ltac read_with same :=
  match goal with
  | |- fst (bind ?m _ ?s) = _ -> _ =>
      let E := fresh "E" in
      let Hs := fresh "Hs" in
      let s' := fresh "s" in
      destruct (m s) as [[?|?] s'] eqn:E;
      pose proof (f_equal snd E) as Hs; rewrite same in Hs;
      cbn [snd] in Hs; subst s';
      [ rewrite (bind_returned _ _ _ _ _ E)
      | rewrite (bind_raised _ _ _ _ _ E); intros _; apply no_new_file_refl ]
  end.

(** X20.  Each of the two result tables is written after all its tests:
    when the t-test step raises (a test fails, a column is missing), it has
    not written [ttest_effectsize_results.csv], and when the chi-square
    step raises it has not written [chi2_results.csv]. *)
Theorem results_written_last (world : World) (config : Config) (s : state)
  (e : exn) :
  (fst (target_analysis world config s) = Raised e ->
   no_new_file (ttest_path config) s
               (snd (target_analysis world config s))) /\
  (fst (categorical_statistical_tests world config s) = Raised e ->
   no_new_file (chi2_path config) s
               (snd (categorical_statistical_tests world config s))).
Proof.
  split.
  - unfold target_analysis.
    destruct (negb (target_analysis_flag (plots config)));
      [discriminate|]. cbv zeta.
    read_with get_df_same. read_with column_same.
    match goal with
    | |- context [unique ?v] =>
        destruct (unique v) as [|g1 [|g2 [|g3 l]]]; try discriminate
    end.
    read_with get_num_cols_same.
    intros H. rewrite (raised_before_write _ _ _ _ _ H). cbn [snd].
    match goal with
    | |- no_new_file ?p s (snd (?m s)) =>
        assert (Hs : steady (no_new_file p) m); [no_file_step|exact (Hs s)]
    end.
  - unfold categorical_statistical_tests. cbv zeta.
    read_with get_cat_cols_same.
    intros H. rewrite (raised_before_write _ _ _ _ _ H). cbn [snd].
    match goal with
    | |- no_new_file ?p s (snd (?m s)) =>
        assert (Hs : steady (no_new_file p) m); [no_file_step|exact (Hs s)]
    end.
Qed.

Lemma results_written_last_witness :
  fst (target_analysis failing_ttest_world
         (Scenarios.config_with "smoker" true) (classified Scenarios.patients))
  = Raised (LibraryError "ttest_ind") /\
  paths (snd (target_analysis failing_ttest_world
                (Scenarios.config_with "smoker" true)
                (classified Scenarios.patients)))
  = ["reports/id_vs_target.png"] /\
  ~ In "reports/ttest_effectsize_results.csv"
       (paths (snd (target_analysis failing_ttest_world
                      (Scenarios.config_with "smoker" true)
                      (classified Scenarios.patients)))).
Proof.
  assert (H : fst (target_analysis failing_ttest_world
                     (Scenarios.config_with "smoker" true)
                     (classified Scenarios.patients))
              = Raised (LibraryError "ttest_ind")) by reflexivity.
  split; [exact H|]. split; [reflexivity|].
  exact (proj1 (results_written_last failing_ttest_world
                  (Scenarios.config_with "smoker" true)
                  (classified Scenarios.patients)
                  (LibraryError "ttest_ind")) H).
Defined.

End WholeRunFacts.


Module HeatmapFacts.

Import NumPy Pandas Pipeline Properties MoreProperties.
Import PipelineFacts RunFacts EffectFacts PandasFacts AnalysisFacts.
Local Open Scope string_scope.
Local Open Scope pipeline_scope.

(** *** The correlation heat map *)

Lemma subframe_value (d : DataFrame) (cols : list string) (s : state) :
  (forall col, In col cols -> In col (columns d)) ->
  subframe d cols s
  = (Returned (flat_map (fun col => match getitem d col with
                                    | Some sr => [(col, sr)]
                                    | None => []
                                    end) cols), s).
Proof.
  induction cols as [|c cols IH]; intros H; [reflexivity|].
  destruct (getitem_in_columns d c (H c (or_introl eq_refl))) as [sr Hsr].
  cbn [subframe flat_map].
  rewrite (bind_returned _ _ _ _ _ (column_returns d c sr s Hsr)).
  rewrite (bind_returned _ _ _ _ _ (IH (fun col Hc => H col (or_intror Hc)))).
  now rewrite Hsr.
Qed.

Lemma select_all (include : dtype -> bool) (d : DataFrame) :
  Forall (fun c => include (dtype_of (snd c)) = true) d ->
  select_dtypes include d = d.
Proof.
  unfold select_dtypes. induction 1 as [|c d Hc _ IH]; [reflexivity|].
  cbn [filter]. now rewrite Hc, IH.
Qed.

Lemma number_is_numeric_data (t : dtype) :
  is_number t = true -> is_numeric_data t = true.
Proof. now destruct t. Qed.

(** X19.  With its flag set, on a dataset whose classified numeric columns are
    columns of numbers, the correlation step writes one file,
    [correlation.png], with a square matrix: one row per numeric column, in
    column order, and in every row one entry per numeric column, in the
    same order.  The entry of row [y] and column [x] is the Pearson
    correlation of the two dataset columns. *)
Theorem correlation_heatmap_square (config : Config) (s : state)
  (d : DataFrame) (num cat : list string) :
  ready d num cat s ->
  (forall col, In col num ->
               exists sr, getitem d col = Some sr /\ is_number (dtype_of sr) = true) ->
  correlation (plots config) = true ->
  exists matrix,
    correlation_analysis config s
    = (Returned tt,
       add_files [(correlation_path config, CorrelationPng matrix)] s) /\
    map fst matrix = num /\
    Forall (fun row =>
              map fst (snd row) = num /\
              forall x sx sy,
                getitem d (fst row) = Some sy -> getitem d x = Some sx ->
                In x num ->
                In (x, pearson (to_floats sx) (to_floats sy)) (snd row))
           matrix.
Proof.
  intros (Hd & Hn & _) Hnum Hflag.
  assert (Hin : forall col, In col num -> In col (columns d)).
  { intros col Hc. destruct (Hnum col Hc) as [sr [Hsr _]].
    destruct (in_dec string_dec col (columns d)) as [Hy|Hno]; [assumption|].
    apply getitem_none in Hno. congruence. }
  set (sub := flat_map (fun col => match getitem d col with
                                   | Some sr => [(col, sr)]
                                   | None => []
                                   end) num).
  assert (Hsub : map fst sub = num).
  { unfold sub.
    rewrite (flat_map_per_column d num (fun col sr => (col, sr))
               fst (fun c => c));
      [apply map_id|assumption|reflexivity]. }
  assert (Hall : Forall (fun c => is_numeric_data (dtype_of (snd c)) = true) sub).
  { apply Forall_forall. intros [col sr] Hc. unfold sub in Hc.
    apply in_flat_map in Hc. destruct Hc as [col' [Hcol' Hc]].
    destruct (Hnum col' Hcol') as [sr' [Hsr' Hty]]. rewrite Hsr' in Hc.
    destruct Hc as [Hc|[]]. injection Hc as <- <-.
    now apply number_is_numeric_data. }
  assert (Hget : forall col sr, In (col, sr) sub -> getitem d col = Some sr).
  { intros col sr Hc. unfold sub in Hc.
    apply in_flat_map in Hc. destruct Hc as [col' [Hcol' Hc]].
    destruct (getitem d col') as [sr'|] eqn:E; [|contradiction].
    destruct Hc as [Hc|[]]. now injection Hc as <- <-. }
  assert (Hhas : forall col sr, In col num -> getitem d col = Some sr ->
                                In (col, sr) sub).
  { intros col sr Hc Hsr. unfold sub. apply in_flat_map.
    exists col. split; [assumption|]. rewrite Hsr. now left. }
  exists (corr sub). split; [|split].
  - unfold correlation_analysis. rewrite Hflag. cbn [negb].
    rewrite (bind_returned _ _ _ _ _ (get_df_ready d s Hd)).
    rewrite (bind_returned _ _ _ _ _ (get_num_cols_ready num s Hn)).
    rewrite (bind_returned _ _ _ _ _ (subframe_value d num s Hin)).
    apply write_adds.
  - unfold corr. cbv zeta. rewrite (select_all _ sub Hall).
    rewrite map_map. cbn [fst]. exact Hsub.
  - unfold corr. cbv zeta. rewrite (select_all _ sub Hall).
    apply Forall_forall. intros row Hrow. apply in_map_iff in Hrow.
    destruct Hrow as [[y sy] [<- Hy]]. cbn [fst snd]. split.
    + rewrite map_map. cbn [fst]. exact Hsub.
    + intros x sx sy' Hsy' Hsx Hx.
      rewrite (Hget y sy Hy) in Hsy'. injection Hsy' as <-.
      apply in_map_iff. exists (x, sx). split; [reflexivity|].
      now apply Hhas.
Qed.

Lemma correlation_heatmap_square_witness :
  exists matrix,
    correlation_analysis (Scenarios.config_with "stage" true)
      (classified Scenarios.patients)
    = (Returned tt,
       add_files [("reports/correlation.png", CorrelationPng matrix)]
                 (classified Scenarios.patients)) /\
    map fst matrix = ["id"; "age"; "stage"].
Proof.
  destruct (correlation_heatmap_square (Scenarios.config_with "stage" true)
              (classified Scenarios.patients) Scenarios.patients
              ["id"; "age"; "stage"] ["city"])
    as [matrix [H [Hl _]]].
  - repeat split.
  - intros col H. simpl in H.
    destruct H as [<-|[<-|[<-|[]]]]; eexists; split; reflexivity.
  - reflexivity.
  - exists matrix. split; [exact H|exact Hl].
Defined.

End HeatmapFacts.

Module MissingClassFacts.

Import NumPy Pandas Pipeline Properties MoreProperties.
Import PipelineFacts RunFacts EffectFacts PandasFacts UtilsFacts AnalysisFacts.
Local Open Scope string_scope.
Local Open Scope pipeline_scope.

(** *** A target with one class and missing entries *)

Lemma cell_eq_missing (c : cell) : cell_eq c None = false.
Proof. now destruct c. Qed.

(** No row is selected by a comparison with the missing value. *)
Lemma group_values_missing (target_values : list cell) (sr : Series) :
  group_values target_values None sr = [].
Proof.
  unfold group_values.
  assert (H : boolean_index (values sr)
                (map (fun c => cell_eq c None) target_values) = []).
  { generalize (values sr). induction target_values as [|c tv IH];
      intros xs; destruct xs as [|x xs]; try reflexivity.
    cbn [map boolean_index]. rewrite cell_eq_missing. apply IH. }
  now rewrite H.
Qed.

(** X26.  The missing value counts as a class: on a target whose unique
    values are one value and the missing value, the t-test step (flag set)
    does not warn but tests every feature against an empty group, the rows
    with a missing target being selected by no comparison.  It returns with
    [ttest_effectsize_results.csv] written last, one row per numeric column
    other than the target, and every effect size in it is NaN. *)
Theorem missing_class_effect_sizes (world : World) (config : Config)
  (s : state) (d : DataFrame) (num cat : list string) (ts : Series)
  (g : scalar) (t : list Q -> list Q -> float64 * float64) :
  ready d num cat s ->
  (forall col, In col num -> In col (columns d)) ->
  target_analysis_flag (plots config) = true ->
  getitem d (target_column config) = Some ts ->
  unique (values ts) = [Some g; None] \/ unique (values ts) = [None; Some g] ->
  (forall a b, ttest_ind world a b = Returned (t a b)) ->
  exists rows s',
    target_analysis world config s = (Returned tt, s') /\
    log s' = log s /\
    last (files s') (ttest_path config, TTestCsv [])
    = (ttest_path config, TTestCsv rows) /\
    map (fun row => fst (fst row)) rows = features (target_column config) num /\
    Forall (fun row => snd row = NaN) rows.
Proof.
  intros Hr Hin E Hts Hu Ht.
  assert (Hboth :
            exists g1 g2, unique (values ts) = [g1; g2] /\
                          (g1 = None \/ g2 = None)).
  { destruct Hu as [Hu|Hu]; [exists (Some g), None|exists None, (Some g)];
      (split; [exact Hu|]); [now right|now left]. }
  destruct Hboth as [g1 [g2 [Hu' Hnone]]].
  destruct (target_analysis_binary world config s d num cat ts g1 g2 t
              Hr Hin E Hts Hu' Ht) as [rows [fs [H [_ [Hrows Hall]]]]].
  exists rows. eexists. split; [exact H|]. split; [reflexivity|].
  split; [|split; [exact Hrows|]].
  - unfold add_files. cbn [files]. rewrite app_assoc. apply last_last.
  - apply Forall_forall. intros row Hrow.
    rewrite Forall_forall in Hall.
    destruct (Hall row Hrow) as [sr [_ [_ Hd]]]. rewrite Hd.
    destruct Hnone as [-> | ->]; rewrite group_values_missing; cbn [map].
    + apply cohens_d_empty_l.
    + apply cohens_d_empty_r.
Qed.

Lemma missing_class_effect_sizes_witness :
  exists (rows : list (string * float64 * float64)) s',
    target_analysis (Scenarios.quiet_world half_labelled)
      (Scenarios.config_with "treated" true) (classified half_labelled)
    = (Returned tt, s') /\
    log s' = [] /\
    map (fun row => fst (fst row)) rows = ["dose"] /\
    Forall (fun row => snd row = NaN) rows.
Proof.
  destruct (missing_class_effect_sizes (Scenarios.quiet_world half_labelled)
              (Scenarios.config_with "treated" true)
              (classified half_labelled) half_labelled
              ["dose"; "treated"] []
              (Scenarios.series Float64
                 [Scenarios.num 1; None; Scenarios.num 1])
              (Num 1) (fun _ _ => (NaN, NaN)))
    as [rows [s' [H [Hl [_ [Hn Hall]]]]]].
  - repeat split.
  - intros col H. simpl in H |- *. tauto.
  - reflexivity.
  - reflexivity.
  - left. reflexivity.
  - reflexivity.
  - exists rows, s'. split; [exact H|]. split; [exact Hl|].
    split; [exact Hn|exact Hall].
Defined.

End MissingClassFacts.

Module SkippedTargetFacts.

Import NumPy Pandas Pipeline Properties MoreProperties.
Import PipelineFacts RunFacts StepFacts EffectFacts PandasFacts.
Import ClassifyFacts ClassificationFacts AnalysisFacts StepEffectFacts.
Import WholeRunFacts Scenarios.
Local Open Scope string_scope.
Local Open Scope pipeline_scope.

(** *** The state the t-test step starts from *)








End SkippedTargetFacts.

Module NullIdColumnsFacts.

Import NumPy Pandas Pipeline Properties MoreProperties.
Import PipelineFacts RunFacts EffectFacts PreparationFacts.
Local Open Scope string_scope.
Local Open Scope pipeline_scope.

(** X27.  A configuration file that sets [id_columns] to null stops the
    run at its second step: once the data file is read, [run] raises the
    [ValueError] of [DataFrame.drop], with the dataset as loaded, the two
    messages of the load step logged and no file written. *)
Theorem null_id_columns_aborts (world : World) (config : Config)
  (d0 : DataFrame) :
  read_csv world (data_path config) = Returned d0 ->
  id_columns config = Null ->
  exists msg s,
    run world config init = (Raised (ValueError msg), s) /\
    df s = Some d0 /\
    log s = [(INFO, LoadingDataset); (INFO, DatasetShape (shape d0))] /\
    files s = [].
Proof.
  intros Hread Hn.
  assert (Hl : exists s1,
             sequence [load_data world config] init = (Returned tt, s1) /\
             df s1 = Some d0 /\
             log s1 = [(INFO, LoadingDataset); (INFO, DatasetShape (shape d0))] /\
             files s1 = []).
  { eexists. rewrite sequence_single. unfold load_data.
    unfold bind, call, logger, set_df. rewrite Hread. cbn [fst snd].
    repeat split. }
  destruct Hl as [s1 [Hl [Hd1 [Hlog1 Hf1]]]].
  eexists. exists s1. split; [|auto].
  apply (run_aborts world config 2).
  change (firstn 2 (steps world config))
    with ([load_data world config] ++ [drop_id_columns config])%list.
  rewrite (sequence_returned_then _ _ _ _ Hl), sequence_single.
  exact (drop_id_columns_null config s1 d0 Hn Hd1).
Qed.

Lemma null_id_columns_aborts_witness :
  exists msg s,
    run (Scenarios.quiet_world Scenarios.patients)
        {| data_path := "data.csv"; report_path := "reports/";
           id_columns := Null; target_column := "stage";
           outlier_detection := true;
           plots := {| distribution := true; target_analysis_flag := true;
                       correlation := true |} |} init
    = (Raised (ValueError msg), s) /\
    files s = [].
Proof.
  destruct (null_id_columns_aborts (Scenarios.quiet_world Scenarios.patients)
              {| data_path := "data.csv"; report_path := "reports/";
                 id_columns := Null; target_column := "stage";
                 outlier_detection := true;
                 plots := {| distribution := true;
                             target_analysis_flag := true;
                             correlation := true |} |}
              Scenarios.patients eq_refl eq_refl)
    as [msg [s [H [_ [_ Hf]]]]].
  exists msg, s. split; [exact H|exact Hf].
Defined.

End NullIdColumnsFacts.

(* ================================================================== *)
(** ** Facts about binary64 values *)
(* ================================================================== *)

Module Binary64Facts.

Import PrimFloat FloatOps SpecFloat FloatAxioms Binary64 Binary64Properties.

(** *** Comparison *)

Lemma pos_compare_cont_eq (m1 m2 : positive) :
  PosDef.Pos.compare_cont Eq m1 m2 = Eq -> m1 = m2.
Proof. exact (Pos.compare_eq m1 m2). Qed.

Lemma pos_compare_cont_refl (m : positive) : PosDef.Pos.compare_cont Eq m m = Eq.
Proof. exact (Pos.compare_refl m). Qed.

Lemma SFcompare_finite_eq (s1 s2 : bool) (m1 m2 : positive) (e1 e2 : Z) :
  SFcompare (S754_finite s1 m1 e1) (S754_finite s2 m2 e2) = Some Eq ->
  s1 = s2 /\ m1 = m2 /\ e1 = e2.
Proof.
  simpl. destruct s1, s2; try discriminate;
    destruct (Z.compare_spec e1 e2) as [He|He|He]; try discriminate;
    intros H; injection H as H; repeat split; try assumption.
  - apply pos_compare_cont_eq.
    destruct (PosDef.Pos.compare_cont Eq m1 m2); [reflexivity|discriminate..].
  - now apply pos_compare_cont_eq.
Qed.

Lemma SFcompare_refl (x : spec_float) :
  x <> S754_nan -> SFcompare x x = Some Eq.
Proof.
  destruct x as [s|s| |s m e]; intros H; simpl; try reflexivity.
  - now destruct s.
  - congruence.
  - rewrite Z.compare_refl, pos_compare_cont_refl. now destruct s.
Qed.

Lemma SFcompare_antisym (x y : spec_float) :
  SFcompare y x = option_map CompOpp (SFcompare x y).
Proof.
  destruct x as [sx|sx| |sx mx ex], y as [sy|sy| |sy my ey]; simpl;
    try reflexivity; try (destruct sx; reflexivity);
    try (destruct sy; reflexivity); try (destruct sx, sy; reflexivity).
  f_equal. rewrite (Z.compare_antisym ey ex).
  change (PosDef.Pos.compare_cont Eq my mx) with (Pos.compare my mx).
  change (PosDef.Pos.compare_cont Eq mx my) with (Pos.compare mx my).
  rewrite (Pos.compare_antisym my mx).
  destruct sx, sy; try reflexivity;
    destruct (ey ?= ex)%Z; simpl; try reflexivity;
    destruct (my ?= mx)%positive; reflexivity.
Qed.

Lemma SFcompare_eq_sym (x y : spec_float) :
  SFcompare x y = Some Eq -> SFcompare y x = Some Eq.
Proof. intros H. now rewrite SFcompare_antisym, H. Qed.

(** *** Differences, products and sums with a zero *)

Lemma SFsub_diag (s : bool) (m : positive) (e : Z) :
  SFsub prec emax (S754_finite s m e) (S754_finite s m e) = S754_zero false.
Proof.
  unfold SFsub. change (IntDef.Z.min e e) with (Z.min e e). rewrite Z.min_id.
  cbv zeta. unfold shl_align. rewrite !Z.sub_diag. reflexivity.
Qed.

Lemma sub_near (v a b : spec_float) :
  near v a -> near v b -> zeroish (SFsub prec emax b a).
Proof.
  intros [->|Ha] [->|Hb]; try (left; now destruct b);
    try (left; now destruct a); try (left; reflexivity).
  destruct v as [sv|sv| |sv mv ev].
  - destruct a as [sa|sa| |sa ma ea], b as [sb|sb| |sb mb eb];
      simpl in Ha, Hb; try discriminate; try (destruct sa; discriminate);
      try (destruct sb; discriminate).
    right. destruct sa, sb; simpl; eauto.
  - destruct a as [sa|sa| |sa ma ea], b as [sb|sb| |sb mb eb];
      simpl in Ha, Hb; try discriminate; try (destruct sv; discriminate);
      try (destruct sa; discriminate); try (destruct sb; discriminate).
    left. destruct sa, sb, sv; simpl in *; try discriminate; reflexivity.
  - destruct a; discriminate.
  - destruct a as [sa|sa| |sa ma ea], b as [sb|sb| |sb mb eb];
      try (simpl in Ha; discriminate); try (simpl in Hb; discriminate);
      try (simpl in Ha; destruct sa; discriminate);
      try (simpl in Hb; destruct sb; discriminate);
      try (simpl in Ha; destruct sv; discriminate);
      try (simpl in Hb; destruct sv; discriminate).
    apply SFcompare_finite_eq in Ha, Hb.
    destruct Ha as (-> & -> & ->), Hb as (-> & -> & ->).
    right. exists false. apply SFsub_diag.
Qed.

Lemma mul_zeroish_l (z t : spec_float) :
  zeroish z -> zeroish (SFmul prec emax z t).
Proof.
  intros [->|[s ->]]; [now left|].
  destruct t; simpl; [right; eauto|now left|now left|right; eauto].
Qed.

Lemma mul_zeroish_r (z t : spec_float) :
  zeroish z -> zeroish (SFmul prec emax t z).
Proof.
  intros [->|[s ->]]; [left; now destruct t|].
  destruct t; simpl; [right; eauto|now left|now left|right; eauto].
Qed.

Lemma near_zero_sign (v : spec_float) (s s' : bool) :
  near v (S754_zero s) -> near v (S754_zero s').
Proof.
  intros [H|H]; [discriminate|]. right. exact H.
Qed.

Lemma add_near (v x z : spec_float) :
  near v x -> zeroish z -> near v (SFadd prec emax x z).
Proof.
  intros Hx [->|[s ->]]; [left; now destruct x|].
  destruct Hx as [->|Hx]; [now left|].
  destruct x as [sx|sx| |sx mx ex]; simpl.
  - assert (H : near v (S754_zero sx)) by now right.
    destruct sx, s; try exact H; exact (near_zero_sign v _ false H).
  - now right.
  - now left.
  - now right.
Qed.

Lemma sub_near_zero (v x z : spec_float) :
  near v x -> zeroish z -> near v (SFsub prec emax x z).
Proof.
  intros Hx [->|[s ->]]; [left; now destruct x|].
  destruct Hx as [->|Hx]; [now left|].
  destruct x as [sx|sx| |sx mx ex]; simpl.
  - assert (H : near v (S754_zero sx)) by now right.
    destruct sx, s; try exact H; exact (near_zero_sign v _ false H).
  - now right.
  - now left.
  - now right.
Qed.

Lemma near_ltb (v q : spec_float) :
  near v q -> SFltb v q = false /\ SFltb q v = false.
Proof.
  unfold SFltb. intros [->|H].
  - split; [now destruct v|reflexivity].
  - rewrite (SFcompare_eq_sym q v H), H. split; reflexivity.
Qed.

Lemma near_refl (v : spec_float) : near v v.
Proof.
  destruct v as [s|s| |s m e]; [right|right|left|right];
    try reflexivity; now apply SFcompare_refl.
Qed.

End Binary64Facts.

Module Binary64ValueFacts.

Import PrimFloat FloatOps SpecFloat FloatAxioms.
Import Binary64 Binary64Properties Binary64Facts.
Local Open Scope float_scope.

(** *** Missing values *)

Lemma is_nan_spec (x : float) : is_nan x = true <-> Prim2SF x = S754_nan.
Proof.
  unfold is_nan. rewrite eqb_spec. unfold SFeqb. split.
  - intros H. destruct (Prim2SF x) as [s|s| |s m e] eqn:E; try reflexivity;
      rewrite SFcompare_refl in H by discriminate; discriminate.
  - intros ->. reflexivity.
Qed.

Lemma notna_spec (x : float) : notna x = true <-> Prim2SF x <> S754_nan.
Proof.
  unfold notna. rewrite negb_true_iff, <- not_true_iff_false, is_nan_spec.
  tauto.
Qed.

Lemma ltb_nan_l (x y : float) : notna x = false -> (x <? y) = false.
Proof.
  unfold notna. rewrite negb_false_iff, is_nan_spec. intros H.
  now rewrite ltb_spec, H.
Qed.

Lemma ltb_nan_r (x y : float) : notna y = false -> (x <? y) = false.
Proof.
  unfold notna. rewrite negb_false_iff, is_nan_spec. intros H.
  rewrite ltb_spec, H. unfold SFltb. now destruct (Prim2SF x).
Qed.

Lemma outside_nan (lower upper x : float) :
  notna x = false -> strictly_outside lower upper x = false.
Proof.
  intros H. unfold strictly_outside. now rewrite (ltb_nan_l x _ H), (ltb_nan_r _ x H).
Qed.

(** *** Values that compare equal *)

Lemma nearf_refl (v : float) : nearf v v.
Proof. apply near_refl. Qed.

Lemma nearf_sub (v a b : float) :
  nearf v a -> nearf v b -> zeroish (Prim2SF (b - a)).
Proof. intros Ha Hb. rewrite sub_spec. exact (sub_near _ _ _ Ha Hb). Qed.

Lemma nearf_lerp (v a b diff t : float) :
  nearf v a -> nearf v b -> zeroish (Prim2SF diff) ->
  nearf v (lerp a b diff t).
Proof.
  intros Ha Hb Hd. unfold lerp, nearf. destruct (0.5 <=? t).
  - rewrite sub_spec. apply sub_near_zero; [exact Hb|].
    rewrite mul_spec. now apply mul_zeroish_l.
  - rewrite add_spec. apply add_near; [exact Ha|].
    rewrite mul_spec. now apply mul_zeroish_l.
Qed.

Lemma nearf_fence (v q1 q3 : float) :
  nearf v q1 -> nearf v q3 ->
  nearf v (fst (iqr_fence q1 q3)) /\ nearf v (snd (iqr_fence q1 q3)).
Proof.
  intros H1 H3. unfold iqr_fence. cbv zeta. cbn [fst snd].
  assert (Hz : zeroish (Prim2SF (1.5 * (q3 - q1)))).
  { rewrite mul_spec. apply mul_zeroish_r. exact (nearf_sub v q1 q3 H1 H3). }
  unfold nearf. split.
  - rewrite sub_spec. now apply sub_near_zero.
  - rewrite add_spec. now apply add_near.
Qed.

Lemma nearf_outside (v lower upper : float) :
  nearf v lower -> nearf v upper -> strictly_outside lower upper v = false.
Proof.
  intros Hl Hu. unfold strictly_outside. rewrite !ltb_spec.
  destruct (near_ltb _ _ Hl) as [-> _].
  destruct (near_ltb _ _ Hu) as [_ ->]. reflexivity.
Qed.

(** *** Sorting *)

Lemma insert_perm {A : Type} (le : A -> A -> bool) (x : A) (l : list A) :
  Permutation (insert le x l) (x :: l).
Proof.
  induction l as [|y l IH]; simpl; [apply Permutation_refl|].
  destruct (le x y); [apply Permutation_refl|].
  rewrite perm_swap. now apply perm_skip.
Qed.

Lemma sort_perm {A : Type} (le : A -> A -> bool) (l : list A) :
  Permutation (sort le l) l.
Proof.
  induction l as [|x l IH]; simpl; [constructor|].
  rewrite insert_perm. now apply perm_skip.
Qed.

Lemma sort_length {A : Type} (le : A -> A -> bool) (l : list A) :
  List.length (sort le l) = List.length l.
Proof. apply Permutation_length, sort_perm. Qed.

Lemma sort_all {A : Type} (P : A -> Prop) (le : A -> A -> bool) (l : list A) :
  Forall P l -> Forall P (sort le l).
Proof.
  intros H. apply Forall_forall. intros x Hx.
  rewrite Forall_forall in H. apply H.
  exact (Permutation_in x (sort_perm le l) Hx).
Qed.

Lemma insert_hd {A : Type} (R : A -> A -> Prop) (le : A -> A -> bool)
  (a x : A) (l : list A) :
  R a x -> HdRel R a l -> HdRel R a (insert le x l).
Proof.
  intros Hax Hl. destruct l as [|y l]; simpl; [now constructor|].
  destruct (le x y); constructor; [assumption|].
  now inversion Hl.
Qed.

(** Insertion keeps a list sorted when the order decides every pair. *)
Lemma insert_keeps_sorted {A : Type} (le : A -> A -> bool) (x : A) (l : list A) :
  (forall y, In y l -> le x y = false -> le y x = true) ->
  Sorted (fun a b => le a b = true) l ->
  Sorted (fun a b => le a b = true) (insert le x l).
Proof.
  intros Htot Hs. induction Hs as [|y l Hs IH Hhd]; simpl.
  - repeat constructor.
  - destruct (le x y) eqn:E.
    + constructor; [now constructor|now constructor].
    + constructor.
      * apply IH. intros z Hz. apply Htot. now right.
      * apply insert_hd; [|assumption].
        apply Htot; [now left|assumption].
Qed.

Lemma sort_sorted {A : Type} (le : A -> A -> bool) (l : list A) :
  (forall x y, In x l -> In y l -> le x y = false -> le y x = true) ->
  Sorted (fun a b => le a b = true) (sort le l).
Proof.
  induction l as [|x l IH]; intros Htot; simpl; [constructor|].
  apply insert_keeps_sorted.
  - intros y Hy. apply Htot; [now left|right].
    exact (Permutation_in y (sort_perm le l) Hy).
  - apply IH. intros a b Ha Hb. apply Htot; now right.
Qed.

Lemma leb_total (x y : float) :
  notna x = true -> notna y = true -> (x <=? y) = false -> (y <=? x) = true.
Proof.
  rewrite !notna_spec, !leb_spec. unfold SFleb.
  rewrite (SFcompare_antisym (Prim2SF x) (Prim2SF y)).
  intros Hx Hy.
  destruct (SFcompare (Prim2SF x) (Prim2SF y)) as [[| |]|] eqn:E;
    try discriminate; try reflexivity.
  exfalso. destruct (Prim2SF x), (Prim2SF y); simpl in E;
    try discriminate; congruence.
Qed.

Lemma item_in {A : Type} (arr : list A) (i : Z) (first : A) :
  In first arr -> In (item arr i first) arr.
Proof.
  intros H. unfold item.
  destruct (nth_in_or_default
              (Z.to_nat (if (i <? 0)%Z
                         then (Z.of_nat (List.length arr) + i)%Z else i))
              arr first) as [Hin| ->]; assumption.
Qed.

(** *** Counting *)

Lemma count_mask_or {A : Type} (f g : A -> bool) (xs : list A) :
  Pandas.count_true (Pandas.mask_or (map f xs) (map g xs))
  = List.length (filter (fun x => f x || g x) xs).
Proof.
  unfold Pandas.count_true. rewrite PandasFacts.mask_or_map.
  induction xs as [|x xs IH]; simpl; [reflexivity|].
  destruct (f x || g x); simpl; now rewrite IH.
Qed.

Lemma detect_outliers_count (series : numeric) :
  detect_outliers series
  = List.length
      (filter (strictly_outside (fst (iqr_fence (quantile series 0.25) (quantile series 0.75)))
                       (snd (iqr_fence (quantile series 0.25) (quantile series 0.75))))
              (as_floats series)).
Proof. unfold detect_outliers. cbv zeta. apply count_mask_or. Qed.

Lemma filter_present (f : float -> bool) (xs : list float) :
  (forall x, notna x = false -> f x = false) ->
  filter f xs = filter f (filter notna xs).
Proof.
  intros H. induction xs as [|x xs IH]; simpl; [reflexivity|].
  destruct (notna x) eqn:E; simpl.
  - now rewrite IH.
  - now rewrite (H x E).
Qed.

End Binary64ValueFacts.

(* ================================================================== *)
(** ** Cohen's d in binary64 *)
(* ================================================================== *)

Module CohensD64Facts.

Import PrimFloat Binary64 Binary64Properties.
Local Open Scope float_scope.

(** *** The depth of the summation *)

Lemma pairwise_sum_fuel (fuel1 fuel2 : nat) (xs : list float) :
  (List.length xs <= fuel1)%nat -> (List.length xs <= fuel2)%nat ->
  pairwise_sum fuel1 xs = pairwise_sum fuel2 xs.
Proof.
  revert fuel2 xs. induction fuel1 as [|fuel1 IH]; intros fuel2 xs H1 H2.
  - assert (xs = []) by (destruct xs; [reflexivity|simpl in H1; lia]).
    subst xs. destruct fuel2; reflexivity.
  - destruct fuel2 as [|fuel2].
    + assert (xs = []) by (destruct xs; [reflexivity|simpl in H2; lia]).
      subst xs. reflexivity.
    + cbn [pairwise_sum]. cbv zeta.
      destruct (List.length xs <? 8)%nat eqn:E8; [reflexivity|].
      destruct (List.length xs <=? 128)%nat eqn:E128; [reflexivity|].
      apply Nat.leb_gt in E128.
      set (n := List.length xs) in *.
      assert (Hn2 : (0 < n / 2 - (n / 2) mod 8 < n)%nat).
      { pose proof (Nat.mod_upper_bound (n / 2) 8 ltac:(lia)).
        pose proof (Nat.div_lt n 2 ltac:(lia) ltac:(lia)).
        assert (64 <= n / 2)%nat by (apply Nat.div_le_lower_bound; lia).
        lia. }
      f_equal; apply IH; rewrite ?length_firstn, ?length_skipn; fold n; lia.
Qed.

(** *** The formula *)




End CohensD64Facts.

(* ================================================================== *)
(** ** The IQR rule in binary64 *)
(* ================================================================== *)

Module Outlier64Facts.

Import PrimFloat FloatOps SpecFloat FloatAxioms.
Import Binary64 Binary64Properties Binary64Facts Binary64ValueFacts.
Local Open Scope float_scope.

(** *** The count *)

Lemma detect_outliers_present (series : numeric) :
  detect_outliers series
  = List.length
      (filter (strictly_outside (fst (iqr_fence (quantile series 0.25) (quantile series 0.75)))
                       (snd (iqr_fence (quantile series 0.25) (quantile series 0.75))))
              (present series)).
Proof.
  rewrite detect_outliers_count. unfold present. f_equal.
  apply filter_present. intros x. apply outside_nan.
Qed.

(** *** The quartiles *)

Lemma quantile_floats (xs : list float) (q : float) :
  filter notna xs <> [] ->
  quantile (Float64Series xs) q
  = interpolated (sort leb (filter notna xs)) ((q * 100) / 100).
Proof.
  intros H. unfold quantile, interpolated. cbv zeta.
  destruct (sort leb (filter notna xs)) as [|first arr] eqn:E.
  - exfalso. apply H. apply length_zero_iff_nil.
    rewrite <- (sort_length leb), E. reflexivity.
  - reflexivity.
Qed.

Lemma quantile_ints (zs : list Z) (q : float) :
  zs <> [] ->
  quantile (Int64Series zs) q
  = interpolated_int (sort Z.leb zs) ((q * 100) / 100).
Proof.
  intros H. unfold quantile, interpolated_int. cbv zeta.
  destruct (sort Z.leb zs) as [|first arr] eqn:E.
  - exfalso. apply H. apply length_zero_iff_nil.
    rewrite <- (sort_length Z.leb), E. reflexivity.
  - reflexivity.
Qed.

Lemma quantile_empty (series : numeric) (q : float) :
  present series = [] -> Prim2SF (quantile series q) = S754_nan.
Proof.
  destruct series as [xs|zs]; unfold present, as_floats, quantile; cbv zeta.
  - intros ->. reflexivity.
  - destruct zs as [|z zs]; [reflexivity|].
    intros H. cbn [sort fold_right].
    destruct (insert Z.leb z (fold_right (insert Z.leb) [] zs))
      as [|first arr] eqn:E; [reflexivity|].
    fold (sort Z.leb zs) in E.
    assert (Hall : Forall (fun c => notna (of_int c) = false)
                          (insert Z.leb z (sort Z.leb zs))).
    { apply Forall_forall. intros c Hc.
      apply (Permutation_in c (insert_perm Z.leb z (sort Z.leb zs))) in Hc.
      assert (Hc' : In c (z :: zs)).
      { destruct Hc as [->|Hc]; [now left|right].
        exact (Permutation_in c (sort_perm Z.leb zs) Hc). }
      destruct (notna (of_int c)) eqn:En; [|reflexivity].
      exfalso.
      assert (Hin : In (of_int c) (filter notna (map of_int (z :: zs)))).
      { apply filter_In. split; [now apply in_map|exact En]. }
      rewrite H in Hin. exact Hin. }
    rewrite E in Hall.
    destruct (position (List.length (first :: arr)) (0.25 * 100 / 100))
      as [[p nx] g] eqn:Ep.
    destruct (position (List.length (first :: arr)) (q * 100 / 100))
      as [[p' nx'] g'].
    assert (Ha : notna (of_int (item (first :: arr) p' first)) = false).
    { rewrite Forall_forall in Hall. apply Hall, item_in. now left. }
    assert (Hb : notna (of_int (item (first :: arr) nx' first)) = false).
    { rewrite Forall_forall in Hall. apply Hall, item_in. now left. }
    unfold notna in Ha, Hb. rewrite negb_false_iff, is_nan_spec in Ha, Hb.
    unfold lerp. destruct (0.5 <=? g').
    + rewrite sub_spec, Hb. reflexivity.
    + rewrite add_spec, Ha. reflexivity.
Qed.

(** *** Comparison with equal values *)

Lemma SFcompare_eq_r (a b x : spec_float) :
  SFcompare a b = Some Eq -> SFcompare x a = SFcompare x b.
Proof.
  intros H.
  destruct a as [sa|sa| |sa ma ea], b as [sb|sb| |sb mb eb];
    try (apply SFcompare_finite_eq in H; destruct H as (-> & -> & ->);
         reflexivity);
    cbn in H; try discriminate H;
    try (destruct sa; discriminate H); try (destruct sb; discriminate H).
  - destruct x; reflexivity.
  - destruct sa, sb; try discriminate H; reflexivity.
Qed.

Lemma SFcompare_eq_l (a b x : spec_float) :
  SFcompare a b = Some Eq -> SFcompare a x = SFcompare b x.
Proof.
  intros H. rewrite (SFcompare_antisym x a), (SFcompare_antisym x b).
  now rewrite (SFcompare_eq_r a b x H).
Qed.

Lemma is_finite_spec (q : float) :
  is_finite q = true ->
  (exists s, Prim2SF q = S754_zero s) \/
  (exists s m e, Prim2SF q = S754_finite s m e).
Proof.
  unfold is_finite, is_infinity. rewrite negb_true_iff, orb_false_iff.
  intros [Hn Hi]. rewrite eqb_spec, abs_spec in Hi.
  destruct (Prim2SF q) as [s|s| |s m e] eqn:E.
  - left. now exists s.
  - discriminate Hi.
  - apply is_nan_spec in E. congruence.
  - right. now exists s, m, e.
Qed.

(** *** A fence of width zero *)

Lemma fence_degenerate (q1 q3 : float) :
  (q1 =? q3) = true -> is_finite q1 = true ->
  SFcompare (Prim2SF (fst (iqr_fence q1 q3))) (Prim2SF q1) = Some Eq /\
  SFcompare (Prim2SF (snd (iqr_fence q1 q3))) (Prim2SF q1) = Some Eq.
Proof.
  intros He Hf. unfold iqr_fence. cbn [fst snd].
  rewrite sub_spec, add_spec, !mul_spec, !sub_spec.
  rewrite eqb_spec in He. unfold SFeqb in He.
  destruct (SFcompare (Prim2SF q1) (Prim2SF q3)) as [[]|] eqn:Ec;
    try discriminate He. clear He.
  change (Prim2SF 1.5) with (S754_finite false 6755399441055744 (-52)).
  destruct (is_finite_spec q1 Hf) as [[s E1]|(s & m & e & E1)]; rewrite E1 in *.
  - destruct (Prim2SF q3) as [s3|s3| |s3 m3 e3]; try discriminate Ec.
    + destruct s, s3; split; reflexivity.
    + destruct s3; discriminate Ec.
    + destruct s3; discriminate Ec.
  - destruct (Prim2SF q3) as [s3|s3| |s3 m3 e3]; try discriminate Ec.
    + destruct s; discriminate Ec.
    + destruct s3; discriminate Ec.
    + apply SFcompare_finite_eq in Ec. destruct Ec as (<- & <- & <-).
      unfold SF64sub, SF64add, SF64mul. rewrite SFsub_diag.
      cbn [SFmul SFsub SFadd xorb].
      split; apply SFcompare_refl; discriminate.
Qed.

Lemma SFcompare_none (x y : spec_float) :
  SFcompare x y = None -> x = S754_nan \/ y = S754_nan.
Proof.
  destruct x as [sx|sx| |sx mx ex], y as [sy|sy| |sy my ey]; cbn;
    try discriminate; auto.
Qed.

Lemma outside_degenerate (lower upper q x : float) :
  SFcompare (Prim2SF lower) (Prim2SF q) = Some Eq ->
  SFcompare (Prim2SF upper) (Prim2SF q) = Some Eq ->
  notna x = true ->
  strictly_outside lower upper x = negb (x =? q).
Proof.
  intros Hl Hu Hx. unfold strictly_outside. rewrite !ltb_spec, eqb_spec.
  unfold SFltb, SFeqb.
  rewrite (SFcompare_eq_r _ _ (Prim2SF x) Hl).
  rewrite (SFcompare_eq_l _ _ (Prim2SF x) Hu).
  rewrite (SFcompare_antisym (Prim2SF x) (Prim2SF q)).
  destruct (SFcompare (Prim2SF x) (Prim2SF q)) as [[]|] eqn:E; try reflexivity.
  exfalso. apply notna_spec in Hx.
  destruct (SFcompare_none _ _ E) as [En|En]; [congruence|].
  rewrite En in Hu. destruct (Prim2SF upper); discriminate Hu.
Qed.

Lemma detect_outliers_equal_quartiles (series : numeric) :
  (quantile series 0.25 =? quantile series 0.75) = true ->
  is_finite (quantile series 0.25) = true ->
  detect_outliers series
  = List.length (filter (fun x => negb (x =? quantile series 0.25))
                        (present series)).
Proof.
  intros He Hf. rewrite detect_outliers_present.
  destruct (fence_degenerate _ _ He Hf) as [Hl Hu].
  f_equal. apply filter_ext_in. intros x Hx.
  apply (outside_degenerate _ _ _ _ Hl Hu).
  unfold present in Hx. now apply filter_In in Hx.
Qed.

(** *** Equal values *)

Lemma filter_nothing {A : Type} (f : A -> bool) (l : list A) :
  (forall x, In x l -> f x = false) -> filter f l = [].
Proof.
  induction l as [|x l IH]; intros H; [reflexivity|].
  cbn [filter]. rewrite (H x (or_introl eq_refl)).
  apply IH. intros y Hy. apply H. now right.
Qed.

Lemma quantile_all_equal_floats (xs : list float) (c q : float) :
  Forall (fun x => x = c) (filter notna xs) ->
  nearf c (quantile (Float64Series xs) q).
Proof.
  intros H. unfold quantile. cbv zeta.
  destruct (sort leb (filter notna xs)) as [|first arr] eqn:E.
  - left. reflexivity.
  - apply (sort_all _ leb) in H. rewrite E in H.
    destruct (position (List.length (first :: arr)) (q * 100 / 100))
      as [[p nx] g].
    rewrite Forall_forall in H.
    rewrite (H (item (first :: arr) p first))
      by (apply item_in; now left).
    rewrite (H (item (first :: arr) nx first))
      by (apply item_in; now left).
    apply nearf_lerp; try apply nearf_refl.
    apply (nearf_sub c); apply nearf_refl.
Qed.

Lemma quantile_all_equal_ints (zs : list Z) (c : Z) (q : float) :
  Forall (fun z => z = c) zs ->
  nearf (of_int c) (quantile (Int64Series zs) q).
Proof.
  intros H. unfold quantile. cbv zeta.
  destruct (sort Z.leb zs) as [|first arr] eqn:E.
  - left. reflexivity.
  - apply (sort_all _ Z.leb) in H. rewrite E in H.
    destruct (position (List.length (first :: arr)) (q * 100 / 100))
      as [[p nx] g].
    rewrite Forall_forall in H.
    rewrite (H (item (first :: arr) p first))
      by (apply item_in; now left).
    rewrite (H (item (first :: arr) nx first))
      by (apply item_in; now left).
    rewrite Z.sub_diag.
    apply nearf_lerp; try apply nearf_refl.
    right. exists false. reflexivity.
Qed.

Lemma detect_outliers_equal_floats (xs : list float) (c : float) :
  Forall (fun x => x = c) (present (Float64Series xs)) ->
  detect_outliers (Float64Series xs) = 0%nat.
Proof.
  intros H. rewrite detect_outliers_count.
  rewrite filter_nothing; [reflexivity|].
  intros x Hx. cbn [as_floats] in Hx.
  destruct (notna x) eqn:En; [|now apply outside_nan].
  assert (x = c) as ->.
  { rewrite Forall_forall in H. apply H. unfold present. cbn [as_floats].
    apply filter_In. now split. }
  destruct (nearf_fence c (quantile (Float64Series xs) 0.25)
                        (quantile (Float64Series xs) 0.75))
    as [Hl Hu]; try now apply quantile_all_equal_floats.
  now apply nearf_outside.
Qed.

Lemma detect_outliers_equal_ints (zs : list Z) (c : Z) :
  Forall (fun z => z = c) zs ->
  detect_outliers (Int64Series zs) = 0%nat.
Proof.
  intros H. rewrite detect_outliers_count.
  rewrite filter_nothing; [reflexivity|].
  intros x Hx. cbn [as_floats] in Hx. apply in_map_iff in Hx.
  destruct Hx as (z & <- & Hz).
  rewrite Forall_forall in H. rewrite (H z Hz).
  destruct (nearf_fence (of_int c) (quantile (Int64Series zs) 0.25)
                        (quantile (Int64Series zs) 0.75))
    as [Hl Hu]; try (apply quantile_all_equal_ints; now apply Forall_forall).
  now apply nearf_outside.
Qed.

Lemma detect_outliers_nothing_present (series : numeric) :
  present series = [] -> detect_outliers series = 0%nat.
Proof. intros H. rewrite detect_outliers_present, H. reflexivity. Qed.

(** *** The sorted values *)

Lemma Sorted_impl {A : Type} (R R' : A -> A -> Prop) (l : list A) :
  (forall a b, R a b -> R' a b) -> Sorted R l -> Sorted R' l.
Proof.
  intros H. induction 1 as [|a l Hs IH Hh]; constructor; [exact IH|].
  destruct Hh; constructor. now apply H.
Qed.

Lemma quartiles_floats (xs : list float) :
  present (Float64Series xs) <> [] ->
  exists arr,
    Permutation arr (present (Float64Series xs)) /\ Sorted ascending arr /\
    quantile (Float64Series xs) 0.25 = interpolated arr 0.25 /\
    quantile (Float64Series xs) 0.75 = interpolated arr 0.75.
Proof.
  intros H. unfold present in *. cbn [as_floats] in *.
  exists (sort leb (filter notna xs)). split; [apply sort_perm|]. split.
  - apply sort_sorted. intros x y Hx Hy.
    apply filter_In in Hx, Hy. apply leb_total; tauto.
  - split; now rewrite quantile_floats.
Qed.

Lemma quartiles_ints (zs : list Z) :
  zs <> [] ->
  exists arr,
    Permutation arr zs /\ Sorted Z.le arr /\
    quantile (Int64Series zs) 0.25 = interpolated_int arr 0.25 /\
    quantile (Int64Series zs) 0.75 = interpolated_int arr 0.75.
Proof.
  intros H. exists (sort Z.leb zs). split; [apply sort_perm|]. split.
  - apply (Sorted_impl (fun a b => Z.leb a b = true)).
    + intros a b. apply Z.leb_le.
    + apply sort_sorted. intros x y _ _ Hxy.
      apply Z.leb_gt in Hxy. apply Z.leb_le. lia.
  - split; now rewrite quantile_ints.
Qed.

(** *** The rule *)

(** C2 (amended).  In float64 arithmetic [detect_outliers] returns the
    number of non-missing values strictly outside the fence
    [[Q1 - 1.5 IQR, Q3 + 1.5 IQR]], the values of an int64 column taken
    as float64 converts them.  The quartiles are the linear
    interpolations at 0.25 and 0.75 over the sorted non-missing values
    (float64 columns) or over the sorted integers (int64 columns, their
    difference taken in int64).  The count is 0 when nothing is present
    and when all values are equal; when the quartiles are equal and
    finite it is the number of values whose float64 conversion differs
    from the quartile; on [1, 2, 3, 4, 5, 100] it is 1, only 100 being
    outside the fence [[-1.5, 8.5]]. *)
Theorem detect_outliers_iqr_rule :
  (forall series,
      detect_outliers series
      = List.length
          (filter (strictly_outside
                     (fst (iqr_fence (quantile series 0.25) (quantile series 0.75)))
                     (snd (iqr_fence (quantile series 0.25) (quantile series 0.75))))
                  (present series))) /\
  (forall xs,
      present (Float64Series xs) <> [] ->
      exists arr,
        Permutation arr (present (Float64Series xs)) /\ Sorted ascending arr /\
        quantile (Float64Series xs) 0.25 = interpolated arr 0.25 /\
        quantile (Float64Series xs) 0.75 = interpolated arr 0.75) /\
  (forall zs,
      zs <> [] ->
      exists arr,
        Permutation arr zs /\ Sorted Z.le arr /\
        quantile (Int64Series zs) 0.25 = interpolated_int arr 0.25 /\
        quantile (Int64Series zs) 0.75 = interpolated_int arr 0.75) /\
  (forall series, present series = [] -> detect_outliers series = 0%nat) /\
  (forall xs c,
      Forall (fun x => x = c) (present (Float64Series xs)) ->
      detect_outliers (Float64Series xs) = 0%nat) /\
  (forall zs c,
      Forall (fun z => z = c) zs -> detect_outliers (Int64Series zs) = 0%nat) /\
  (forall series,
      (quantile series 0.25 =? quantile series 0.75) = true ->
      is_finite (quantile series 0.25) = true ->
      detect_outliers series
      = List.length (filter (fun x => negb (x =? quantile series 0.25))
                            (present series))) /\
  (forall series,
      series = Int64Series Samples64.one_to_hundred \/
      series = Float64Series (map of_int Samples64.one_to_hundred) ->
      quantile series 0.25 = 2.25 /\ quantile series 0.75 = 4.75 /\
      iqr_fence 2.25 4.75 = (-1.5, 8.5) /\
      map (strictly_outside (-1.5) 8.5) (as_floats series)
      = [false; false; false; false; false; true] /\
      detect_outliers series = 1%nat).
Proof.
  split; [exact detect_outliers_present|].
  split; [exact quartiles_floats|].
  split; [exact quartiles_ints|].
  split; [exact detect_outliers_nothing_present|].
  split; [exact detect_outliers_equal_floats|].
  split; [exact detect_outliers_equal_ints|].
  split; [exact detect_outliers_equal_quartiles|].
  intros series [-> | ->]; repeat split; vm_compute; reflexivity.
Qed.

Lemma detect_outliers_iqr_rule_witness :
  (quantile Samples64.zero_iqr 0.25 =? quantile Samples64.zero_iqr 0.75) = true /\
  is_finite (quantile Samples64.zero_iqr 0.25) = true /\
  quantile Samples64.zero_iqr 0.25 = 5 /\
  present Samples64.zero_iqr = [5; 5; 5; 7; 5] /\
  detect_outliers Samples64.zero_iqr = 1%nat.
Proof.
  split; [vm_compute; reflexivity|].
  split; [vm_compute; reflexivity|].
  split; [vm_compute; reflexivity|].
  split; [vm_compute; reflexivity|].
  rewrite (proj1 (proj2 (proj2 (proj2 (proj2 (proj2 (proj2
             detect_outliers_iqr_rule))))))
             Samples64.zero_iqr);
    vm_compute; reflexivity.
Defined.

(** The int64 column [2^53 + 1, 2^53, 2^53, 2^53, 2^53]: both quartiles
    are [2^53], so the fence is the single point [2^53], and one value,
    [2^53 + 1], is not equal to the quartile and lies above the fence.
    [detect_outliers] returns 0: the comparison converts [2^53 + 1] to
    float64, which gives [2^53]. *)
Lemma detect_outliers_beyond_2_53 :
  quantile (Int64Series Samples64.beyond_2_53) 0.25 = 9007199254740992 /\
  quantile (Int64Series Samples64.beyond_2_53) 0.75 = 9007199254740992 /\
  iqr_fence 9007199254740992 9007199254740992
  = (9007199254740992, 9007199254740992) /\
  filter (fun z => negb (z =? 9007199254740992)%Z) Samples64.beyond_2_53
  = [9007199254740993%Z] /\
  filter (fun z => (9007199254740992 <? z)%Z) Samples64.beyond_2_53
  = [9007199254740993%Z] /\
  detect_outliers (Int64Series Samples64.beyond_2_53) = 0%nat.
Proof. repeat split; vm_compute; reflexivity. Qed.

(** In float64 the upper fence of 0.7, 1.8, 1.5, 3.8 falls just below
    3.8, which is counted; without rounding the fence would be
    [[-0.2, 3.8]] and the count 0. *)
Lemma detect_outliers_on_the_fence :
  snd (iqr_fence (quantile Samples64.on_the_fence 0.25)
             (quantile Samples64.on_the_fence 0.75))
  = 0x1.e666666666665p+1 /\
  detect_outliers Samples64.on_the_fence = 1%nat.
Proof. split; vm_compute; reflexivity. Qed.

End Outlier64Facts.

(* ================================================================== *)
(** ** Small groups and missing values in binary64 *)
(* ================================================================== *)

Module Binary64More.

Import PrimFloat FloatOps SpecFloat FloatAxioms.
Import Binary64 Binary64Properties Binary64Facts Binary64ValueFacts.
Import Outlier64Facts.
Local Open Scope float_scope.

(** *** A group of fewer than two observations *)

Lemma div_zero_unbounded (x : float) : unbounded (Prim2SF (x / of_int 0)).
Proof.
  rewrite div_spec.
  change (Prim2SF (of_int 0)) with (S754_zero false).
  destruct (Prim2SF x) as [s|s| |s m e]; cbn.
  - now left.
  - right. now exists (xorb s false).
  - now left.
  - right. now exists (xorb s false).
Qed.

Lemma sqrt_unbounded (x : float) :
  unbounded (Prim2SF x) -> unbounded (Prim2SF (sqrt x)).
Proof.
  rewrite sqrt_spec. intros [->|[s ->]]; [now left|].
  destruct s; cbn; [now left|right; now exists false].
Qed.

Lemma zero_times_square (x : float) :
  unbounded (Prim2SF x) -> Prim2SF (of_int 0 * (x * x)) = S754_nan.
Proof.
  rewrite !mul_spec. change (Prim2SF (of_int 0)) with (S754_zero false).
  intros [->|[s ->]]; reflexivity.
Qed.

Lemma std_single (x : float) : unbounded (Prim2SF (std [x] 1)).
Proof. unfold std. apply sqrt_unbounded. unfold var. apply div_zero_unbounded. Qed.

Lemma SFdiv_nan_r (x : spec_float) : SFdiv prec emax x S754_nan = S754_nan.
Proof. now destruct x. Qed.

Lemma SFadd_nan_r (x : spec_float) : SFadd prec emax x S754_nan = S754_nan.
Proof. now destruct x. Qed.

Lemma nan_unique (x : float) : Prim2SF x = S754_nan -> x = nan.
Proof. intros H. apply Prim2SF_inj. now rewrite H. Qed.

Lemma cohens_d_nan_empty_l (group2 : list float) : cohens_d [] group2 = nan.
Proof.
  apply nan_unique. unfold cohens_d. cbv zeta.
  rewrite div_spec, sub_spec.
  change (Prim2SF (mean [])) with S754_nan. reflexivity.
Qed.

Lemma cohens_d_nan_empty_r (group1 : list float) : cohens_d group1 [] = nan.
Proof.
  apply nan_unique. unfold cohens_d. cbv zeta.
  rewrite div_spec, sub_spec.
  change (Prim2SF (mean [])) with S754_nan.
  now destruct (Prim2SF (mean group1)).
Qed.

Lemma cohens_d_nan_single_l (x : float) (group2 : list float) :
  cohens_d [x] group2 = nan.
Proof.
  apply nan_unique. unfold cohens_d. cbv zeta.
  rewrite div_spec, sqrt_spec, div_spec, add_spec.
  change (len [x] - 1)%Z with 0%Z.
  rewrite (zero_times_square _ (std_single x)).
  cbn [SF64add SFadd SF64div SFdiv SF64sqrt SFsqrt].
  apply SFdiv_nan_r.
Qed.

Lemma cohens_d_nan_single_r (group1 : list float) (y : float) :
  cohens_d group1 [y] = nan.
Proof.
  apply nan_unique. unfold cohens_d. cbv zeta.
  rewrite div_spec, sqrt_spec, div_spec, add_spec.
  change (len [y] - 1)%Z with 0%Z.
  rewrite (zero_times_square _ (std_single y)).
  unfold SF64add. rewrite SFadd_nan_r.
  cbn [SF64div SFdiv SF64sqrt SFsqrt].
  apply SFdiv_nan_r.
Qed.

(** X28.  In float64, as without rounding: when a group has fewer than
    two observations [cohens_d] returns NaN, whatever the other group
    is. *)
Theorem cohens_d_nan_below_two (group1 group2 : list float) :
  (List.length group1 < 2)%nat \/ (List.length group2 < 2)%nat ->
  cohens_d group1 group2 = nan.
Proof.
  intros [H|H].
  - destruct group1 as [|x [|x' group1]].
    + apply cohens_d_nan_empty_l.
    + apply cohens_d_nan_single_l.
    + simpl in H. lia.
  - destruct group2 as [|y [|y' group2]].
    + apply cohens_d_nan_empty_r.
    + apply cohens_d_nan_single_r.
    + simpl in H. lia.
Qed.

Lemma cohens_d_nan_below_two_witness :
  cohens_d [infinity] [1; 2; 4] = nan /\ cohens_d [1; 2; 4; 8] [] = nan.
Proof.
  split; apply cohens_d_nan_below_two; [left|right]; simpl; lia.
Defined.

(** *** Missing values *)

Lemma filter_twice {A : Type} (f : A -> bool) (l : list A) :
  filter f (filter f l) = filter f l.
Proof.
  induction l as [|x l IH]; [reflexivity|].
  cbn [filter]. destruct (f x) eqn:E; [|exact IH].
  cbn [filter]. now rewrite E, IH.
Qed.

Lemma quantile_skips_nan (xs : list float) (q : float) :
  quantile (Float64Series (filter notna xs)) q = quantile (Float64Series xs) q.
Proof. unfold quantile. now rewrite filter_twice. Qed.

Lemma filter_shorter {A : Type} (f : A -> bool) (l : list A) :
  (List.length (filter f l) <= List.length l)%nat.
Proof.
  induction l as [|x l IH]; [apply Nat.le_refl|].
  cbn [filter]. destruct (f x); simpl; lia.
Qed.

(** X29.  In float64: the NaN entries of a column play no part in
    [detect_outliers], the column without them has the same count; and
    the count of any column is at most the number of values present. *)
Theorem detect_outliers_skips_nan :
  (forall xs,
      detect_outliers (Float64Series xs)
      = detect_outliers (Float64Series (filter notna xs))) /\
  (forall series,
      (detect_outliers series <= List.length (present series))%nat).
Proof.
  split.
  - intros xs. rewrite !detect_outliers_present. unfold present.
    cbn [as_floats]. now rewrite filter_twice, !quantile_skips_nan.
  - intros series. rewrite detect_outliers_present. apply filter_shorter.
Qed.

End Binary64More.
